(** * ASPEED AST2600 PWM / fan-tachometer driver and ASPEED ADC driver

    A shallow embedding of the numeric core and of the register-level
    operations of
      - [drivers/hwmon/aspeed-g6-pwm-tacho.c]
      - [drivers/iio/adc/aspeed_adc.c]
    together with the properties established about them.

    Conventions.
    - C integers are mathematical integers ([Z]) with the wrap-around of
      their type written out ([u8], [u16], [u32], [ulong], [s32]).
    - [unsigned long] is 32 bits wide on the 32-bit ARM target of the
      AST2600 and 64 bits wide on a 64-bit build; both are covered by the
      [data_model] parameter.
    - A computation that traps (division by zero) or indexes an array out
      of bounds is [None] in the [option] monad.
    - The register map is a finite map from register offsets to 32-bit
      words, paired with the log of the regmap calls made on it. *)

From stdpp Require Import gmap list strings.
From Stdlib Require Import ZArith Lia Bool.
Local Open Scope Z_scope.

(** ** C integer arithmetic *)

Module C.

Inductive data_model := ILP32 | LP64.

Definition ulong_bits (dm : data_model) : Z :=
  match dm with ILP32 => 32 | LP64 => 64 end.

Definition wrap (w x : Z) : Z := x mod 2 ^ w.

Definition u8 : Z -> Z := wrap 8.
Definition u16 : Z -> Z := wrap 16.
Definition u32 : Z -> Z := wrap 32.
Definition ulong (dm : data_model) : Z -> Z := wrap (ulong_bits dm).

(** Conversion of a 32-bit pattern to [int] (two's complement). *)
Definition s32 (x : Z) : Z :=
  let y := u32 x in if y <? 2 ^ 31 then y else y - 2 ^ 32.

(** Conversion of an [int] to [unsigned long] (sign extension, then
    reinterpretation). *)
Definition ulong_of_int (dm : data_model) (x : Z) : Z := ulong dm (s32 x).

(** [BIT(n)] is [1UL << n]. *)
Definition BIT (dm : data_model) (n : Z) : Z := ulong dm (Z.shiftl 1 n).

(** Unsigned division; division by zero traps. *)
Definition udiv (a b : Z) : option Z :=
  if b =? 0 then None else Some (a / b).

Definition is_u8 (x : Z) : Prop := 0 <= x < 2 ^ 8.
Definition is_u16 (x : Z) : Prop := 0 <= x < 2 ^ 16.
Definition is_u32 (x : Z) : Prop := 0 <= x < 2 ^ 32.
Definition is_s32 (x : Z) : Prop := - 2 ^ 31 <= x < 2 ^ 31.
Definition is_ulong (dm : data_model) (x : Z) : Prop :=
  0 <= x < 2 ^ ulong_bits dm.

End C.
Import C.

(** ** Register map *)

Inductive regmap_op :=
| RegWrite (reg val : Z)
| RegUpdateBits (reg mask val : Z).

Record regmap_t := Regmap {
  reg_val : gmap Z Z;
  reg_ops : list regmap_op
}.

(** The word currently held by a register. *)
Definition regmap_peek (m : regmap_t) (reg : Z) : Z :=
  default 0 (reg_val m !! reg).

(** [regmap_write(map, reg, val)] through [writel]. *)
Definition regmap_write (m : regmap_t) (reg val : Z) : regmap_t :=
  {| reg_val := <[reg := u32 val]> (reg_val m);
     reg_ops := reg_ops m ++ [RegWrite reg val] |}.

(** [regmap_update_bits(map, reg, mask, val)]: read, replace the bits
    selected by [mask] with those of [val], write back. *)
Definition regmap_update_bits (m : regmap_t) (reg mask val : Z) : regmap_t :=
  let orig := regmap_peek m reg in
  let tmp := Z.lor (Z.land orig (Z.lnot mask)) (Z.land val mask) in
  {| reg_val := <[reg := u32 tmp]> (reg_val m);
     reg_ops := reg_ops m ++ [RegUpdateBits reg mask val] |}.

(** ** Register layout of the PWM / tachometer block *)

Definition ASPEED_PWM_CTRL_CH (x : Z) : Z := x * 0x10 + 0x00.
Definition PWM_LOAD_AS_WDT : Z := 2 ^ 19.
Definition PWM_DUTY_LOAD_AS_WDT_EN : Z := 2 ^ 18.
Definition PWM_CLK_ENABLE : Z := 2 ^ 16.
Definition PWM_PIN_EN : Z := 2 ^ 12.

Definition ASPEED_PWM_DUTY_CYCLE_CH (x : Z) : Z := x * 0x10 + 0x04.
Definition PWM_PERIOD_BIT : Z := 24.
Definition PWM_RISING_FALLING_AS_WDT_BIT : Z := 16.
Definition PWM_RISING_FALLING_BIT : Z := 8.
Definition PWM_RISING_RISING_BIT : Z := 0.
Definition PWM_PERIOD_MAX : Z := 255.

Definition ASPEED_TACHO_CTRL_CH (x : Z) : Z := x * 0x10 + 0x08.
Definition TACHO_IER : Z := 2 ^ 31.
Definition TACHO_INVERS_LIMIT : Z := 2 ^ 30.
Definition TACHO_ENABLE : Z := 2 ^ 28.
Definition TACHO_DEBOUNCE_BIT : Z := 26.
Definition TACHIO_EDGE_BIT : Z := 24.
Definition TACHO_CLK_DIV_T_MASK : Z := Z.shiftl 0xf 20.
Definition TACHO_CLK_DIV_BIT : Z := 20.

Definition ASPEED_TACHO_STS_CH (x : Z) : Z := x * 0x10 + 0x0C.
Definition TACHO_FULL_MEASUREMENT : Z := 2 ^ 20.
Definition TACHO_VALUE_MASK : Z := 0xfffff.

(** ** Driver data *)

Record aspeed_pwm_channel_params := PwmParams {
  target_freq : Z;
  pwm_freq : Z;
  load_wdt_rising_falling_pt : Z;
  load_wdt_selection : Z;
  load_wdt_enable : Z;
  duty_sync_enable : Z;
  invert_pin : Z;
  rising : Z;
  falling : Z
}.

Record aspeed_tacho_channel_params := TachoParams {
  min_rpm : Z;
  limited_inverse : Z;
  threshold : Z;
  tacho_edge : Z;
  tacho_debounce : Z;
  divide : Z
}.

Record aspeed_pwm_tachometer_data := PwmTachoData {
  regmap : regmap_t;
  clk_freq : Z;
  pwm_present : list bool;
  fan_tach_present : list bool;
  pwm_channel : list aspeed_pwm_channel_params;
  tacho_channel : list aspeed_tacho_channel_params
}.

Definition set_regmap (m : regmap_t) (p : aspeed_pwm_tachometer_data) :=
  {| regmap := m; clk_freq := clk_freq p;
     pwm_present := pwm_present p; fan_tach_present := fan_tach_present p;
     pwm_channel := pwm_channel p; tacho_channel := tacho_channel p |}.

Definition set_pwm_present (l : list bool) (p : aspeed_pwm_tachometer_data) :=
  {| regmap := regmap p; clk_freq := clk_freq p;
     pwm_present := l; fan_tach_present := fan_tach_present p;
     pwm_channel := pwm_channel p; tacho_channel := tacho_channel p |}.

Definition set_fan_tach_present (l : list bool)
    (p : aspeed_pwm_tachometer_data) :=
  {| regmap := regmap p; clk_freq := clk_freq p;
     pwm_present := pwm_present p; fan_tach_present := l;
     pwm_channel := pwm_channel p; tacho_channel := tacho_channel p |}.

Definition set_pwm_channel (l : list aspeed_pwm_channel_params)
    (p : aspeed_pwm_tachometer_data) :=
  {| regmap := regmap p; clk_freq := clk_freq p;
     pwm_present := pwm_present p; fan_tach_present := fan_tach_present p;
     pwm_channel := l; tacho_channel := tacho_channel p |}.

Definition set_tacho_channel (l : list aspeed_tacho_channel_params)
    (p : aspeed_pwm_tachometer_data) :=
  {| regmap := regmap p; clk_freq := clk_freq p;
     pwm_present := pwm_present p; fan_tach_present := fan_tach_present p;
     pwm_channel := pwm_channel p; tacho_channel := l |}.

Definition set_min_rpm (r : Z) (c : aspeed_tacho_channel_params) :=
  {| min_rpm := r; limited_inverse := limited_inverse c;
     threshold := threshold c; tacho_edge := tacho_edge c;
     tacho_debounce := tacho_debounce c; divide := divide c |}.

Definition set_divide (d : Z) (c : aspeed_tacho_channel_params) :=
  {| min_rpm := min_rpm c; limited_inverse := limited_inverse c;
     threshold := threshold c; tacho_edge := tacho_edge c;
     tacho_debounce := tacho_debounce c; divide := d |}.

Definition set_pwm_freq (f : Z) (c : aspeed_pwm_channel_params) :=
  {| target_freq := target_freq c; pwm_freq := f;
     load_wdt_rising_falling_pt := load_wdt_rising_falling_pt c;
     load_wdt_selection := load_wdt_selection c;
     load_wdt_enable := load_wdt_enable c;
     duty_sync_enable := duty_sync_enable c;
     invert_pin := invert_pin c; rising := rising c; falling := falling c |}.

Definition set_falling (f : Z) (c : aspeed_pwm_channel_params) :=
  {| target_freq := target_freq c; pwm_freq := pwm_freq c;
     load_wdt_rising_falling_pt := load_wdt_rising_falling_pt c;
     load_wdt_selection := load_wdt_selection c;
     load_wdt_enable := load_wdt_enable c;
     duty_sync_enable := duty_sync_enable c;
     invert_pin := invert_pin c; rising := rising c; falling := f |}.

(** The static tables [default_pwm_params] and [default_tacho_params]:
    sixteen identical entries each. *)
Definition PWM_FALLING_DEFAULT : Z := 255.

Definition default_pwm_entry (wdt_enable : Z) : aspeed_pwm_channel_params :=
  {| target_freq := 25000; pwm_freq := 0;
     load_wdt_rising_falling_pt := 0x10; load_wdt_selection := 0;
     load_wdt_enable := wdt_enable; duty_sync_enable := 0; invert_pin := 0;
     rising := 0x00; falling := PWM_FALLING_DEFAULT |}.

Definition default_pwm_params : list aspeed_pwm_channel_params :=
  default_pwm_entry 1 :: replicate 15 (default_pwm_entry 0).

Definition F2F_EDGES : Z := 0x00.

Definition default_tacho_entry : aspeed_tacho_channel_params :=
  {| min_rpm := 2900; limited_inverse := 0; threshold := 0;
     tacho_edge := F2F_EDGES; tacho_debounce := 0; divide := 8 |}.

Definition default_tacho_params : list aspeed_tacho_channel_params :=
  replicate 16 default_tacho_entry.

(** ** Tachometer clock divider ([aspeed_set_fan_tach_ch_enable]) *)

(** [target_div = (clk_freq * 60 / min_rpm * 2) / (0xfffff + 1)], evaluated
    in [unsigned long] and stored in a [u32]. *)
Definition tach_target_div (dm : data_model) (clk min_rpm : Z) : option Z :=
  q ← udiv (ulong dm (clk * 60)) min_rpm;
  Some (u32 (ulong dm (q * 2) / (0xfffff + 1))).

(** The loop [for (i = 0; i < 12; i++) { divide_val = BIT(i) * BIT(i);
    if (divide_val > target_div) break; }]; [n] counts the iterations
    that remain. The result is the pair [(i, divide_val)] at loop exit. *)
Fixpoint tach_div_loop (dm : data_model) (n : nat) (i divide_val target_div : Z)
    : Z * Z :=
  match n with
  | O => (i, divide_val)
  | S n' =>
      let divide_val := u32 (ulong dm (BIT dm i * BIT dm i)) in
      if divide_val >? target_div then (i, divide_val)
      else tach_div_loop dm n' (i + 1) divide_val target_div
  end.

(** Exponent [i] and divisor [divide_val] chosen for a target. *)
Definition tach_div_select (dm : data_model) (target_div : Z) : Z * Z :=
  if target_div =? 0 then (0, 1) else tach_div_loop dm 12 0 0 target_div.

Definition tach_divider (dm : data_model) (clk min_rpm : Z) : option (Z * Z) :=
  target_div ← tach_target_div dm clk min_rpm;
  Some (tach_div_select dm target_div).

Definition tacho_ctrl_value (c : aspeed_tacho_channel_params) (i : Z) : Z :=
  let reg_value :=
    u32 (Z.lor (Z.lor (Z.lor TACHO_ENABLE
                         (Z.shiftl (tacho_edge c) TACHIO_EDGE_BIT))
                  (Z.shiftl i TACHO_CLK_DIV_BIT))
           (Z.shiftl (tacho_debounce c) TACHO_DEBOUNCE_BIT)) in
  let reg_value :=
    if limited_inverse c =? 0 then reg_value
    else Z.lor reg_value TACHO_INVERS_LIMIT in
  if threshold c =? 0 then reg_value
  else Z.lor reg_value (Z.lor TACHO_IER (threshold c)).

Definition aspeed_set_fan_tach_ch_enable (dm : data_model)
    (priv : aspeed_pwm_tachometer_data) (fan_tach_ch : Z) (enable : bool)
    : option aspeed_pwm_tachometer_data :=
  if enable then
    c ← tacho_channel priv !! Z.to_nat fan_tach_ch;
    '(i, divide_val) ← tach_divider dm (clk_freq priv) (min_rpm c);
    let c := set_divide divide_val c in
    let priv :=
      set_tacho_channel (<[Z.to_nat fan_tach_ch := c]> (tacho_channel priv))
        priv in
    Some (set_regmap
            (regmap_write (regmap priv) (ASPEED_TACHO_CTRL_CH fan_tach_ch)
               (tacho_ctrl_value c i)) priv)
  else
    Some (set_regmap
            (regmap_update_bits (regmap priv)
               (ASPEED_TACHO_CTRL_CH fan_tach_ch) TACHO_ENABLE 0) priv).

(** The clock-divider field, bits 23:20 of the tacho control register. *)
Definition tacho_clk_div_field (reg_value : Z) : Z :=
  Z.shiftr (Z.land reg_value TACHO_CLK_DIV_T_MASK) TACHO_CLK_DIV_BIT.

(** ** PWM channel programming *)

Definition PWM_ENABLE_BITS : Z := Z.lor PWM_CLK_ENABLE PWM_PIN_EN.

Definition aspeed_set_pwm_channel_enable (m : regmap_t) (pwm_channel : Z)
    (enable : bool) : regmap_t :=
  regmap_update_bits m (ASPEED_PWM_CTRL_CH pwm_channel) PWM_ENABLE_BITS
    (if enable then PWM_ENABLE_BITS else 0).

(** [cal_freq / (BIT(div_h) * (div_l + 1))], in [unsigned long]. *)
Definition pwm_div_freq (dm : data_model) (cal_freq div_h div_l : Z)
    : option Z :=
  udiv cal_freq (ulong dm (BIT dm div_h * (div_l + 1))).

(** The loop test
    [cal_freq / (BIT(div_h) * (div_l + 1)) < priv->pwm_channel[index].target_freq];
    the [int] on the right is converted to [unsigned long]. *)
Definition pwm_freq_below (dm : data_model) (cal_freq div_h div_l target : Z)
    : option bool :=
  f ← pwm_div_freq dm cal_freq div_h div_l;
  Some (f <? ulong_of_int dm target).

(** Inner loop [for (div_h = 0; div_h < 0x10; div_h++) if (...) break;],
    [n] iterations remaining; the result is [div_h] at loop exit. *)
Fixpoint fan_ctrl_inner_loop (dm : data_model) (n : nat)
    (cal_freq div_h div_l target : Z) : option Z :=
  match n with
  | O => Some div_h
  | S n' =>
      b ← pwm_freq_below dm cal_freq div_h div_l target;
      if b : bool then Some div_h
      else fan_ctrl_inner_loop dm n' cal_freq (div_h + 1) div_l target
  end.

(** Outer loop [for (div_l = 0; div_l < 0x100; div_l++) { inner; if (...)
    break; }]; the result is [(div_h, div_l)] at loop exit. *)
Fixpoint fan_ctrl_outer_loop (dm : data_model) (n : nat)
    (cal_freq div_h div_l target : Z) : option (Z * Z) :=
  match n with
  | O => Some (div_h, div_l)
  | S n' =>
      div_h ← fan_ctrl_inner_loop dm 16 cal_freq 0 div_l target;
      b ← pwm_freq_below dm cal_freq div_h div_l target;
      if b : bool then Some (div_h, div_l)
      else fan_ctrl_outer_loop dm n' cal_freq div_h (div_l + 1) target
  end.

Definition pwm_cal_freq (dm : data_model) (clk : Z) : Z :=
  u32 (clk / (PWM_PERIOD_MAX + 1)).

(** The divider search of [aspeed_set_pwm_channel_fan_ctrl]: the pair
    [(div_h, div_l)] left by the nested loop. [div_h] is not initialised
    before the loop; the outer loop body always runs and assigns it. *)
Definition pwm_divider_search (dm : data_model) (clk target : Z)
    : option (Z * Z) :=
  fan_ctrl_outer_loop dm 256 (pwm_cal_freq dm clk) 0 0 target.

Definition pwm_ctrl_value (c : aspeed_pwm_channel_params) (div_h div_l : Z)
    : Z :=
  let ctrl_value := u32 (Z.lor (Z.shiftl div_h 8) div_l) in
  if load_wdt_enable c =? 0 then ctrl_value
  else
    let ctrl_value := Z.lor ctrl_value PWM_DUTY_LOAD_AS_WDT_EN in
    if load_wdt_selection c =? 0 then ctrl_value
    else Z.lor ctrl_value PWM_LOAD_AS_WDT.

Definition pwm_duty_value (c : aspeed_pwm_channel_params) (fan_ctrl : Z) : Z :=
  let duty_value :=
    u32 (Z.lor (Z.lor (Z.shiftl PWM_PERIOD_MAX PWM_PERIOD_BIT)
                  (Z.shiftl 0 PWM_RISING_RISING_BIT))
           (Z.shiftl fan_ctrl PWM_RISING_FALLING_BIT)) in
  if load_wdt_enable c =? 0 then duty_value
  else
    Z.lor duty_value
      (u32 (Z.shiftl (load_wdt_rising_falling_pt c)
              PWM_RISING_FALLING_AS_WDT_BIT)).

Definition aspeed_set_pwm_channel_fan_ctrl (dm : data_model)
    (priv : aspeed_pwm_tachometer_data) (index fan_ctrl : Z)
    : option aspeed_pwm_tachometer_data :=
  if fan_ctrl =? 0 then
    Some (set_regmap (aspeed_set_pwm_channel_enable (regmap priv) index false)
            priv)
  else
    c ← pwm_channel priv !! Z.to_nat index;
    let cal_freq := pwm_cal_freq dm (clk_freq priv) in
    '(div_h, div_l) ← pwm_divider_search dm (clk_freq priv) (target_freq c);
    f ← pwm_div_freq dm cal_freq div_h div_l;
    let c := set_pwm_freq (s32 f) c in
    let priv :=
      set_pwm_channel (<[Z.to_nat index := c]> (pwm_channel priv)) priv in
    let ctrl_value := pwm_ctrl_value c div_h div_l in
    let duty_value := pwm_duty_value c fan_ctrl in
    let m := regmap_write (regmap priv) (ASPEED_PWM_DUTY_CYCLE_CH index)
               duty_value in
    let m := regmap_write m (ASPEED_PWM_CTRL_CH index) ctrl_value in
    Some (set_regmap (aspeed_set_pwm_channel_enable m index true) priv).

(** ** Tachometer reading ([aspeed_get_fan_tach_ch_rpm]) *)

(** The bounded poll of the status register: [sts k] is the word the
    hardware returns on the [k]-th read, [n] the retries that remain. *)
Fixpoint tach_poll (sts : nat -> Z) (n i : nat) (val : Z) : Z :=
  match n with
  | O => val
  | S n' =>
      let val := u32 (sts i) in
      if Z.land TACHO_FULL_MEASUREMENT val =? 0
      then tach_poll sts n' (S i) val
      else val
  end.

(** Conversion of the status word last read into an RPM figure (the part
    of the function after the poll). *)
Definition tach_rpm_of_status (divide clk_freq val : Z) : option Z :=
  let raw_data := Z.land val TACHO_VALUE_MASK in
  if raw_data =? 0xfffff then Some 0
  else
    let raw_data := u32 (raw_data + 1) in
    let tach_div := u32 (u32 (raw_data * divide) * 2) in
    let clk_source := u32 clk_freq in
    if raw_data =? 0 then Some 0
    else
      q ← udiv clk_source tach_div;
      Some (s32 (u32 (q * 60))).

Definition aspeed_get_fan_tach_ch_rpm (priv : aspeed_pwm_tachometer_data)
    (fan_tach_ch : Z) (sts : nat -> Z) : option Z :=
  c ← tacho_channel priv !! Z.to_nat fan_tach_ch;
  tach_rpm_of_status (divide c) (clk_freq priv) (tach_poll sts 3 0 0).

(** ** Channel creation *)

(** [aspeed_create_pwm_channel]: mark the channel present and program
    it with the stored falling point. *)
Definition aspeed_create_pwm_channel (dm : data_model)
    (priv : aspeed_pwm_tachometer_data) (pwm_channel_ix : Z)
    : option aspeed_pwm_tachometer_data :=
  let priv :=
    set_pwm_present (<[Z.to_nat pwm_channel_ix := true]> (pwm_present priv))
      priv in
  c ← pwm_channel priv !! Z.to_nat pwm_channel_ix;
  aspeed_set_pwm_channel_fan_ctrl dm priv pwm_channel_ix (falling c).

(** How a call that contains an unbounded loop ends. *)
Inductive outcome (A : Type) :=
| Done (a : A)
| Trap
| OutOfFuel.
Arguments Done {A} _.
Arguments Trap {A}.
Arguments OutOfFuel {A}.

(** The loop [for (val = 0; val < count; val++)] of
    [aspeed_create_fan_tach_channel]: the counter [val] is a [u8]
    compared with the [int count], so it wraps at 256 and the loop ends
    only when [val] reaches [count]. [fuel] bounds the loop tests that
    are followed. The body marks channel [fan_tach_ch[val]] present,
    stores the minimum RPM and enables it; an access outside one of the
    arrays or a trap in the enable path is [Trap]. *)
Fixpoint create_fan_tach_loop (dm : data_model) (fuel : nat)
    (priv : aspeed_pwm_tachometer_data) (fan_tach_ch : list Z)
    (count val rpm : Z) : outcome aspeed_pwm_tachometer_data :=
  match fuel with
  | O => OutOfFuel
  | S fuel' =>
      if val <? count then
        match fan_tach_ch !! Z.to_nat val with
        | None => Trap
        | Some index =>
            match fan_tach_present priv !! Z.to_nat index,
                  tacho_channel priv !! Z.to_nat index with
            | Some _, Some c =>
                let priv :=
                  set_fan_tach_present
                    (<[Z.to_nat index := true]> (fan_tach_present priv))
                    priv in
                let priv :=
                  set_tacho_channel
                    (<[Z.to_nat index := set_min_rpm rpm c]>
                       (tacho_channel priv)) priv in
                match aspeed_set_fan_tach_ch_enable dm priv index true with
                | None => Trap
                | Some priv =>
                    create_fan_tach_loop dm fuel' priv fan_tach_ch count
                      (u8 (val + 1)) rpm
                end
            | _, _ => Trap
            end
        end
      else Done priv
  end.

(** [aspeed_create_fan_tach_channel(priv, fan_tach_ch, count, min_rpm)]. *)
Definition aspeed_create_fan_tach_channel (dm : data_model) (fuel : nat)
    (priv : aspeed_pwm_tachometer_data) (fan_tach_ch : list Z)
    (count rpm : Z) : outcome aspeed_pwm_tachometer_data :=
  create_fan_tach_loop dm fuel priv fan_tach_ch count 0 rpm.

(** ** Thermal cooling device *)

Definition EPERM : Z := 1.
Definition EINVAL : Z := 22.

Record aspeed_cooling_device := CoolingDevice {
  cdev_pwm_channel : Z;
  cooling_levels : list Z;
  max_state : Z;
  cur_state : Z
}.

Definition set_cur_state (s : Z) (d : aspeed_cooling_device) :=
  {| cdev_pwm_channel := cdev_pwm_channel d;
     cooling_levels := cooling_levels d;
     max_state := max_state d; cur_state := s |}.

(** [aspeed_pwm_cz_set_cur_state]. The cooling device refers to the
    driver data through [cdev->priv]; both objects are threaded through.
    The result is the return code with the two objects as left by the
    call. *)
Definition aspeed_pwm_cz_set_cur_state (dm : data_model)
    (cdev : aspeed_cooling_device) (priv : aspeed_pwm_tachometer_data)
    (state : Z)
    : option (Z * aspeed_cooling_device * aspeed_pwm_tachometer_data) :=
  if state >? max_state cdev then Some (- EINVAL, cdev, priv)
  else
    let cdev := set_cur_state (u8 state) cdev in
    lvl ← cooling_levels cdev !! Z.to_nat (cur_state cdev);
    c ← pwm_channel priv !! Z.to_nat (cdev_pwm_channel cdev);
    let priv :=
      set_pwm_channel
        (<[Z.to_nat (cdev_pwm_channel cdev) := set_falling lvl c]>
           (pwm_channel priv)) priv in
    priv ← aspeed_set_pwm_channel_fan_ctrl dm priv
             (u8 (cdev_pwm_channel cdev)) lvl;
    Some (0, cdev, priv).

(** ** ADC ([aspeed_adc.c]) *)

Module Adc.

Definition ASPEED_CLOCKS_PER_SAMPLE : Z := 12.

Record aspeed_adc_model_data := ModelData {
  model_name : string;
  min_sampling_rate : Z;
  max_sampling_rate : Z;
  vref_voltage : Z;
  wait_init_sequence : bool;
  num_channels : Z
}.

Definition ast2400_model_data : aspeed_adc_model_data :=
  {| model_name := "ast2400-adc";
     vref_voltage := 2500; min_sampling_rate := 10000;
     max_sampling_rate := 500000; wait_init_sequence := false;
     num_channels := 16 |}.

Definition ast2500_model_data : aspeed_adc_model_data :=
  {| model_name := "ast2500-adc";
     vref_voltage := 1800; min_sampling_rate := 1;
     max_sampling_rate := 1000000; wait_init_sequence := true;
     num_channels := 16 |}.

Definition ast2600_model_data : aspeed_adc_model_data :=
  {| model_name := "ast2500-adc";
     vref_voltage := 1800; min_sampling_rate := 1;
     max_sampling_rate := 1000000; wait_init_sequence := true;
     num_channels := 8 |}.

(** The match table [aspeed_adc_matches]. *)
Definition aspeed_adc_matches : list aspeed_adc_model_data :=
  [ast2400_model_data; ast2500_model_data; ast2600_model_data].

(** The attribute selector ([long mask]) of the IIO callbacks; every
    value the driver does not name is [IIO_CHAN_INFO_OTHER]. *)
Inductive iio_chan_info :=
| IIO_CHAN_INFO_RAW
| IIO_CHAN_INFO_SCALE
| IIO_CHAN_INFO_SAMP_FREQ
| IIO_CHAN_INFO_OTHER (n : Z).

(** Device state: the register window at [data->base] and the state of
    the clock tree below [data->clk_scaler]. *)
Record aspeed_adc_data (clk_state : Type) := AdcData {
  base : gmap Z Z;
  clk_scaler : clk_state;
  cv : Z
}.
Arguments AdcData {clk_state} _ _ _.
Arguments base {clk_state} _.
Arguments clk_scaler {clk_state} _.
Arguments cv {clk_state} _.

Section WriteRaw.
(** The common clock framework is outside the driver: [clk_set_rate]
    may reprogram the divider fields of the clock-control register and
    the bookkeeping of the clock tree in any way. *)
Context {clk_state : Type}.
Variable clk_set_rate :
  aspeed_adc_data clk_state -> Z -> aspeed_adc_data clk_state.

(** [aspeed_adc_write_raw]: return code and device state. The [int val]
    is compared with the [unsigned int] bounds after conversion. *)
Definition aspeed_adc_write_raw (dm : data_model)
    (model_data : aspeed_adc_model_data)
    (data : aspeed_adc_data clk_state) (val val2 : Z)
    (mask : iio_chan_info) : Z * aspeed_adc_data clk_state :=
  match mask with
  | IIO_CHAN_INFO_SAMP_FREQ =>
      if (u32 val <? min_sampling_rate model_data)
         || (u32 val >? max_sampling_rate model_data)
      then (- EINVAL, data)
      else
        (0, clk_set_rate data
              (ulong_of_int dm (val * ASPEED_CLOCKS_PER_SAMPLE)))
  | IIO_CHAN_INFO_SCALE
  | IIO_CHAN_INFO_RAW => (- EPERM, data)
  | IIO_CHAN_INFO_OTHER _ => (- EINVAL, data)
  end.
End WriteRaw.

End Adc.

(** ** Reference definitions taken from the specification *)

Module Spec.

(** RPM conversion as the specification words it, over unbounded
    integers: zero for the sentinel [0xFFFFF]; otherwise
    [count = raw_count + 1], [denom = count * divisor * 2] and
    [(source_clock_hz / denom) * 60]. *)
Definition raw_to_rpm (raw_count divisor source_clock_hz : Z) : Z :=
  if raw_count =? 0xFFFFF then 0
  else
    let count := raw_count + 1 in
    let denom := count * divisor * 2 in
    (source_clock_hz / denom) * 60.

(** Effective PWM frequency of a divider pair. *)
Definition pwm_effective_freq (cal_freq div_h div_l : Z) : Z :=
  cal_freq / (2 ^ div_h * (div_l + 1)).

(** A divider pair of the ladder: [div_h] in 0..15, [div_l] in 0..255. *)
Definition on_ladder (div_h div_l : Z) : Prop :=
  0 <= div_h <= 15 /\ 0 <= div_l <= 255.

(** The pair gives the largest ladder frequency that does not exceed the
    target. *)
Definition best_on_ladder (cal_freq target div_h div_l : Z) : Prop :=
  pwm_effective_freq cal_freq div_h div_l <= target /\
  forall h l, on_ladder h l ->
    pwm_effective_freq cal_freq h l <= target ->
    pwm_effective_freq cal_freq h l <= pwm_effective_freq cal_freq div_h div_l.

(** Position of a pair in the order in which the nested loop visits
    them: [div_l] ascending, and for each [div_l] the exponents 0..15
    followed by the re-test at the exponent the inner loop left. *)
Definition visited_before (h l div_h div_l : Z) : Prop :=
  0 <= l /\ 0 <= h /\ (l < div_l /\ h <= 16 \/ l = div_l /\ h < div_h).

End Spec.

(** A driver instance as [probe] sets it up: empty register window, no
    channel present yet, the two default tables, and the given source
    clock. *)
Definition probe_data (clk : Z) : aspeed_pwm_tachometer_data :=
  {| regmap := {| reg_val := ∅; reg_ops := [] |}; clk_freq := clk;
     pwm_present := replicate 16 false;
     fan_tach_present := replicate 16 false;
     pwm_channel := default_pwm_params;
     tacho_channel := default_tacho_params |}.

(** A cooling device on PWM channel 2 with four levels. *)
Definition example_cdev : aspeed_cooling_device :=
  {| cdev_pwm_channel := 2; cooling_levels := [0; 85; 170; 255];
     max_state := 3; cur_state := 0 |}.

(** A clock tree reduced to the rate last requested of the scaler. *)
Definition example_clk_set_rate (data : Adc.aspeed_adc_data Z) (rate : Z)
    : Adc.aspeed_adc_data Z :=
  Adc.AdcData (Adc.base data) rate (Adc.cv data).

Definition example_adc_data : Adc.aspeed_adc_data Z :=
  Adc.AdcData ∅ 0 0.

(** ** Properties as the specification words them *)

Module Claim.

(** The divider search returns the best pair of the ladder. *)
Definition pwm_search_is_best (dm : data_model) (clk target : Z) : Prop :=
  exists div_h div_l,
    pwm_divider_search dm clk target = Some (div_h, div_l) /\
    Spec.best_on_ladder (pwm_cal_freq dm clk) target div_h div_l.

(** The conversion agrees with the reference definition on a status
    word. *)
Definition rpm_is_reference (divide clk val : Z) : Prop :=
  tach_rpm_of_status divide clk val
  = Some (Spec.raw_to_rpm (Z.land val TACHO_VALUE_MASK) divide clk).

(** The conversion is non-increasing in the raw count. *)
Definition rpm_non_increasing (divide clk : Z) : Prop :=
  forall a b ra rb,
    0 <= a <= b -> b <= 0xFFFFF ->
    tach_rpm_of_status divide clk a = Some ra ->
    tach_rpm_of_status divide clk b = Some rb ->
    rb <= ra.

End Claim.

(** ** sysfs attributes of the PWM / tachometer driver *)

(** Contiguous bit mask from bit [l] up to bit [h] ([GENMASK(h, l)]). *)
Definition GENMASK (h l : Z) : Z := Z.shiftl (Z.ones (h - l + 1)) l.

(** [set_pwm]. The text-to-number helper [kstrtol] is outside the driver:
    [kstrtol_ret] is its return code and [fan_ctrl] the number it
    stored. The result is the value returned to the caller ([count] or a
    negative error) with the driver data as left by the call. *)
Definition set_pwm (priv : aspeed_pwm_tachometer_data) (index : Z)
    (kstrtol_ret fan_ctrl : Z) (count : Z)
    : option (Z * aspeed_pwm_tachometer_data) :=
  c ← pwm_channel priv !! Z.to_nat index;
  let org_falling := falling c in
  if negb (kstrtol_ret =? 0) then Some (kstrtol_ret, priv)
  else if (fan_ctrl <? 0) || (fan_ctrl >? PWM_PERIOD_MAX)
  then Some (- EINVAL, priv)
  else if falling c =? fan_ctrl then Some (count, priv)
  else
    let priv :=
      set_pwm_channel
        (<[Z.to_nat index := set_falling fan_ctrl c]> (pwm_channel priv))
        priv in
    let m :=
      if fan_ctrl =? 0
      then aspeed_set_pwm_channel_enable (regmap priv) index false
      else regmap_update_bits (regmap priv) (ASPEED_PWM_DUTY_CYCLE_CH index)
             (GENMASK 15 8) (Z.shiftl fan_ctrl PWM_RISING_FALLING_BIT) in
    let m :=
      if org_falling =? 0 then aspeed_set_pwm_channel_enable m index true
      else m in
    Some (count, set_regmap m priv).

(** [show_pwm]: the number printed. *)
Definition show_pwm (priv : aspeed_pwm_tachometer_data) (index : Z)
    : option Z :=
  c ← pwm_channel priv !! Z.to_nat index;
  Some (falling c).

(** [pwm_is_visible] and [fan_dev_is_visible]: the attribute mode, or 0
    for a channel that is not present. *)
Definition pwm_is_visible (priv : aspeed_pwm_tachometer_data) (mode : Z)
    (index : Z) : option Z :=
  present ← pwm_present priv !! Z.to_nat index;
  Some (if present : bool then mode else 0).

Definition fan_dev_is_visible (priv : aspeed_pwm_tachometer_data) (mode : Z)
    (index : Z) : option Z :=
  present ← fan_tach_present priv !! Z.to_nat index;
  Some (if present : bool then mode else 0).

(** ** Cooling device queries *)

(** [aspeed_pwm_cz_get_max_state] and [aspeed_pwm_cz_get_cur_state]:
    return code and the value stored through [state]. *)
Definition aspeed_pwm_cz_get_max_state (cdev : aspeed_cooling_device)
    : Z * Z := (0, max_state cdev).

Definition aspeed_pwm_cz_get_cur_state (cdev : aspeed_cooling_device)
    : Z * Z := (0, cur_state cdev).

(** ** The PWM chip operations *)

Definition ERANGE : Z := 34.
Definition NSEC_PER_SEC : Z := 1000000000.

Definition PWM_PERIOD_BIT_MASK : Z := Z.shiftl 0xff 24.
Definition PWM_RISING_FALLING_MASK : Z := 0xffff.
Definition PWM_CLK_DIV_H_MASK : Z := Z.shiftl 0xf 8.
Definition PWM_CLK_DIV_L_MASK : Z := 0xff.

Record aspeed_pwm_output_chan := PwmOutputChan {
  period_ns : Z;
  duty_ns : Z
}.

(** [priv->clk_tick_ns]: [probe] stores [NSEC_PER_SEC / priv->clk_freq]
    next to the clock rate and neither is written again, so the field is
    read back as that quotient. *)
Definition clk_tick_ns (dm : data_model) (priv : aspeed_pwm_tachometer_data)
    : Z :=
  u32 (ulong dm NSEC_PER_SEC / clk_freq priv).

(** [aspeed_pwm_enable] and [aspeed_pwm_disable]. *)
Definition aspeed_pwm_enable (priv : aspeed_pwm_tachometer_data) (hwpwm : Z)
    : Z * aspeed_pwm_tachometer_data :=
  (0, set_regmap (aspeed_set_pwm_channel_enable (regmap priv) hwpwm true)
        priv).

Definition aspeed_pwm_disable (priv : aspeed_pwm_tachometer_data) (hwpwm : Z)
    : aspeed_pwm_tachometer_data :=
  set_regmap (aspeed_set_pwm_channel_enable (regmap priv) hwpwm false) priv.

(** [tick_ns = priv->clk_tick_ns * BIT(div_h) * (div_l + 1)], kept in a
    [u32]. *)
Definition pwm_config_tick (dm : data_model) (tick div_h div_l : Z) : Z :=
  u32 (ulong dm (ulong dm (tick * BIT dm div_h) * (div_l + 1))).

(** [tick_ns * PWM_PERIOD_MAX >= period_ns], compared as
    [unsigned int]. *)
Definition pwm_config_fits (tick_ns period : Z) : bool :=
  u32 (tick_ns * PWM_PERIOD_MAX) >=? u32 period.

(** Inner loop [for (div_h = 0; div_h <= 0xf; div_h++)] of
    [aspeed_pwm_config], [n] iterations remaining; the result is
    [(div_h, tick_ns)] at loop exit. *)
Fixpoint pwm_config_inner (dm : data_model) (n : nat)
    (tick div_h div_l tick_ns period : Z) : Z * Z :=
  match n with
  | O => (div_h, tick_ns)
  | S n' =>
      let tick_ns := pwm_config_tick dm tick div_h div_l in
      if pwm_config_fits tick_ns period then (div_h, tick_ns)
      else pwm_config_inner dm n' tick (u8 (div_h + 1)) div_l tick_ns period
  end.

(** Outer loop [for (div_l = 0; div_l <= 0xff; div_l++)]: [div_l] is a
    [u8], so the loop test always holds and the counter wraps; the loop
    ends only through [break]. [fuel] bounds the iterations that are
    followed; the result is [(div_h, div_l, tick_ns)] at the break. *)
Fixpoint pwm_config_outer (dm : data_model) (fuel : nat)
    (tick div_l tick_ns period : Z) : option (Z * Z * Z) :=
  match fuel with
  | O => None
  | S fuel' =>
      let '(div_h, tick_ns) :=
        pwm_config_inner dm 16 tick 0 div_l tick_ns period in
      if pwm_config_fits tick_ns period then Some (div_h, div_l, tick_ns)
      else pwm_config_outer dm fuel' tick (u8 (div_l + 1)) tick_ns period
  end.

(** [aspeed_pwm_config]: return code, driver data and channel data. *)
Definition aspeed_pwm_config (dm : data_model) (fuel : nat)
    (priv : aspeed_pwm_tachometer_data) (chan : aspeed_pwm_output_chan)
    (hwpwm duty period : Z)
    : outcome (Z * aspeed_pwm_tachometer_data * aspeed_pwm_output_chan) :=
  if period >? NSEC_PER_SEC then Done (- ERANGE, priv, chan)
  else if (period_ns chan =? u32 period) && (duty_ns chan =? u32 duty)
  then Done (0, priv, chan)
  else
    match pwm_config_outer dm fuel (clk_tick_ns dm priv) 0 0 period with
    | None => OutOfFuel
    | Some (div_h, div_l, tick_ns) =>
        match udiv (u32 period) tick_ns with
        | None => Trap
        | Some q =>
            if q >? PWM_PERIOD_MAX then Done (- ERANGE, priv, chan)
            else
              let ctrl_value := u32 (Z.lor (Z.shiftl div_h 8) div_l) in
              let period_value := u8 q in
              let falling_point := 0 in
              let rising_point := u8 (u32 duty / tick_ns) in
              let duty_value :=
                u32 (Z.lor (Z.lor (Z.shiftl period_value PWM_PERIOD_BIT)
                              (Z.shiftl falling_point PWM_RISING_RISING_BIT))
                       (Z.shiftl rising_point PWM_RISING_FALLING_BIT)) in
              let m :=
                regmap_update_bits (regmap priv)
                  (ASPEED_PWM_DUTY_CYCLE_CH hwpwm)
                  (Z.lor PWM_PERIOD_BIT_MASK PWM_RISING_FALLING_MASK)
                  duty_value in
              let m :=
                regmap_update_bits m (ASPEED_PWM_CTRL_CH hwpwm)
                  (Z.lor PWM_CLK_DIV_H_MASK PWM_CLK_DIV_L_MASK)
                  ctrl_value in
              Done (0, set_regmap m priv,
                    {| period_ns := u32 period; duty_ns := u32 duty |})
        end
    end.

(** ** ADC: attribute reads and the set-up arithmetic of [probe] *)

Module AdcIo.

Import Adc.

(** [readl] and [readw] on the register window (little-endian
    halfwords of the 32-bit registers). *)
Definition readl {clk_state : Type} (data : aspeed_adc_data clk_state)
    (offset : Z) : Z :=
  u32 (default 0 (base data !! offset)).

Definition readw {clk_state : Type} (data : aspeed_adc_data clk_state)
    (offset : Z) : Z :=
  Z.land (Z.shiftr (readl data (offset - offset mod 4))
            (8 * (offset mod 4))) 0xffff.

Record iio_chan_spec := IioChan {
  channel : Z;
  address : Z
}.

Definition ASPEED_CHAN (idx data_reg_addr : Z) : iio_chan_spec :=
  {| channel := idx; address := data_reg_addr |}.

Definition aspeed_adc_iio_channels : list iio_chan_spec :=
  [ASPEED_CHAN 0 0x10; ASPEED_CHAN 1 0x12; ASPEED_CHAN 2 0x14;
   ASPEED_CHAN 3 0x16; ASPEED_CHAN 4 0x18; ASPEED_CHAN 5 0x1A;
   ASPEED_CHAN 6 0x1C; ASPEED_CHAN 7 0x1E; ASPEED_CHAN 8 0x20;
   ASPEED_CHAN 9 0x22; ASPEED_CHAN 10 0x24; ASPEED_CHAN 11 0x26;
   ASPEED_CHAN 12 0x28; ASPEED_CHAN 13 0x2A; ASPEED_CHAN 14 0x2C;
   ASPEED_CHAN 15 0x2E].

Definition ASPEED_RESOLUTION_BITS : Z := 10.

(** What a read callback hands back: the IIO value kind with the values
    stored through [val] and [val2], or a negative error. *)
Inductive iio_read_result :=
| IIO_VAL_INT (val : Z)
| IIO_VAL_FRACTIONAL_LOG2 (val val2 : Z)
| IIO_READ_ERR (err : Z).

Section ReadRaw.
Context {clk_state : Type}.
Variable clk_get_rate : aspeed_adc_data clk_state -> Z.

(** [aspeed_adc_read_raw]; the values go through [int *val]. *)
Definition aspeed_adc_read_raw (model_data : aspeed_adc_model_data)
    (data : aspeed_adc_data clk_state) (chan : iio_chan_spec)
    (mask : iio_chan_info) : iio_read_result :=
  match mask with
  | IIO_CHAN_INFO_RAW => IIO_VAL_INT (s32 (readw data (address chan)))
  | IIO_CHAN_INFO_SCALE =>
      IIO_VAL_FRACTIONAL_LOG2 (s32 (vref_voltage model_data))
        ASPEED_RESOLUTION_BITS
  | IIO_CHAN_INFO_SAMP_FREQ =>
      IIO_VAL_INT (s32 (clk_get_rate data / ASPEED_CLOCKS_PER_SAMPLE))
  | IIO_CHAN_INFO_OTHER _ => IIO_READ_ERR (- EINVAL)
  end.
End ReadRaw.

Definition ASPEED_REG_MAX : Z := 0xC0.

(** [aspeed_adc_reg_access]: [readval] is [None] for a null pointer and
    [Some tt] otherwise; the result is the return code with the word
    stored through [readval], if any. *)
Definition aspeed_adc_reg_access {clk_state : Type}
    (data : aspeed_adc_data clk_state) (reg writeval : Z)
    (readval : option unit) : Z * option Z :=
  match readval with
  | None => (- EINVAL, None)
  | Some _ =>
      if negb (reg mod 4 =? 0) || (reg >? ASPEED_REG_MAX)
      then (- EINVAL, None)
      else (0, Some (readl data reg))
  end.

Definition REF_VLOTAGE_2500mV : Z := 0.
Definition REF_VLOTAGE_1200mV : Z := GENMASK 6 6.
Definition REF_VLOTAGE_1550mV : Z := GENMASK 7 7.
Definition REF_VLOTAGE_900mV : Z := GENMASK 7 6.
Definition ASPEED_AUTOPENSATING : Z := 2 ^ 5.
Definition ASPEED_OPERATION_MODE_NORMAL : Z := Z.shiftl 0x7 1.
Definition ASPEED_ENGINE_ENABLE : Z := 2 ^ 0.
Definition ASPEED_ADC_CTRL_INIT_RDY : Z := 2 ^ 8.

(** The reference-voltage selection of [aspeed_adc_probe]: [ref_voltage]
    is the [u32] device-tree property, [None] when it is absent. *)
Definition probe_ref_voltage_ctrl (ref_voltage : option Z) : Z :=
  match ref_voltage with
  | Some vref_voltage =>
      if vref_voltage =? 2500 then REF_VLOTAGE_2500mV
      else if vref_voltage =? 1200 then REF_VLOTAGE_1200mV
      else if (vref_voltage >=? 1550) && (vref_voltage <=? 2700)
      then REF_VLOTAGE_1550mV
      else if (vref_voltage >=? 900) && (vref_voltage <=? 1650)
      then REF_VLOTAGE_900mV
      else 0
  | None => 0
  end.

(** The compensating value [data->cv = 0x200 - (readl(base + 0x10) &
    GENMASK(9, 0))], an [int]. *)
Definition probe_compensating_value {clk_state : Type} (dm : data_model)
    (data : aspeed_adc_data clk_state) : Z :=
  s32 (ulong dm (0x200 - Z.land (readl data 0x10) (GENMASK 9 0))).

(** The engine-control word that starts all channels in normal mode. *)
Definition probe_engine_control (eng_ctrl : Z) : Z :=
  u32 (Z.lor (Z.lor (Z.lor eng_ctrl (GENMASK 31 16))
                ASPEED_OPERATION_MODE_NORMAL) ASPEED_ENGINE_ENABLE).

End AdcIo.

(** ** State predicates used by the properties below *)

(** The two gating bits of a channel's control register. *)
Definition pwm_clk_enabled (m : regmap_t) (ch : Z) : bool :=
  Z.testbit (regmap_peek m (ASPEED_PWM_CTRL_CH ch)) 16.

Definition pwm_pin_enabled (m : regmap_t) (ch : Z) : bool :=
  Z.testbit (regmap_peek m (ASPEED_PWM_CTRL_CH ch)) 12.

(** The stored falling point and the gating bits agree: the output is
    gated off exactly when the falling point is 0. *)
Definition pwm_consistent (priv : aspeed_pwm_tachometer_data) (ch : Z)
    : Prop :=
  exists c,
    pwm_channel priv !! Z.to_nat ch = Some c /\
    pwm_clk_enabled (regmap priv) ch = negb (falling c =? 0) /\
    pwm_pin_enabled (regmap priv) ch = negb (falling c =? 0).

(** The falling-point field, bits 15:8 of the duty-cycle register. *)
Definition pwm_duty_falling_field (reg_value : Z) : Z :=
  Z.shiftr (Z.land reg_value (GENMASK 15 8)) PWM_RISING_FALLING_BIT.

(** The register operations of [set_pwm] once a new value is accepted:
    the duty update or the gate-off, then the gate-on when the channel
    was off. *)
Definition set_pwm_regmap (m : regmap_t) (index org_falling fan_ctrl : Z)
    : regmap_t :=
  let m :=
    if fan_ctrl =? 0 then aspeed_set_pwm_channel_enable m index false
    else regmap_update_bits m (ASPEED_PWM_DUTY_CYCLE_CH index)
           (GENMASK 15 8) (Z.shiftl fan_ctrl PWM_RISING_FALLING_BIT) in
  if org_falling =? 0 then aspeed_set_pwm_channel_enable m index true else m.

(** A driver instance with channel 1 running: gating bits set in its
    control register, default tables. *)
Definition example_running_data : aspeed_pwm_tachometer_data :=
  set_regmap {| reg_val := {[ ASPEED_PWM_CTRL_CH 1 := 0x11000 ]};
                reg_ops := [] |} (probe_data 24000000).

(** The bit-field members of a tachometer channel fit their C types. *)
Definition tacho_fields_in_range (c : aspeed_tacho_channel_params) : Prop :=
  is_u8 (tacho_edge c) /\ is_u8 (tacho_debounce c) /\ is_u16 (threshold c).

(** The rate last requested of the example clock tree. *)
Definition example_clk_get_rate (data : Adc.aspeed_adc_data Z) : Z :=
  Adc.clk_scaler data.

(** The period field (bits 31:24) and the rising-point field (bits 7:0)
    of the duty-cycle register. *)
Definition pwm_duty_period_field (reg_value : Z) : Z :=
  Z.shiftr (Z.land reg_value PWM_PERIOD_BIT_MASK) PWM_PERIOD_BIT.

Definition pwm_duty_rising_field (reg_value : Z) : Z :=
  Z.land reg_value 0xff.

(** What holds of a tachometer channel once it has been created with a
    minimum RPM [rpm] and the divider exponent [i]. *)
Definition tach_channel_created (rpm i : Z)
    (priv' : aspeed_pwm_tachometer_data) (ch : Z) : Prop :=
  fan_tach_present priv' !! Z.to_nat ch = Some true /\
  (exists c', tacho_channel priv' !! Z.to_nat ch = Some c' /\
              min_rpm c' = rpm /\ divide c' = 4 ^ i) /\
  tacho_clk_div_field (regmap_peek (regmap priv') (ASPEED_TACHO_CTRL_CH ch))
    = i /\
  Z.testbit (regmap_peek (regmap priv') (ASPEED_TACHO_CTRL_CH ch)) 28 = true.

(** What holds of a tachometer channel that a call left alone. *)
Definition tach_channel_untouched (priv priv' : aspeed_pwm_tachometer_data)
    (ch : Z) : Prop :=
  tacho_channel priv' !! Z.to_nat ch = tacho_channel priv !! Z.to_nat ch /\
  fan_tach_present priv' !! Z.to_nat ch
    = fan_tach_present priv !! Z.to_nat ch /\
  regmap_peek (regmap priv') (ASPEED_TACHO_CTRL_CH ch)
    = regmap_peek (regmap priv) (ASPEED_TACHO_CTRL_CH ch).

(** * Properties *)

(** ** Facts about the integer model *)

Section CFacts.

Lemma wrap_small w x : 0 <= x < 2 ^ w -> wrap w x = x.
Proof. intros H. unfold wrap. apply Z.mod_small; exact H. Qed.

Lemma wrap_range w x : 0 <= w -> 0 <= wrap w x < 2 ^ w.
Proof.
  intros Hw. unfold wrap. apply Z.mod_pos_bound.
  apply Z.pow_pos_nonneg; lia.
Qed.

Lemma u32_small x : is_u32 x -> u32 x = x.
Proof. apply wrap_small. Qed.

Lemma u32_range x : is_u32 (u32 x).
Proof. apply wrap_range. lia. Qed.

Lemma ulong_small dm x : is_u32 x -> ulong dm x = x.
Proof.
  intros [H0 H1]. apply wrap_small. split; [exact H0|].
  eapply Z.lt_le_trans; [exact H1|].
  apply Z.pow_le_mono_r; destruct dm; simpl; lia.
Qed.

Lemma ulong_le dm x : 0 <= x -> 0 <= ulong dm x <= x.
Proof.
  intros H. unfold ulong, wrap.
  assert (0 < 2 ^ ulong_bits dm) by (destruct dm; simpl; lia).
  split; [apply Z.mod_pos_bound; lia | apply Z.mod_le; lia].
Qed.

Lemma BIT_pow2 dm n : 0 <= n < 32 -> BIT dm n = 2 ^ n.
Proof.
  intros Hn. unfold BIT. rewrite Z.shiftl_1_l.
  apply ulong_small. split; [apply Z.pow_nonneg; lia|].
  apply Z.pow_lt_mono_r; lia.
Qed.

Lemma s32_small x : 0 <= x < 2 ^ 31 -> s32 x = x.
Proof.
  intros H. unfold s32. rewrite u32_small by (unfold is_u32; lia).
  destruct (Z.ltb_spec x (2 ^ 31)); lia.
Qed.

Lemma udiv_Some a b : b <> 0 -> udiv a b = Some (a / b).
Proof. intros H. unfold udiv. destruct (Z.eqb_spec b 0); congruence. Qed.

Lemma testbit_above k a m : 0 <= a < 2 ^ k -> k <= m -> Z.testbit a m = false.
Proof.
  intros [Ha0 Ha] Hkm.
  destruct (Z.eq_dec a 0) as [->|Hne]; [apply Z.testbit_0_l|].
  apply Z.bits_above_log2; [exact Ha0|].
  assert (0 <= k).
  { destruct (Z.le_gt_cases 0 k); [assumption|].
    rewrite Z.pow_neg_r in Ha by assumption. lia. }
  assert (Z.log2 a < k) by (apply Z.log2_lt_pow2; lia). lia.
Qed.

End CFacts.

(** ** Tachometer divider *)

Section TachoDivider.

Variable dm : data_model.

Lemma tach_candidate i :
  0 <= i <= 11 -> u32 (ulong dm (BIT dm i * BIT dm i)) = 4 ^ i.
Proof.
  intros Hi. rewrite BIT_pow2 by lia.
  replace (2 ^ i * 2 ^ i) with (4 ^ i).
  2:{ change 4 with (2 ^ 2). rewrite <- Z.pow_mul_r, <- Z.pow_add_r by lia.
      f_equal. lia. }
  assert (0 < 4 ^ i) by (apply Z.pow_pos_nonneg; lia).
  assert (4 ^ i <= 4 ^ 11) by (apply Z.pow_le_mono_r; lia).
  assert (is_u32 (4 ^ i)) by (unfold is_u32; lia).
  rewrite ulong_small by assumption. apply u32_small. assumption.
Qed.

(** Invariant of the exponent scan: every exponent below the returned
    one was tested and did not exceed the target; a return before the
    bound is a hit. *)
Lemma tach_div_loop_inv n : forall i dv t,
  0 <= i -> i + Z.of_nat n <= 12 ->
  (forall j, 0 <= j < i -> 4 ^ j <= t) ->
  exists i' dv',
    tach_div_loop dm n i dv t = (i', dv') /\
    i <= i' <= i + Z.of_nat n /\
    (forall j, 0 <= j < i' -> 4 ^ j <= t) /\
    (i' < i + Z.of_nat n -> dv' = 4 ^ i' /\ t < 4 ^ i').
Proof.
  induction n as [|n IH]; intros i dv t Hi Hn Hlow.
  - exists i, dv. simpl. repeat split; try lia. exact Hlow.
  - cbn [tach_div_loop]. rewrite tach_candidate by lia.
    destruct (Z.gtb_spec (4 ^ i) t) as [Hgt|Hle].
    + exists i, (4 ^ i). repeat split; try lia. exact Hlow.
    + destruct (IH (i + 1) (4 ^ i) t) as (i' & dv' & E & Hr & Hl & Hh);
        try lia.
      { intros j Hj. destruct (Z.eq_dec j i) as [->|]; [lia|].
        apply Hlow. lia. }
      exists i', dv'. split; [exact E|]. split; [lia|].
      split; [exact Hl|]. intros Hlt. apply Hh. lia.
Qed.

(** With a target below [4^11] the scan stops at an exponent within
    0..11, the first whose power of four exceeds the target. *)
Lemma tach_div_select_first t :
  0 <= t < 4 ^ 11 ->
  exists i,
    tach_div_select dm t = (i, 4 ^ i) /\ 0 <= i <= 11 /\
    t < 4 ^ i /\ forall j, 0 <= j < i -> 4 ^ j <= t.
Proof.
  intros Ht. unfold tach_div_select.
  destruct (Z.eqb_spec t 0) as [->|Hne].
  - exists 0. repeat split; try lia.
  - destruct (tach_div_loop_inv 12 0 0 t) as (i & dv & E & Hr & Hl & Hh);
      try lia.
    assert (i <= 11).
    { destruct (Z.le_gt_cases i 11); [assumption|].
      specialize (Hl 11). lia. }
    destruct Hh as [-> Hlt]; [lia|].
    exists i. rewrite E. repeat split; try lia. exact Hl.
Qed.

(** A 32-bit clock keeps the target below [2^19]. *)
Lemma tach_target_div_bound clk rpm :
  is_u32 clk -> is_u32 rpm -> rpm <> 0 ->
  exists t, tach_target_div dm clk rpm = Some t /\ 0 <= t < 2 ^ 19.
Proof.
  intros Hc Hr Hne. unfold tach_target_div.
  rewrite udiv_Some by assumption. simpl.
  eexists; split; [reflexivity|].
  unfold is_u32 in *.
  pose proof (ulong_le dm (clk * 60) ltac:(lia)) as H1.
  set (a := ulong dm (clk * 60)) in *.
  assert (0 <= a / rpm <= a) as H2.
  { split; [apply Z.div_pos; lia|].
    apply Z.div_le_upper_bound; nia. }
  pose proof (ulong_le dm (a / rpm * 2) ltac:(lia)) as H3.
  set (b := ulong dm (a / rpm * 2)) in *.
  assert (0 <= b / 1048576 < 2 ^ 19) as H4.
  { change (2 ^ 32) with 4294967296 in *. change (2 ^ 19) with 524288.
    Z.div_mod_to_equations. lia. }
  change (1048575 + 1) with 1048576.
  rewrite u32_small; [exact H4|]. unfold is_u32. lia.
Qed.

End TachoDivider.

(** The divider field of a control word built by the enable path reads
    back the exponent. *)
Lemma tacho_ctrl_value_field c i :
  is_u8 (tacho_edge c) -> is_u8 (tacho_debounce c) -> is_u16 (threshold c) ->
  0 <= i < 16 ->
  tacho_clk_div_field (u32 (tacho_ctrl_value c i)) = i.
Proof.
  intros He Hd Ht Hi. unfold tacho_clk_div_field.
  apply Z.bits_inj'. intros n Hn.
  unfold TACHO_CLK_DIV_T_MASK, TACHO_CLK_DIV_BIT.
  rewrite Z.shiftr_spec, Z.land_spec, Z.shiftl_spec by lia.
  replace (n + 20 - 20) with n by lia.
  unfold u32, wrap. rewrite Z.testbit_mod_pow2 by lia.
  destruct (Z.ltb_spec n 4) as [Hn4|Hn4].
  - change 15 with (Z.ones 4). rewrite Z.testbit_ones_nonneg by lia.
    destruct (Z.ltb_spec n 4); [|lia].
    destruct (Z.ltb_spec (n + 20) 32); [|lia].
    rewrite andb_true_r, andb_true_l.
    unfold tacho_ctrl_value, TACHO_ENABLE, TACHO_INVERS_LIMIT, TACHO_IER,
      TACHIO_EDGE_BIT, TACHO_CLK_DIV_BIT, TACHO_DEBOUNCE_BIT, u32, wrap.
    assert (Hbase :
      Z.testbit
        (Z.lor (Z.lor (Z.lor (2 ^ 28) (Z.shiftl (tacho_edge c) 24))
                  (Z.shiftl i 20)) (Z.shiftl (tacho_debounce c) 26)
         mod 2 ^ 32) (n + 20) = Z.testbit i n).
    { rewrite Z.testbit_mod_pow2 by lia.
      destruct (Z.ltb_spec (n + 20) 32); [|lia].
      rewrite !Z.lor_spec, !Z.shiftl_spec, Z.pow2_bits_eqb by lia.
      replace (n + 20 - 20) with n by lia.
      rewrite (Z.testbit_neg_r (tacho_edge c)) by lia.
      rewrite (Z.testbit_neg_r (tacho_debounce c)) by lia.
      destruct (Z.eqb_spec 28 (n + 20)); [lia|].
      simpl. rewrite orb_false_r. reflexivity. }
    destruct (limited_inverse c =? 0), (threshold c =? 0);
      rewrite ?Z.lor_spec, ?Hbase, ?Z.pow2_bits_eqb by lia;
      rewrite ?(testbit_above 16 (threshold c)) by (unfold is_u16 in Ht; lia);
      repeat match goal with
             | |- context [Z.eqb ?a (n + 20)] =>
                 destruct (Z.eqb_spec a (n + 20)); [lia|]
             end;
      rewrite ?orb_false_r; reflexivity.
  - rewrite (testbit_above 4 i) by lia.
    change 15 with (Z.ones 4). rewrite Z.testbit_ones_nonneg by lia.
    destruct (Z.ltb_spec n 4); [lia|].
    rewrite andb_false_r. reflexivity.
Qed.

(** Closed range side conditions, by evaluation. *)
Ltac in_range := vm_compute; split; [discriminate | reflexivity].

(** C3 (as stated, refuted): with a 24 MHz clock and a minimum of
    2900 RPM the divider search does not select exponent 3 with
    divisor 64. *)
Lemma tach_divider_24MHz_2900_not_64 :
  tach_divider ILP32 24000000 2900 <> Some (3, 64).
Proof. vm_compute. discriminate. Qed.

(** C3 (amended): with a 24 MHz clock and a minimum of 2900 RPM the
    integer value of [target_div = (24000000 * 60 / 2900 * 2) / 2^20] is
    0 (the quotient by 2900 is 496551, doubled 993102, below [2^20]), so
    the search takes the zero branch and selects exponent 0 with
    divisor 1; 0 is also the first exponent whose power of four exceeds
    [target_div]. *)
Theorem tach_divider_24MHz_2900 (dm : data_model) :
  udiv (ulong dm (24000000 * 60)) 2900 = Some 496551 /\
  tach_target_div dm 24000000 2900 = Some 0 /\
  tach_divider dm 24000000 2900 = Some (0, 1) /\
  0 < 4 ^ 0.
Proof. destruct dm; vm_compute; repeat split; reflexivity. Qed.

(** C4: for a 32-bit source clock and a nonzero minimum RPM, enabling a
    tachometer channel succeeds and the clock-divider field (bits 23:20)
    of the control word it writes holds an exponent in 0..11; the stored
    divisor is the matching power of four. *)
Theorem tacho_enable_divider_field_in_range (dm : data_model)
    (priv : aspeed_pwm_tachometer_data) (ch : Z)
    (c : aspeed_tacho_channel_params) :
  tacho_channel priv !! Z.to_nat ch = Some c ->
  is_u32 (clk_freq priv) -> is_u32 (min_rpm c) -> min_rpm c <> 0 ->
  is_u8 (tacho_edge c) -> is_u8 (tacho_debounce c) -> is_u16 (threshold c) ->
  exists priv' i,
    aspeed_set_fan_tach_ch_enable dm priv ch true = Some priv' /\
    tacho_clk_div_field
      (regmap_peek (regmap priv') (ASPEED_TACHO_CTRL_CH ch)) = i /\
    0 <= i <= 11 /\
    divide <$> tacho_channel priv' !! Z.to_nat ch = Some (4 ^ i).
Proof.
  intros Hc Hclk Hrpm Hnz He Hd Ht.
  destruct (tach_target_div_bound dm _ _ Hclk Hrpm Hnz) as (t & Et & Hrange).
  destruct (tach_div_select_first dm t) as (i & Es & Hi & _); [lia|].
  unfold aspeed_set_fan_tach_ch_enable, tach_divider.
  rewrite Hc. simpl. rewrite Et. simpl. rewrite Es. simpl.
  eexists _, i. split; [reflexivity|]. simpl.
  split; [|split; [exact Hi|]].
  - unfold regmap_peek. simpl. rewrite lookup_insert_eq. simpl.
    apply tacho_ctrl_value_field; simpl; try assumption. lia.
  - rewrite list_lookup_insert_eq; [reflexivity|].
    apply lookup_lt_Some in Hc. exact Hc.
Qed.

Lemma tacho_enable_divider_field_in_range_witness :
  exists priv' i,
    aspeed_set_fan_tach_ch_enable ILP32 (probe_data 24000000) 0 true
      = Some priv' /\
    tacho_clk_div_field
      (regmap_peek (regmap priv') (ASPEED_TACHO_CTRL_CH 0)) = i /\
    0 <= i <= 11 /\
    divide <$> tacho_channel priv' !! Z.to_nat 0 = Some (4 ^ i).
Proof.
  apply (tacho_enable_divider_field_in_range ILP32 (probe_data 24000000) 0
           default_tacho_entry).
  - reflexivity.
  - in_range.
  - in_range.
  - simpl. lia.
  - in_range.
  - in_range.
  - in_range.
Defined.

(** ** RPM conversion *)

Section RpmConversion.

Lemma tach_raw_range val : 0 <= Z.land val TACHO_VALUE_MASK <= 0xFFFFF.
Proof.
  unfold TACHO_VALUE_MASK. change 0xfffff with (Z.ones 20).
  rewrite Z.land_ones by lia.
  pose proof (Z.mod_pos_bound val (2 ^ 20) ltac:(lia)).
  change (Z.ones 20) with (2 ^ 20 - 1). lia.
Qed.

(** The incremented count is never zero: the guard [raw_data == 0] that
    follows the increment cannot fire. *)
Lemma tach_count_nonzero val :
  Z.land val TACHO_VALUE_MASK <> 0xFFFFF ->
  u32 (Z.land val TACHO_VALUE_MASK + 1) = Z.land val TACHO_VALUE_MASK + 1 /\
  1 <= Z.land val TACHO_VALUE_MASK + 1 <= 0xFFFFF.
Proof.
  intros Hne. pose proof (tach_raw_range val).
  split; [|lia]. apply u32_small. unfold is_u32.
  change (2 ^ 32) with 4294967296. lia.
Qed.

Lemma tach_rpm_sentinel divide clk val :
  Z.land val TACHO_VALUE_MASK = 0xFFFFF ->
  tach_rpm_of_status divide clk val = Some 0.
Proof. intros E. unfold tach_rpm_of_status. rewrite E. reflexivity. Qed.

Lemma tach_rpm_no_overflow divide clk val :
  let raw := Z.land val TACHO_VALUE_MASK in
  raw <> 0xFFFFF -> 1 <= divide -> is_u32 clk ->
  (raw + 1) * divide * 2 < 2 ^ 32 ->
  clk / ((raw + 1) * divide * 2) * 60 < 2 ^ 31 ->
  tach_rpm_of_status divide clk val
  = Some (clk / ((raw + 1) * divide * 2) * 60).
Proof.
  intros raw Hne Hd Hclk Hden Hres.
  destruct (tach_count_nonzero val Hne) as [Ecnt Hcnt]. fold raw in Ecnt, Hcnt.
  unfold tach_rpm_of_status. fold raw.
  destruct (Z.eqb_spec raw 0xfffff) as [|_]; [contradiction|].
  rewrite Ecnt.
  destruct (Z.eqb_spec (raw + 1) 0) as [|_]; [lia|].
  assert (0 < (raw + 1) * divide) by nia.
  rewrite (u32_small ((raw + 1) * divide)) by (unfold is_u32; nia).
  rewrite (u32_small ((raw + 1) * divide * 2)) by (unfold is_u32; nia).
  rewrite (u32_small clk) by assumption.
  rewrite udiv_Some by lia. simpl.
  assert (0 <= clk / ((raw + 1) * divide * 2))
    by (apply Z.div_pos; unfold is_u32 in Hclk; lia).
  rewrite (u32_small (_ * 60)) by (unfold is_u32; lia).
  rewrite s32_small by lia. reflexivity.
Qed.

(** The poll hands over one of the first three status words: the first
    that carries the full-measurement flag, the third if none does. *)
Lemma tach_poll_three sts :
  tach_poll sts 3 0 0
  = if negb (Z.land TACHO_FULL_MEASUREMENT (u32 (sts 0%nat)) =? 0)
    then u32 (sts 0%nat)
    else if negb (Z.land TACHO_FULL_MEASUREMENT (u32 (sts 1%nat)) =? 0)
    then u32 (sts 1%nat)
    else u32 (sts 2%nat).
Proof.
  cbn [tach_poll].
  destruct (Z.land TACHO_FULL_MEASUREMENT (u32 (sts 0%nat)) =? 0);
    [|reflexivity].
  destruct (Z.land TACHO_FULL_MEASUREMENT (u32 (sts 1%nat)) =? 0);
    [|reflexivity].
  destruct (Z.land TACHO_FULL_MEASUREMENT (u32 (sts 2%nat)) =? 0);
    reflexivity.
Qed.

(** The driver entry point is the conversion applied to the polled
    status word, with the channel's stored divisor and the source
    clock. *)
Lemma aspeed_get_fan_tach_ch_rpm_unfold priv ch c sts :
  tacho_channel priv !! Z.to_nat ch = Some c ->
  aspeed_get_fan_tach_ch_rpm priv ch sts
  = tach_rpm_of_status (divide c) (clk_freq priv) (tach_poll sts 3 0 0).
Proof.
  intros Hc. unfold aspeed_get_fan_tach_ch_rpm. rewrite Hc. reflexivity.
Qed.

(** With the default divisor 8 and the default clock the conversion of
    a raw count of 1000 gives 89880 RPM. *)
Example tach_rpm_default :
  aspeed_get_fan_tach_ch_rpm (probe_data 24000000) 0
    (fun _ => Z.lor TACHO_FULL_MEASUREMENT 1000) = Some 89880.
Proof. vm_compute. reflexivity. Qed.

End RpmConversion.

(** C2 (as stated, refuted): with divisor 1 and a 200 MHz clock the raw
    count 0 yields 1705032704, not the reference value 6000000000. *)
Lemma rpm_is_reference_fails :
  ~ Claim.rpm_is_reference 1 200000000 0.
Proof. unfold Claim.rpm_is_reference. vm_compute. discriminate. Qed.

(** C2 (amended): the sentinel raw value [0xFFFFF] gives 0 for every
    divisor and clock; for any other raw value, a divisor of at least 1
    and a 32-bit clock such that [(raw + 1) * divisor * 2] stays below
    [2^32] and the result below [2^31], the conversion returns
    [(clock / ((raw + 1) * divisor * 2)) * 60], the division performed
    before the multiplication by 60, which is the reference definition. *)
Theorem rpm_is_reference_in_range (divide clk val : Z) :
  let raw := Z.land val TACHO_VALUE_MASK in
  (raw = 0xFFFFF ->
     tach_rpm_of_status divide clk val = Some 0 /\
     Claim.rpm_is_reference divide clk val) /\
  (raw <> 0xFFFFF -> 1 <= divide -> is_u32 clk ->
   (raw + 1) * divide * 2 < 2 ^ 32 ->
   clk / ((raw + 1) * divide * 2) * 60 < 2 ^ 31 ->
     tach_rpm_of_status divide clk val
       = Some (clk / ((raw + 1) * divide * 2) * 60) /\
     Claim.rpm_is_reference divide clk val).
Proof.
  intros raw. split.
  - intros E. split; [apply tach_rpm_sentinel; exact E|].
    unfold Claim.rpm_is_reference. rewrite tach_rpm_sentinel by exact E.
    fold raw. rewrite E. reflexivity.
  - intros Hne Hd Hclk Hden Hres.
    pose proof (tach_rpm_no_overflow divide clk val Hne Hd Hclk Hden Hres) as E.
    fold raw in E. split; [exact E|].
    unfold Claim.rpm_is_reference, Spec.raw_to_rpm. fold raw. rewrite E.
    destruct (Z.eqb_spec raw 0xFFFFF); [contradiction|reflexivity].
Qed.

Lemma rpm_is_reference_in_range_witness :
  (tach_rpm_of_status 8 24000000 0xFFFFF = Some 0 /\
   Claim.rpm_is_reference 8 24000000 0xFFFFF) /\
  (tach_rpm_of_status 8 24000000 1000 = Some (24000000 / (1001 * 8 * 2) * 60) /\
   Claim.rpm_is_reference 8 24000000 1000).
Proof.
  split.
  - apply (proj1 (rpm_is_reference_in_range 8 24000000 0xFFFFF)).
    reflexivity.
  - apply (proj2 (rpm_is_reference_in_range 8 24000000 1000)).
    + vm_compute. discriminate.
    + lia.
    + in_range.
    + vm_compute. reflexivity.
    + vm_compute. reflexivity.
Defined.

(** C5 (as stated, refuted): with divisor 1 and a 200 MHz clock the raw
    count 0 yields 1705032704 while the larger raw count 2 yields
    1999999980. *)
Lemma rpm_non_increasing_fails :
  ~ Claim.rpm_non_increasing 1 200000000.
Proof.
  intros H.
  specialize (H 0 2 1705032704 1999999980 ltac:(lia) ltac:(lia)
                eq_refl eq_refl).
  lia.
Qed.

(** C5 (amended): for a divisor of at least 1 and a 32-bit clock such
    that [0xFFFFF * divisor * 2] stays below [2^32] and
    [(clock / (divisor * 2)) * 60] below [2^31], the conversion returns
    a non-negative figure for every raw value and is non-increasing in
    the raw value, the sentinel [0xFFFFF] included. *)
Theorem rpm_non_increasing_in_range (divide clk : Z) :
  1 <= divide -> is_u32 clk ->
  0xFFFFF * divide * 2 < 2 ^ 32 ->
  clk / (divide * 2) * 60 < 2 ^ 31 ->
  Claim.rpm_non_increasing divide clk /\
  forall a, 0 <= a <= 0xFFFFF ->
    exists r, tach_rpm_of_status divide clk a = Some r /\ 0 <= r.
Proof.
  intros Hd Hclk Hden Hres.
  assert (Hland : forall a, 0 <= a <= 0xFFFFF ->
            Z.land a TACHO_VALUE_MASK = a).
  { intros a Ha. unfold TACHO_VALUE_MASK. change 0xfffff with (Z.ones 20).
    rewrite Z.land_ones by lia. apply Z.mod_small.
    change (2 ^ 20) with 1048576. lia. }
  assert (Hval : forall a, 0 <= a < 0xFFFFF ->
            tach_rpm_of_status divide clk a
              = Some (clk / ((a + 1) * divide * 2) * 60) /\
            0 <= clk / ((a + 1) * divide * 2) <= clk / (divide * 2)).
  { intros a Ha. unfold is_u32 in Hclk.
    assert (0 <= clk / ((a + 1) * divide * 2) <= clk / (divide * 2)) as Hq.
    { split; [apply Z.div_pos; nia|].
      apply Z.div_le_compat_l; nia. }
    split; [|exact Hq].
    pose proof (tach_rpm_no_overflow divide clk a) as E. simpl in E.
    rewrite Hland in E by lia. apply E; try lia; try assumption.
    nia. }
  split.
  - intros a b ra rb Hab Hb Ea Eb.
    destruct (Z.eq_dec b 0xFFFFF) as [->|Hbne].
    + rewrite tach_rpm_sentinel in Eb by (apply Hland; lia).
      injection Eb as <-.
      destruct (Z.eq_dec a 0xFFFFF) as [->|Hane].
      * rewrite tach_rpm_sentinel in Ea by (apply Hland; lia).
        injection Ea as <-. lia.
      * destruct (Hval a ltac:(lia)) as [Ea' Hq]. rewrite Ea' in Ea.
        injection Ea as <-. lia.
    + destruct (Hval a ltac:(lia)) as [Ea' Hqa].
      destruct (Hval b ltac:(lia)) as [Eb' Hqb].
      rewrite Ea' in Ea. rewrite Eb' in Eb.
      injection Ea as <-. injection Eb as <-.
      assert (clk / ((b + 1) * divide * 2) <= clk / ((a + 1) * divide * 2)).
      { unfold is_u32 in Hclk. apply Z.div_le_compat_l; nia. }
      lia.
  - intros a Ha. destruct (Z.eq_dec a 0xFFFFF) as [->|Hne].
    + exists 0. split; [|lia]. apply tach_rpm_sentinel. apply Hland. lia.
    + destruct (Hval a ltac:(lia)) as [Ea Hq]. eexists. split; [exact Ea|].
      lia.
Qed.

Lemma rpm_non_increasing_in_range_witness :
  Claim.rpm_non_increasing 8 24000000 /\
  forall a, 0 <= a <= 0xFFFFF ->
    exists r, tach_rpm_of_status 8 24000000 a = Some r /\ 0 <= r.
Proof.
  apply (rpm_non_increasing_in_range 8 24000000).
  - lia.
  - in_range.
  - vm_compute. reflexivity.
  - vm_compute. reflexivity.
Defined.

(** C10 (the code at the failing input): creating tachometer channel 0
    with a 24 MHz clock and a minimum of 1 RPM stores the divisor 4096;
    a later reading whose raw count is [0x7FFFF] makes
    [tach_div = 0x80000 * 4096 * 2] wrap to 0 and the conversion divides
    by zero. *)
Theorem rpm_divides_by_zero_after_enable :
  exists priv,
    aspeed_create_fan_tach_channel ILP32 2 (probe_data 24000000) [0] 1 1
      = Done priv /\
    divide <$> tacho_channel priv !! 0%nat = Some 4096 /\
    u32 (u32 (0x80000 * 4096) * 2) = 0 /\
    aspeed_get_fan_tach_ch_rpm priv 0
      (fun _ => Z.lor TACHO_FULL_MEASUREMENT 0x7FFFF) = None.
Proof.
  eexists. split; [vm_compute; reflexivity|].
  vm_compute. repeat split; reflexivity.
Qed.

(** ** PWM divider search *)

Section PwmSearch.

Variable dm : data_model.
Variables cal target : Z.
Hypothesis Hcal : 0 <= cal < 2 ^ 24.
Hypothesis Htarget : 0 <= target < 2 ^ 31.

Local Abbreviation eff := (Spec.pwm_effective_freq cal).

Lemma pwm_divisor_range h l :
  0 <= h <= 16 -> 0 <= l <= 256 -> 0 < 2 ^ h * (l + 1) < 2 ^ 32.
Proof.
  intros Hh Hl.
  assert (0 < 2 ^ h) by (apply Z.pow_pos_nonneg; lia).
  assert (2 ^ h <= 2 ^ 16) by (apply Z.pow_le_mono_r; lia).
  change (2 ^ 16) with 65536 in *. change (2 ^ 32) with 4294967296. nia.
Qed.

Lemma eff_nonneg h l : 0 <= h <= 16 -> 0 <= l <= 256 -> 0 <= eff h l.
Proof.
  intros Hh Hl. pose proof (pwm_divisor_range h l Hh Hl).
  unfold Spec.pwm_effective_freq. apply Z.div_pos; lia.
Qed.

Lemma pwm_div_freq_eff h l :
  0 <= h <= 16 -> 0 <= l <= 256 ->
  pwm_div_freq dm cal h l = Some (eff h l).
Proof.
  intros Hh Hl. pose proof (pwm_divisor_range h l Hh Hl).
  unfold pwm_div_freq. rewrite BIT_pow2 by lia.
  rewrite ulong_small by (unfold is_u32; lia).
  rewrite udiv_Some by lia. reflexivity.
Qed.

Lemma ulong_of_int_nonneg : ulong_of_int dm target = target.
Proof.
  unfold ulong_of_int. rewrite s32_small by lia.
  apply ulong_small. unfold is_u32.
  change (2 ^ 31) with 2147483648 in *. change (2 ^ 32) with 4294967296. lia.
Qed.

Lemma pwm_freq_below_eff h l :
  0 <= h <= 16 -> 0 <= l <= 256 ->
  pwm_freq_below dm cal h l target = Some (eff h l <? target).
Proof.
  intros Hh Hl. unfold pwm_freq_below.
  rewrite pwm_div_freq_eff by assumption. simpl.
  rewrite ulong_of_int_nonneg. reflexivity.
Qed.

(** Inner scan: the exponents below the returned one are not below the
    target; a return before the bound is a hit. *)
Lemma fan_ctrl_inner_loop_inv l n : 0 <= l <= 255 -> forall h,
  0 <= h -> h + Z.of_nat n <= 16 ->
  (forall j, 0 <= j < h -> target <= eff j l) ->
  exists h',
    fan_ctrl_inner_loop dm n cal h l target = Some h' /\
    h <= h' <= h + Z.of_nat n /\
    (forall j, 0 <= j < h' -> target <= eff j l) /\
    (h' < h + Z.of_nat n -> eff h' l < target).
Proof.
  intros Hl. induction n as [|n IH]; intros h Hh Hn Hlow.
  - exists h. simpl. repeat split; try lia. exact Hlow.
  - cbn [fan_ctrl_inner_loop]. rewrite pwm_freq_below_eff by lia. simpl.
    destruct (Z.ltb_spec (eff h l) target) as [Hlt|Hge].
    + exists h. repeat split; try lia. exact Hlow.
    + destruct (IH (h + 1)) as (h' & E & Hr & Hl' & Hhit); try lia.
      { intros j Hj. destruct (Z.eq_dec j h) as [->|]; [exact Hge|].
        apply Hlow. lia. }
      exists h'. split; [exact E|]. split; [lia|]. split; [exact Hl'|].
      intros Hlt. apply Hhit. lia.
Qed.

(** Outer scan: every pair of an earlier [div_l] is not below the
    target; a return before the bound is the first hit of its row. *)
Lemma fan_ctrl_outer_loop_inv n : forall l dh,
  0 <= l -> l + Z.of_nat n <= 256 -> 0 <= dh <= 16 ->
  (forall l' h', 0 <= l' < l -> 0 <= h' <= 16 -> target <= eff h' l') ->
  exists h l',
    fan_ctrl_outer_loop dm n cal dh l target = Some (h, l') /\
    l <= l' <= l + Z.of_nat n /\ 0 <= h <= 16 /\
    (forall l'' h', 0 <= l'' < l' -> 0 <= h' <= 16 -> target <= eff h' l'') /\
    (l' < l + Z.of_nat n ->
       eff h l' < target /\ forall j, 0 <= j < h -> target <= eff j l') /\
    (l' = l + Z.of_nat n -> h = match n with O => dh | S _ => 16 end).
Proof.
  induction n as [|n IH]; intros l dh Hl Hn Hdh Hprev.
  - exists dh, l. simpl. repeat split; try lia. exact Hprev.
  - cbn [fan_ctrl_outer_loop].
    destruct (fan_ctrl_inner_loop_inv l 16 ltac:(lia) 0 ltac:(lia) ltac:(lia))
      as (h & E & Hr & Hlow & Hhit); [intros; lia|].
    rewrite E. simpl. rewrite pwm_freq_below_eff by lia. simpl.
    destruct (Z.ltb_spec (eff h l) target) as [Hlt|Hge].
    + exists h, l. split; [reflexivity|]. split; [lia|]. split; [lia|].
      split; [exact Hprev|]. split; [|lia].
      intros _. split; [exact Hlt|exact Hlow].
    + assert (h = 16) as -> by (destruct (Z.eq_dec h 16); [assumption|];
                                 specialize (Hhit ltac:(lia)); lia).
      destruct (IH (l + 1) 16) as (h' & l' & E' & Hr' & Hh' & Hp' & Hhit' & Hex);
        try lia.
      { intros l0 h0 Hl0 Hh0.
        destruct (Z.eq_dec l0 l) as [->|]; [|apply Hprev; lia].
        destruct (Z.eq_dec h0 16) as [->|]; [exact Hge|apply Hlow; lia]. }
      exists h', l'. split; [exact E'|]. split; [lia|]. split; [exact Hh'|].
      split; [exact Hp'|]. split.
      * intros Hlt. apply Hhit'. lia.
      * intros Heq. specialize (Hex ltac:(lia)). destruct n; exact Hex.
Qed.

Lemma fan_ctrl_search_first_below :
  exists div_h div_l,
    fan_ctrl_outer_loop dm 256 cal 0 0 target = Some (div_h, div_l) /\
    0 <= div_h <= 16 /\ 0 <= div_l <= 256 /\
    pwm_div_freq dm cal div_h div_l = Some (eff div_h div_l) /\
    eff div_h div_l <= target /\
    (0 < target -> eff div_h div_l < target) /\
    (forall h l, Spec.visited_before h l div_h div_l -> target <= eff h l) /\
    (eff 16 0 < target -> div_l = 0).
Proof.
  destruct (fan_ctrl_outer_loop_inv 256 0 0)
    as (h & l & E & Hr & Hh & Hprev & Hhit & Hex); try lia.
  exists h, l. split; [exact E|]. split; [exact Hh|]. split; [lia|].
  split; [apply pwm_div_freq_eff; lia|].
  destruct (Z.eq_dec l 256) as [->|Hne].
  - (* the scan ran out: only possible for target 0 *)
    assert (eff 16 255 = 0) as E0.
    { unfold Spec.pwm_effective_freq. apply Z.div_small.
      change (2 ^ 16 * (255 + 1)) with (2 ^ 24). lia. }
    assert (target = 0) as Ht0.
    { specialize (Hprev 255 16 ltac:(lia) ltac:(lia)). lia. }
    assert (h = 16) as -> by (apply Hex; reflexivity).
    assert (eff 16 256 = 0) as E1.
    { unfold Spec.pwm_effective_freq. apply Z.div_small.
      change (2 ^ 16 * (256 + 1)) with 16842752.
      change (2 ^ 24) with 16777216 in *. lia. }
    split; [lia|]. split; [lia|]. split.
    + intros h' l' (Hl0 & Hh0 & _). rewrite Ht0.
      unfold Spec.pwm_effective_freq. apply Z.div_pos; [lia|].
      apply Z.mul_pos_pos; [apply Z.pow_pos_nonneg|]; lia.
    + intros Hlt. specialize (Hprev 0 16 ltac:(lia) ltac:(lia)). lia.
  - destruct (Hhit ltac:(lia)) as [Hlt Hlow].
    split; [lia|]. split; [intros _; exact Hlt|]. split.
    + intros h' l' (Hl0 & Hh0 & [[Hl1 Hh1]|[-> Hh1]]).
      * apply Hprev; lia.
      * apply Hlow. lia.
    + intros H16. destruct (Z.eq_dec l 0) as [|Hl0]; [assumption|].
      specialize (Hprev 0 16 ltac:(lia) ltac:(lia)). lia.
Qed.

(** With the coarse divider alone: the frequency falls as the exponent
    grows. *)
Lemma eff_coarse_mono h h' : 0 <= h <= h' -> eff h' 0 <= eff h 0.
Proof.
  intros Hh. unfold Spec.pwm_effective_freq.
  apply Z.div_le_compat_l; [lia|].
  assert (0 < 2 ^ h) by (apply Z.pow_pos_nonneg; lia).
  assert (2 ^ h <= 2 ^ h') by (apply Z.pow_le_mono_r; lia).
  lia.
Qed.

(** When the slowest point of the coarse divider, [cal / 2^15], is below
    the target, the search stops in its first row, at the first
    exponent whose frequency is below the target. *)
Lemma fan_ctrl_search_coarse_only :
  eff 15 0 < target ->
  exists div_h,
    fan_ctrl_outer_loop dm 256 cal 0 0 target = Some (div_h, 0) /\
    0 <= div_h <= 15 /\
    pwm_div_freq dm cal div_h 0 = Some (eff div_h 0) /\
    eff div_h 0 < target /\
    (forall h, 0 <= h < div_h -> target <= eff h 0) /\
    (forall h, 0 <= h <= 15 -> eff h 0 < target -> eff h 0 <= eff div_h 0).
Proof.
  intros H15.
  destruct fan_ctrl_search_first_below
    as (div_h & div_l & E & Hh & Hl & Ef & _ & Hlt & Hfirst & Hrow).
  assert (0 <= eff 15 0) as H0 by (apply eff_nonneg; lia).
  assert (eff 16 0 <= eff 15 0) as H16 by (apply eff_coarse_mono; lia).
  assert (div_l = 0) as -> by (apply Hrow; lia).
  assert (div_h <> 16) as Hne.
  { intros ->.
    assert (target <= eff 15 0); [|lia].
    apply Hfirst. unfold Spec.visited_before. lia. }
  assert (forall h, 0 <= h < div_h -> target <= eff h 0) as Hbefore.
  { intros h Hhh. apply Hfirst. unfold Spec.visited_before. lia. }
  exists div_h. split; [exact E|]. split; [lia|]. split; [exact Ef|].
  split; [apply Hlt; lia|]. split; [exact Hbefore|].
  intros h Hhh Hbelow.
  destruct (Z_lt_le_dec h div_h) as [Hlo|Hhi].
  - specialize (Hbefore h ltac:(lia)). lia.
  - apply eff_coarse_mono. lia.
Qed.

End PwmSearch.

Lemma pwm_cal_freq_range dm clk :
  is_u32 clk -> 0 <= pwm_cal_freq dm clk < 2 ^ 24.
Proof.
  intros Hclk. unfold pwm_cal_freq, PWM_PERIOD_MAX, is_u32 in *.
  change (255 + 1) with 256.
  assert (0 <= clk / 256 < 2 ^ 24).
  { change (2 ^ 32) with 4294967296 in *. change (2 ^ 24) with 16777216.
    Z.div_mod_to_equations. lia. }
  rewrite u32_small; [assumption|]. unfold is_u32.
  change (2 ^ 24) with 16777216 in *. change (2 ^ 32) with 4294967296. lia.
Qed.

(** The search terminates within the scanned range, and the frequency
    of the pair it returns is well defined. *)
Lemma pwm_divider_search_total dm clk target :
  is_u32 clk -> 0 <= target < 2 ^ 31 ->
  exists div_h div_l,
    pwm_divider_search dm clk target = Some (div_h, div_l) /\
    0 <= div_h <= 16 /\ 0 <= div_l <= 256 /\
    pwm_div_freq dm (pwm_cal_freq dm clk) div_h div_l
      = Some (Spec.pwm_effective_freq (pwm_cal_freq dm clk) div_h div_l).
Proof.
  intros Hclk Ht.
  destruct (fan_ctrl_search_first_below dm (pwm_cal_freq dm clk) target
              (pwm_cal_freq_range dm clk Hclk) Ht)
    as (h & l & E & Hh & Hl & Ef & _).
  exists h, l. repeat split; try assumption; lia.
Qed.

(** The default configuration: 24 MHz and a 25 kHz target give
    [div_h = 2], [div_l = 0], that is 23437 Hz. *)
Example pwm_divider_search_default :
  pwm_divider_search ILP32 24000000 25000 = Some (2, 0) /\
  pwm_div_freq ILP32 (pwm_cal_freq ILP32 24000000) 2 0 = Some 23437.
Proof. vm_compute. split; reflexivity. Qed.

(** For targets at or below [cal_freq / 2^15] the loops run past the
    ladder: the inner loop leaves [div_h] at 16, and for a target of 0
    the outer loop leaves [div_l] at 256. *)
Example pwm_divider_search_off_ladder :
  pwm_divider_search ILP32 24000000 2 = Some (16, 0) /\
  pwm_divider_search ILP32 24000000 1 = Some (16, 1) /\
  pwm_divider_search ILP32 24000000 0 = Some (16, 256).
Proof. vm_compute. repeat split; reflexivity. Qed.

(** C1 (as stated, refuted): with a 24 MHz clock and a 20 kHz target
    the search returns [(div_h, div_l) = (3, 0)], 11718 Hz, although the
    ladder pair [(0, 4)] gives 18750 Hz, which is also at most the
    target. *)
Lemma pwm_search_is_best_fails :
  ~ Claim.pwm_search_is_best ILP32 24000000 20000.
Proof.
  intros (h & l & E & _ & Hbest).
  assert (h = 3 /\ l = 0) as [-> ->].
  { vm_compute in E. injection E as <- <-. split; reflexivity. }
  specialize (Hbest 0 4).
  assert (Spec.on_ladder 0 4) as Hon by (unfold Spec.on_ladder; lia).
  specialize (Hbest Hon). vm_compute in Hbest.
  assert (Lt = Gt -> False) as Hc by discriminate.
  specialize (Hbest Hc). apply Hbest. reflexivity.
Qed.

(** C1 (amended): for a 32-bit source clock and a target frequency
    below 2^31 that lies above [cal_freq / 2^15], the slowest point of
    the coarse divider, the search returns a pair of the ladder with the
    fine divider at [div_l = 0] and [div_h] in 0..15. Its effective
    frequency [cal_freq / 2^div_h] is strictly below the target, and
    [div_h] is the first exponent for which that holds: every smaller
    exponent gives a frequency of at least the target, so the result is
    the highest of the sixteen power-of-two frequencies that is below
    the target. It is not in general the highest ladder frequency not
    exceeding the target, since the pairs with [div_l > 0] are never
    chosen here. *)
Theorem pwm_divider_search_first_below (dm : data_model) (clk target : Z) :
  is_u32 clk -> 0 <= target < 2 ^ 31 ->
  let cal_freq := pwm_cal_freq dm clk in
  Spec.pwm_effective_freq cal_freq 15 0 < target ->
  exists div_h,
    pwm_divider_search dm clk target = Some (div_h, 0) /\
    Spec.on_ladder div_h 0 /\
    pwm_div_freq dm cal_freq div_h 0
      = Some (Spec.pwm_effective_freq cal_freq div_h 0) /\
    Spec.pwm_effective_freq cal_freq div_h 0 < target /\
    (forall h, 0 <= h < div_h ->
       target <= Spec.pwm_effective_freq cal_freq h 0) /\
    (forall h, 0 <= h <= 15 ->
       Spec.pwm_effective_freq cal_freq h 0 < target ->
       Spec.pwm_effective_freq cal_freq h 0
         <= Spec.pwm_effective_freq cal_freq div_h 0).
Proof.
  intros Hclk Ht cal_freq H15. unfold pwm_divider_search. fold cal_freq.
  destruct (fan_ctrl_search_coarse_only dm cal_freq target
              (pwm_cal_freq_range dm clk Hclk) Ht H15)
    as (div_h & E & Hh & Ef & Hlt & Hfirst & Hbest).
  exists div_h. split; [exact E|]. split; [unfold Spec.on_ladder; lia|].
  split; [exact Ef|]. split; [exact Hlt|]. split; [exact Hfirst|exact Hbest].
Qed.

Lemma pwm_divider_search_first_below_witness :
  let cal_freq := pwm_cal_freq ILP32 24000000 in
  exists div_h,
    pwm_divider_search ILP32 24000000 20000 = Some (div_h, 0) /\
    Spec.on_ladder div_h 0 /\
    pwm_div_freq ILP32 cal_freq div_h 0
      = Some (Spec.pwm_effective_freq cal_freq div_h 0) /\
    Spec.pwm_effective_freq cal_freq div_h 0 < 20000 /\
    (forall h, 0 <= h < div_h ->
       20000 <= Spec.pwm_effective_freq cal_freq h 0) /\
    (forall h, 0 <= h <= 15 ->
       Spec.pwm_effective_freq cal_freq h 0 < 20000 ->
       Spec.pwm_effective_freq cal_freq h 0
         <= Spec.pwm_effective_freq cal_freq div_h 0).
Proof.
  apply (pwm_divider_search_first_below ILP32 24000000 20000).
  - in_range.
  - in_range.
  - vm_compute. reflexivity.
Defined.

(** ** Register-level behaviour of the PWM programmer *)

#[local] Arguments Z.testbit _ _ : simpl never.

Section RegmapFacts.

Lemma regmap_update_bits_peek m reg mask val :
  regmap_peek (regmap_update_bits m reg mask val) reg
  = u32 (Z.lor (Z.land (regmap_peek m reg) (Z.lnot mask)) (Z.land val mask)).
Proof. unfold regmap_peek at 1. simpl. rewrite lookup_insert_eq. reflexivity. Qed.

Lemma regmap_update_bits_peek_ne m reg mask val r :
  r <> reg ->
  regmap_peek (regmap_update_bits m reg mask val) r = regmap_peek m r.
Proof.
  intros Hne. unfold regmap_peek. simpl.
  rewrite lookup_insert_ne by congruence. reflexivity.
Qed.

Lemma PWM_ENABLE_BITS_testbit n :
  0 <= n ->
  Z.testbit PWM_ENABLE_BITS n = (16 =? n) || (12 =? n).
Proof.
  intros Hn. unfold PWM_ENABLE_BITS, PWM_CLK_ENABLE, PWM_PIN_EN.
  rewrite Z.lor_spec, !Z.pow2_bits_eqb by lia. reflexivity.
Qed.

(** Clearing the enable bits of a register word. *)
Lemma enable_bits_cleared orig n :
  0 <= n < 32 ->
  Z.testbit
    (u32 (Z.lor (Z.land orig (Z.lnot PWM_ENABLE_BITS))
            (Z.land 0 PWM_ENABLE_BITS))) n
  = Z.testbit orig n && negb ((16 =? n) || (12 =? n)).
Proof.
  intros Hn. unfold u32, wrap. rewrite Z.testbit_mod_pow2 by lia.
  destruct (Z.ltb_spec n 32); [|lia].
  rewrite Z.lor_spec, !Z.land_spec, Z.lnot_spec, Z.testbit_0_l by lia.
  rewrite PWM_ENABLE_BITS_testbit by lia.
  rewrite andb_false_l, orb_false_r. reflexivity.
Qed.

End RegmapFacts.

(** C7: for every channel and every prior configuration, programming
    falling point 0 succeeds with exactly one register operation, the
    update that clears the clock-enable (bit 16) and pin-enable (bit 12)
    bits of the channel's control register; every other bit of that
    register and every other register keep their value, no duty or
    control word is written, and the channel parameters (the stored
    frequency included) and the clock are untouched. *)
Theorem fan_ctrl_zero_disables_channel (dm : data_model)
    (priv : aspeed_pwm_tachometer_data) (index : Z) :
  exists priv',
    aspeed_set_pwm_channel_fan_ctrl dm priv index 0 = Some priv' /\
    reg_ops (regmap priv')
      = reg_ops (regmap priv)
        ++ [RegUpdateBits (ASPEED_PWM_CTRL_CH index) PWM_ENABLE_BITS 0] /\
    Z.testbit (regmap_peek (regmap priv') (ASPEED_PWM_CTRL_CH index)) 16
      = false /\
    Z.testbit (regmap_peek (regmap priv') (ASPEED_PWM_CTRL_CH index)) 12
      = false /\
    (forall n, 0 <= n < 32 -> n <> 16 -> n <> 12 ->
       Z.testbit (regmap_peek (regmap priv') (ASPEED_PWM_CTRL_CH index)) n
       = Z.testbit (regmap_peek (regmap priv) (ASPEED_PWM_CTRL_CH index)) n) /\
    (forall r, r <> ASPEED_PWM_CTRL_CH index ->
       regmap_peek (regmap priv') r = regmap_peek (regmap priv) r) /\
    pwm_channel priv' = pwm_channel priv /\
    tacho_channel priv' = tacho_channel priv /\
    clk_freq priv' = clk_freq priv.
Proof.
  eexists. split; [reflexivity|]. simpl.
  unfold aspeed_set_pwm_channel_enable.
  split; [reflexivity|].
  rewrite regmap_update_bits_peek.
  split; [rewrite enable_bits_cleared by lia; apply andb_false_r|].
  split; [rewrite enable_bits_cleared by lia; apply andb_false_r|].
  split.
  - intros n Hn H16 H12. rewrite enable_bits_cleared by lia.
    destruct (Z.eqb_spec 16 n); [lia|]. destruct (Z.eqb_spec 12 n); [lia|].
    apply andb_true_r.
  - split; [|repeat split].
    intros r Hr. apply regmap_update_bits_peek_ne. exact Hr.
Qed.

(** The control word never carries the clock-enable bit. *)
Lemma pwm_ctrl_value_clk_disabled c div_h div_l :
  0 <= div_h <= 16 -> 0 <= div_l <= 256 ->
  Z.testbit (u32 (pwm_ctrl_value c div_h div_l)) 16 = false.
Proof.
  intros Hh Hl.
  assert (Hbase : Z.testbit (u32 (Z.lor (Z.shiftl div_h 8) div_l)) 16 = false).
  { unfold u32, wrap. rewrite Z.testbit_mod_pow2 by lia.
    rewrite Z.lor_spec, Z.shiftl_spec by lia.
    rewrite (testbit_above 8 div_h) by lia.
    rewrite (testbit_above 16 div_l) by lia. reflexivity. }
  unfold pwm_ctrl_value, PWM_DUTY_LOAD_AS_WDT_EN, PWM_LOAD_AS_WDT.
  unfold u32 at 1. unfold wrap. rewrite Z.testbit_mod_pow2 by lia.
  destruct (load_wdt_enable c =? 0), (load_wdt_selection c =? 0);
    rewrite ?Z.lor_spec, ?Hbase, ?Z.pow2_bits_eqb by lia; reflexivity.
Qed.

(** A run of the programmer with a nonzero falling point. *)
Lemma fan_ctrl_nonzero_run (dm : data_model)
    (priv : aspeed_pwm_tachometer_data) (index fan_ctrl : Z)
    (c : aspeed_pwm_channel_params) :
  fan_ctrl <> 0 ->
  pwm_channel priv !! Z.to_nat index = Some c ->
  is_u32 (clk_freq priv) -> 0 <= target_freq c < 2 ^ 31 ->
  exists priv' duty_value ctrl_value,
    aspeed_set_pwm_channel_fan_ctrl dm priv index fan_ctrl = Some priv' /\
    reg_ops (regmap priv')
      = reg_ops (regmap priv)
        ++ [RegWrite (ASPEED_PWM_DUTY_CYCLE_CH index) duty_value;
            RegWrite (ASPEED_PWM_CTRL_CH index) ctrl_value;
            RegUpdateBits (ASPEED_PWM_CTRL_CH index)
              PWM_ENABLE_BITS PWM_ENABLE_BITS] /\
    duty_value = pwm_duty_value c fan_ctrl /\
    Z.testbit (u32 ctrl_value) 16 = false /\
    falling <$> pwm_channel priv' !! Z.to_nat index = Some (falling c).
Proof.
  intros Hnz Hc Hclk Ht.
  destruct (pwm_divider_search_total dm _ _ Hclk Ht)
    as (h & l & Es & Hh & Hl & Ef).
  unfold aspeed_set_pwm_channel_fan_ctrl.
  destruct (Z.eqb_spec fan_ctrl 0) as [|_]; [contradiction|].
  rewrite Hc. simpl. rewrite Es. simpl. rewrite Ef. simpl.
  eexists _, _, _. split; [reflexivity|]. simpl.
  split; [rewrite <- !app_assoc; reflexivity|].
  split; [reflexivity|].
  split; [apply pwm_ctrl_value_clk_disabled; assumption|].
  rewrite list_lookup_insert_eq by (apply lookup_lt_Some in Hc; exact Hc).
  reflexivity.
Qed.

(** The programmer returns and leaves the stored falling point alone. *)
Lemma fan_ctrl_keeps_falling (dm : data_model)
    (priv : aspeed_pwm_tachometer_data) (index fan_ctrl : Z)
    (c : aspeed_pwm_channel_params) :
  pwm_channel priv !! Z.to_nat index = Some c ->
  is_u32 (clk_freq priv) -> 0 <= target_freq c < 2 ^ 31 ->
  exists priv',
    aspeed_set_pwm_channel_fan_ctrl dm priv index fan_ctrl = Some priv' /\
    falling <$> pwm_channel priv' !! Z.to_nat index = Some (falling c).
Proof.
  intros Hc Hclk Ht. destruct (Z.eq_dec fan_ctrl 0) as [->|Hnz].
  - eexists. split; [reflexivity|]. simpl. rewrite Hc. reflexivity.
  - destruct (fan_ctrl_nonzero_run dm priv index fan_ctrl c Hnz Hc Hclk Ht)
      as (priv' & _ & _ & E & _ & _ & _ & Hf).
    exists priv'. split; assumption.
Qed.

(** C8: programming a nonzero falling point performs exactly three
    register operations, in this order: the write of the duty-cycle
    register, the write of the control register, the update that sets
    the enable bits. The control word written second has the
    clock-enable bit clear, so the clock is enabled only by the third
    operation. For a channel in range, a 32-bit clock and a target
    frequency in [0, 2^31) the call does return. *)
Theorem fan_ctrl_write_order (dm : data_model)
    (priv : aspeed_pwm_tachometer_data) (index fan_ctrl : Z)
    (c : aspeed_pwm_channel_params) :
  fan_ctrl <> 0 ->
  pwm_channel priv !! Z.to_nat index = Some c ->
  is_u32 (clk_freq priv) -> 0 <= target_freq c < 2 ^ 31 ->
  exists priv' duty_value ctrl_value,
    aspeed_set_pwm_channel_fan_ctrl dm priv index fan_ctrl = Some priv' /\
    reg_ops (regmap priv')
      = reg_ops (regmap priv)
        ++ [RegWrite (ASPEED_PWM_DUTY_CYCLE_CH index) duty_value;
            RegWrite (ASPEED_PWM_CTRL_CH index) ctrl_value;
            RegUpdateBits (ASPEED_PWM_CTRL_CH index)
              PWM_ENABLE_BITS PWM_ENABLE_BITS] /\
    duty_value = pwm_duty_value c fan_ctrl /\
    Z.testbit (u32 ctrl_value) 16 = false /\
    falling <$> pwm_channel priv' !! Z.to_nat index = Some (falling c).
Proof. apply fan_ctrl_nonzero_run. Qed.

Lemma fan_ctrl_write_order_witness :
  exists priv' duty_value ctrl_value,
    aspeed_set_pwm_channel_fan_ctrl ILP32 (probe_data 24000000) 3 128
      = Some priv' /\
    reg_ops (regmap priv')
      = reg_ops (regmap (probe_data 24000000))
        ++ [RegWrite (ASPEED_PWM_DUTY_CYCLE_CH 3) duty_value;
            RegWrite (ASPEED_PWM_CTRL_CH 3) ctrl_value;
            RegUpdateBits (ASPEED_PWM_CTRL_CH 3)
              PWM_ENABLE_BITS PWM_ENABLE_BITS] /\
    duty_value = pwm_duty_value (default_pwm_entry 0) 128 /\
    Z.testbit (u32 ctrl_value) 16 = false /\
    falling <$> pwm_channel priv' !! Z.to_nat 3
      = Some (falling (default_pwm_entry 0)).
Proof.
  apply (fan_ctrl_write_order ILP32 (probe_data 24000000) 3 128
           (default_pwm_entry 0)).
  - lia.
  - reflexivity.
  - in_range.
  - in_range.
Defined.

(** ** Cooling device *)

(** C6: a state above [max_state] is refused with [-EINVAL] and leaves
    the cooling device and the driver data (current state, stored
    falling point, registers and register log) exactly as they were; a
    state within range succeeds with return code 0, stores the state,
    stores [cooling_levels[state]] as the channel's falling point and
    runs the PWM programmer on the channel with that value. *)
Theorem cz_set_cur_state_bounds (dm : data_model)
    (cdev : aspeed_cooling_device) (priv : aspeed_pwm_tachometer_data)
    (state : Z) :
  (state > max_state cdev ->
     aspeed_pwm_cz_set_cur_state dm cdev priv state
     = Some (- EINVAL, cdev, priv)) /\
  (0 <= state <= max_state cdev -> is_u8 (max_state cdev) ->
   is_u8 (cdev_pwm_channel cdev) ->
   forall lvl c,
     cooling_levels cdev !! Z.to_nat state = Some lvl ->
     pwm_channel priv !! Z.to_nat (cdev_pwm_channel cdev) = Some c ->
     is_u32 (clk_freq priv) -> 0 <= target_freq c < 2 ^ 31 ->
     exists priv',
       aspeed_pwm_cz_set_cur_state dm cdev priv state
       = Some (0, set_cur_state state cdev, priv') /\
       cur_state (set_cur_state state cdev) = state /\
       aspeed_set_pwm_channel_fan_ctrl dm
         (set_pwm_channel
            (<[Z.to_nat (cdev_pwm_channel cdev) := set_falling lvl c]>
               (pwm_channel priv)) priv)
         (cdev_pwm_channel cdev) lvl = Some priv' /\
       falling <$> pwm_channel priv' !! Z.to_nat (cdev_pwm_channel cdev)
       = Some lvl).
Proof.
  split.
  - intros Hgt. unfold aspeed_pwm_cz_set_cur_state.
    destruct (Z.gtb_spec state (max_state cdev)); [reflexivity|lia].
  - intros Hs Hmax Hch lvl c Hlvl Hc Hclk Ht.
    unfold is_u8 in *.
    assert (u8 state = state) as Es by (apply wrap_small; lia).
    assert (u8 (cdev_pwm_channel cdev) = cdev_pwm_channel cdev) as Ec
      by (apply wrap_small; lia).
    set (priv1 :=
           set_pwm_channel
             (<[Z.to_nat (cdev_pwm_channel cdev) := set_falling lvl c]>
                (pwm_channel priv)) priv).
    assert (pwm_channel priv1 !! Z.to_nat (cdev_pwm_channel cdev)
            = Some (set_falling lvl c)) as Hc1.
    { simpl. apply list_lookup_insert_eq.
      apply lookup_lt_Some in Hc. exact Hc. }
    destruct (fan_ctrl_keeps_falling dm priv1 (cdev_pwm_channel cdev) lvl
                (set_falling lvl c) Hc1 Hclk Ht) as (priv' & E & Hf).
    exists priv'. unfold aspeed_pwm_cz_set_cur_state.
    destruct (Z.gtb_spec state (max_state cdev)); [lia|].
    rewrite Es. simpl. rewrite Hlvl. simpl. rewrite Hc. simpl.
    rewrite Ec. fold priv1. rewrite E. simpl.
    repeat split; try reflexivity; assumption.
Qed.

Lemma cz_set_cur_state_bounds_witness :
  aspeed_pwm_cz_set_cur_state ILP32 example_cdev (probe_data 24000000) 4
    = Some (- EINVAL, example_cdev, probe_data 24000000) /\
  exists priv',
    aspeed_pwm_cz_set_cur_state ILP32 example_cdev (probe_data 24000000) 2
    = Some (0, set_cur_state 2 example_cdev, priv') /\
    cur_state (set_cur_state 2 example_cdev) = 2 /\
    aspeed_set_pwm_channel_fan_ctrl ILP32
      (set_pwm_channel
         (<[Z.to_nat (cdev_pwm_channel example_cdev)
            := set_falling 170 (default_pwm_entry 0)]>
            (pwm_channel (probe_data 24000000))) (probe_data 24000000))
      (cdev_pwm_channel example_cdev) 170 = Some priv' /\
    falling <$> pwm_channel priv' !! Z.to_nat (cdev_pwm_channel example_cdev)
    = Some 170.
Proof.
  split.
  - apply (proj1 (cz_set_cur_state_bounds ILP32 example_cdev
                    (probe_data 24000000) 4)).
    simpl. lia.
  - apply (proj2 (cz_set_cur_state_bounds ILP32 example_cdev
                    (probe_data 24000000) 2)).
    + simpl. lia.
    + in_range.
    + in_range.
    + reflexivity.
    + reflexivity.
    + in_range.
    + in_range.
Defined.

(** ** ADC attribute writes *)

Section AdcWriteRaw.

Import Adc.

Context {clk_state : Type}.
Variable clk_set_rate :
  aspeed_adc_data clk_state -> Z -> aspeed_adc_data clk_state.

Lemma aspeed_adc_matches_bounds model :
  model ∈ aspeed_adc_matches ->
  0 <= min_sampling_rate model /\ max_sampling_rate model < 2 ^ 31.
Proof.
  unfold aspeed_adc_matches. rewrite !elem_of_cons, elem_of_nil.
  intros [->|[->|[->|[]]]]; simpl; split; lia.
Qed.

(** An [int] outside the bounds is outside them after conversion to
    [unsigned int] as well. *)
Lemma samp_freq_out_of_range model val :
  0 <= min_sampling_rate model -> max_sampling_rate model < 2 ^ 31 ->
  is_s32 val ->
  val < min_sampling_rate model \/ val > max_sampling_rate model ->
  (u32 val <? min_sampling_rate model)
  || (u32 val >? max_sampling_rate model) = true.
Proof.
  intros Hmin Hmax Hval Hout. unfold is_s32 in Hval.
  change (2 ^ 31) with 2147483648 in *.
  apply orb_true_iff.
  destruct (Z.le_gt_cases 0 val) as [Hpos|Hneg].
  - rewrite u32_small
      by (unfold is_u32; change (2 ^ 32) with 4294967296; lia).
    destruct Hout; [left; apply Z.ltb_lt; lia|right; apply Z.gtb_lt; lia].
  - right. apply Z.gtb_lt.
    assert (u32 val = val + 2 ^ 32) as ->.
    { unfold u32, wrap. symmetry. apply (Z.mod_unique _ _ (-1)).
      - left. change (2 ^ 32) with 4294967296. lia.
      - lia. }
    change (2 ^ 32) with 4294967296. lia.
Qed.

End AdcWriteRaw.

(** C9: for every model of the match table and every [int] value, a
    sample-frequency write below the model's minimum or above its
    maximum returns [-EINVAL], and a write of the raw or the scale
    attribute returns [-EPERM]; in each case the device state (registers
    and clock tree) is returned unchanged, whatever [clk_set_rate]
    does. *)
Theorem adc_write_raw_rejections {clk_state : Type}
    (clk_set_rate :
       Adc.aspeed_adc_data clk_state -> Z -> Adc.aspeed_adc_data clk_state)
    (dm : data_model) (model : Adc.aspeed_adc_model_data)
    (data : Adc.aspeed_adc_data clk_state) (val val2 : Z) :
  model ∈ Adc.aspeed_adc_matches -> is_s32 val ->
  (val < Adc.min_sampling_rate model \/ val > Adc.max_sampling_rate model ->
     Adc.aspeed_adc_write_raw clk_set_rate dm model data val val2
       Adc.IIO_CHAN_INFO_SAMP_FREQ = (- EINVAL, data)) /\
  Adc.aspeed_adc_write_raw clk_set_rate dm model data val val2
    Adc.IIO_CHAN_INFO_RAW = (- EPERM, data) /\
  Adc.aspeed_adc_write_raw clk_set_rate dm model data val val2
    Adc.IIO_CHAN_INFO_SCALE = (- EPERM, data).
Proof.
  intros Hm Hval. split; [|split; reflexivity].
  intros Hout. destruct (aspeed_adc_matches_bounds model Hm) as [Hmin Hmax].
  unfold Adc.aspeed_adc_write_raw.
  rewrite samp_freq_out_of_range by assumption. reflexivity.
Qed.

Lemma adc_write_raw_rejections_witness :
  Adc.aspeed_adc_write_raw example_clk_set_rate ILP32
    Adc.ast2600_model_data example_adc_data 0 0
    Adc.IIO_CHAN_INFO_SAMP_FREQ = (- EINVAL, example_adc_data) /\
  Adc.aspeed_adc_write_raw example_clk_set_rate ILP32
    Adc.ast2600_model_data example_adc_data 0 0
    Adc.IIO_CHAN_INFO_RAW = (- EPERM, example_adc_data) /\
  Adc.aspeed_adc_write_raw example_clk_set_rate ILP32
    Adc.ast2600_model_data example_adc_data 0 0
    Adc.IIO_CHAN_INFO_SCALE = (- EPERM, example_adc_data).
Proof.
  assert (Adc.ast2600_model_data ∈ Adc.aspeed_adc_matches) as Hm
    by (unfold Adc.aspeed_adc_matches; rewrite !elem_of_cons; tauto).
  assert (is_s32 0) as Hv by in_range.
  split.
  - apply (proj1 (adc_write_raw_rejections example_clk_set_rate ILP32
                    Adc.ast2600_model_data example_adc_data 0 0 Hm Hv)).
    left. simpl. lia.
  - apply (proj2 (adc_write_raw_rejections example_clk_set_rate ILP32
                    Adc.ast2600_model_data example_adc_data 0 0 Hm Hv)).
Defined.

(** * Further properties of the drivers *)

#[local] Arguments Z.testbit _ _ : simpl never.

(** ** Gating bits *)

Section GatingBits.

Lemma regmap_write_peek m reg val :
  regmap_peek (regmap_write m reg val) reg = u32 val.
Proof. unfold regmap_peek. simpl. rewrite lookup_insert_eq. reflexivity. Qed.

Lemma regmap_write_peek_ne m reg val r :
  r <> reg -> regmap_peek (regmap_write m reg val) r = regmap_peek m r.
Proof.
  intros Hne. unfold regmap_peek. simpl.
  rewrite lookup_insert_ne by congruence. reflexivity.
Qed.

Lemma testbit_u32 x n :
  0 <= n < 32 -> Z.testbit (u32 x) n = Z.testbit x n.
Proof.
  intros Hn. unfold u32, wrap. rewrite Z.testbit_mod_pow2 by lia.
  destruct (Z.ltb_spec n 32); [reflexivity|lia].
Qed.

(** Bits of a control word after [aspeed_set_pwm_channel_enable]. *)
Lemma set_enable_testbit m ch enable n :
  0 <= n < 32 ->
  Z.testbit
    (regmap_peek (aspeed_set_pwm_channel_enable m ch enable)
       (ASPEED_PWM_CTRL_CH ch)) n
  = if (16 =? n) || (12 =? n) then enable
    else Z.testbit (regmap_peek m (ASPEED_PWM_CTRL_CH ch)) n.
Proof.
  intros Hn. unfold aspeed_set_pwm_channel_enable.
  rewrite regmap_update_bits_peek, testbit_u32 by lia.
  rewrite Z.lor_spec, !Z.land_spec, Z.lnot_spec by lia.
  rewrite PWM_ENABLE_BITS_testbit by lia.
  destruct ((16 =? n) || (12 =? n)) eqn:E.
  - destruct enable.
    + rewrite PWM_ENABLE_BITS_testbit, E by lia.
      rewrite andb_false_r. reflexivity.
    + rewrite Z.testbit_0_l, andb_false_r. reflexivity.
  - rewrite !andb_false_r, andb_true_r, orb_false_r. reflexivity.
Qed.

Lemma set_enable_peek_ne m ch enable r :
  r <> ASPEED_PWM_CTRL_CH ch ->
  regmap_peek (aspeed_set_pwm_channel_enable m ch enable) r
  = regmap_peek m r.
Proof. intros Hr. apply regmap_update_bits_peek_ne. exact Hr. Qed.

Lemma set_enable_gates m ch enable :
  pwm_clk_enabled (aspeed_set_pwm_channel_enable m ch enable) ch = enable /\
  pwm_pin_enabled (aspeed_set_pwm_channel_enable m ch enable) ch = enable.
Proof.
  unfold pwm_clk_enabled, pwm_pin_enabled.
  rewrite !set_enable_testbit by lia. split; reflexivity.
Qed.

Lemma set_enable_gates_ne m ch enable ch' :
  ch' <> ch ->
  pwm_clk_enabled (aspeed_set_pwm_channel_enable m ch enable) ch'
    = pwm_clk_enabled m ch' /\
  pwm_pin_enabled (aspeed_set_pwm_channel_enable m ch enable) ch'
    = pwm_pin_enabled m ch'.
Proof.
  intros Hne. unfold pwm_clk_enabled, pwm_pin_enabled.
  rewrite !set_enable_peek_ne by (unfold ASPEED_PWM_CTRL_CH; lia).
  split; reflexivity.
Qed.

End GatingBits.

(** X1: [aspeed_pwm_enable] sets and [aspeed_pwm_disable] clears bits 16
    and 12 of the channel's control register and nothing else: every
    other bit of that register (the divider fields included) and every
    other register keep their value, so enabling after disabling gives
    the enabled channel with its dividers as before. *)
Theorem pwm_enable_disable_touch_only_gates
    (priv : aspeed_pwm_tachometer_data) (hwpwm : Z) :
  let on := snd (aspeed_pwm_enable priv hwpwm) in
  let off := aspeed_pwm_disable priv hwpwm in
  let back := snd (aspeed_pwm_enable off hwpwm) in
  fst (aspeed_pwm_enable priv hwpwm) = 0 /\
  pwm_clk_enabled (regmap on) hwpwm = true /\
  pwm_pin_enabled (regmap on) hwpwm = true /\
  pwm_clk_enabled (regmap off) hwpwm = false /\
  pwm_pin_enabled (regmap off) hwpwm = false /\
  (forall n, 0 <= n < 32 -> n <> 16 -> n <> 12 ->
     Z.testbit (regmap_peek (regmap on) (ASPEED_PWM_CTRL_CH hwpwm)) n
       = Z.testbit (regmap_peek (regmap priv) (ASPEED_PWM_CTRL_CH hwpwm)) n /\
     Z.testbit (regmap_peek (regmap off) (ASPEED_PWM_CTRL_CH hwpwm)) n
       = Z.testbit (regmap_peek (regmap priv) (ASPEED_PWM_CTRL_CH hwpwm)) n) /\
  (forall r, r <> ASPEED_PWM_CTRL_CH hwpwm ->
     regmap_peek (regmap on) r = regmap_peek (regmap priv) r /\
     regmap_peek (regmap off) r = regmap_peek (regmap priv) r) /\
  (forall r, regmap_peek (regmap back) r = regmap_peek (regmap on) r).
Proof.
  intros on off back. subst on off back.
  unfold aspeed_pwm_enable, aspeed_pwm_disable. simpl.
  split; [reflexivity|].
  destruct (set_enable_gates (regmap priv) hwpwm true) as [-> ->].
  destruct (set_enable_gates (regmap priv) hwpwm false) as [-> ->].
  repeat (split; [reflexivity|]).
  split; [|split].
  - intros n Hn H16 H12. rewrite !set_enable_testbit by lia.
    destruct (Z.eqb_spec 16 n); [lia|]. destruct (Z.eqb_spec 12 n); [lia|].
    split; reflexivity.
  - intros r Hr. rewrite !set_enable_peek_ne by exact Hr. split; reflexivity.
  - intros r. destruct (Z.eq_dec r (ASPEED_PWM_CTRL_CH hwpwm)) as [->|Hr].
    + unfold aspeed_set_pwm_channel_enable.
      rewrite !regmap_update_bits_peek.
      apply Z.bits_inj'. intros n Hn.
      destruct (Z.ltb_spec n 32) as [Hlt|Hge].
      * rewrite !testbit_u32 by lia.
        rewrite !Z.lor_spec, !Z.land_spec, !Z.lnot_spec by lia.
        rewrite testbit_u32 by lia.
        rewrite !Z.lor_spec, !Z.land_spec, !Z.lnot_spec by lia.
        rewrite Z.testbit_0_l.
        destruct (Z.testbit PWM_ENABLE_BITS n),
          (Z.testbit (regmap_peek (regmap priv) (ASPEED_PWM_CTRL_CH hwpwm)) n);
          reflexivity.
      * rewrite !(testbit_above 32) by (try apply u32_range; lia).
        reflexivity.
    + rewrite !set_enable_peek_ne by exact Hr. reflexivity.
Qed.

(** ** The [pwm] sysfs attribute *)

Section SetPwm.

Lemma GENMASK_testbit h l n :
  0 <= l <= h -> 0 <= n ->
  Z.testbit (GENMASK h l) n = (l <=? n) && (n <=? h).
Proof.
  intros Hl Hn. unfold GENMASK. rewrite Z.shiftl_spec by lia.
  rewrite Z.testbit_ones by lia.
  destruct (Z.leb_spec 0 (n - l)), (Z.ltb_spec (n - l) (h - l + 1)),
    (Z.leb_spec l n), (Z.leb_spec n h); simpl; lia || reflexivity.
Qed.

Lemma set_pwm_changed priv index v count c :
  pwm_channel priv !! Z.to_nat index = Some c ->
  0 <= v <= 255 -> falling c <> v ->
  set_pwm priv index 0 v count
  = Some (count,
          set_regmap (set_pwm_regmap (regmap priv) index (falling c) v)
            (set_pwm_channel
               (<[Z.to_nat index := set_falling v c]> (pwm_channel priv))
               priv)).
Proof.
  intros Hc Hv Hne. unfold set_pwm, set_pwm_regmap, PWM_PERIOD_MAX.
  rewrite Hc. simpl.
  destruct (Z.ltb_spec v 0); [lia|]. destruct (Z.gtb_spec v 255); [lia|].
  simpl. destruct (Z.eqb_spec (falling c) v); [contradiction|reflexivity].
Qed.

Lemma set_pwm_unchanged priv index v count c :
  pwm_channel priv !! Z.to_nat index = Some c ->
  0 <= v <= 255 -> falling c = v ->
  set_pwm priv index 0 v count = Some (count, priv).
Proof.
  intros Hc Hv He. unfold set_pwm, PWM_PERIOD_MAX. rewrite Hc. simpl.
  destruct (Z.ltb_spec v 0); [lia|]. destruct (Z.gtb_spec v 255); [lia|].
  simpl. destruct (Z.eqb_spec (falling c) v); [reflexivity|contradiction].
Qed.

Lemma set_pwm_refused priv index ret v count c :
  pwm_channel priv !! Z.to_nat index = Some c ->
  ret <> 0 \/ v < 0 \/ 255 < v ->
  set_pwm priv index ret v count
  = Some (if ret =? 0 then - EINVAL else ret, priv).
Proof.
  intros Hc Hbad. unfold set_pwm, PWM_PERIOD_MAX. rewrite Hc. simpl.
  destruct (Z.eqb_spec ret 0) as [->|Hret]; [|reflexivity]. simpl.
  destruct (Z.ltb_spec v 0); [reflexivity|].
  destruct (Z.gtb_spec v 255); [reflexivity|]. lia.
Qed.

End SetPwm.

(** X2: a write to the [pwm] attribute of a channel always returns. A
    number in 0..255 is accepted, the call returns [count] and
    [show_pwm] then prints that number; a parse failure returns the
    parser's code and a number outside 0..255 returns [-EINVAL], both
    leaving the driver data and the registers exactly as they were. *)
Theorem set_pwm_then_show_pwm (priv : aspeed_pwm_tachometer_data)
    (index kstrtol_ret fan_ctrl count : Z) (c : aspeed_pwm_channel_params) :
  pwm_channel priv !! Z.to_nat index = Some c ->
  exists r priv',
    set_pwm priv index kstrtol_ret fan_ctrl count = Some (r, priv') /\
    (kstrtol_ret = 0 -> 0 <= fan_ctrl <= 255 ->
       r = count /\ show_pwm priv' index = Some fan_ctrl) /\
    (kstrtol_ret <> 0 -> r = kstrtol_ret /\ priv' = priv) /\
    (kstrtol_ret = 0 -> fan_ctrl < 0 \/ 255 < fan_ctrl ->
       r = - EINVAL /\ priv' = priv).
Proof.
  intros Hc.
  destruct (Z.eq_dec kstrtol_ret 0) as [->|Hret].
  - destruct (Z.lt_ge_cases fan_ctrl 0) as [Hneg|Hpos];
      [|destruct (Z.lt_ge_cases 255 fan_ctrl) as [Hbig|Hsmall]].
    + eexists _, _. split; [apply (set_pwm_refused _ _ _ _ _ c Hc); lia|].
      simpl. repeat split; try lia; try reflexivity; intros; lia.
    + eexists _, _. split; [apply (set_pwm_refused _ _ _ _ _ c Hc); lia|].
      simpl. repeat split; try lia; try reflexivity; intros; lia.
    + destruct (Z.eq_dec (falling c) fan_ctrl) as [He|Hne].
      * eexists _, _.
        split; [apply (set_pwm_unchanged _ _ _ _ c Hc); [lia|exact He]|].
        split; [|split; intros; lia].
        intros _ _. split; [reflexivity|].
        unfold show_pwm. rewrite Hc. simpl. congruence.
      * eexists _, _.
        split; [apply (set_pwm_changed _ _ _ _ c Hc); [lia|exact Hne]|].
        split; [|split; intros; lia].
        intros _ _. split; [reflexivity|].
        unfold show_pwm. simpl.
        rewrite list_lookup_insert_eq
          by (apply lookup_lt_Some in Hc; exact Hc).
        reflexivity.
  - eexists _, _. split; [apply (set_pwm_refused _ _ _ _ _ c Hc); lia|].
    destruct (Z.eqb_spec kstrtol_ret 0); [contradiction|].
    repeat split; try reflexivity; intros; lia.
Qed.

Lemma set_pwm_then_show_pwm_witness :
  exists r priv',
    set_pwm (probe_data 24000000) 1 0 100 4 = Some (r, priv') /\
    r = 4 /\ show_pwm priv' 1 = Some 100.
Proof.
  destruct (set_pwm_then_show_pwm (probe_data 24000000) 1 0 100 4
              (default_pwm_entry 0) eq_refl)
    as (r & priv' & E & Hok & _).
  exists r, priv'. split; [exact E|]. apply Hok; [reflexivity|lia].
Defined.

(** X3: writing the same number twice: the second write finds the value
    already stored and returns [count] without any register operation
    and without any change of the driver data. *)
Theorem set_pwm_twice (priv : aspeed_pwm_tachometer_data)
    (index fan_ctrl count count' : Z) (c : aspeed_pwm_channel_params) :
  pwm_channel priv !! Z.to_nat index = Some c ->
  0 <= fan_ctrl <= 255 ->
  exists priv',
    set_pwm priv index 0 fan_ctrl count = Some (count, priv') /\
    set_pwm priv' index 0 fan_ctrl count' = Some (count', priv').
Proof.
  intros Hc Hv. destruct (Z.eq_dec (falling c) fan_ctrl) as [He|Hne].
  - exists priv. split; apply (set_pwm_unchanged _ _ _ _ c Hc); assumption.
  - eexists. split; [apply (set_pwm_changed _ _ _ _ c Hc); assumption|].
    apply (set_pwm_unchanged _ _ _ _ (set_falling fan_ctrl c));
      [|exact Hv|reflexivity].
    simpl. apply list_lookup_insert_eq.
    apply lookup_lt_Some in Hc. exact Hc.
Qed.

Lemma set_pwm_twice_witness :
  exists priv',
    set_pwm (probe_data 24000000) 1 0 100 4 = Some (4, priv') /\
    set_pwm priv' 1 0 100 7 = Some (7, priv').
Proof.
  apply (set_pwm_twice (probe_data 24000000) 1 100 4 7 (default_pwm_entry 0)).
  - reflexivity.
  - lia.
Defined.

(** X4: an accepted write of a new nonzero number changes exactly the
    falling-point field of the duty-cycle register: bits 15:8 read back
    the number written, every other bit of that register keeps its
    value, the control register changes in no bit other than the two
    gating bits, and the stored frequency is left alone (no divider
    search is run). *)
Theorem set_pwm_updates_falling_field (priv : aspeed_pwm_tachometer_data)
    (index fan_ctrl count : Z) (c : aspeed_pwm_channel_params) :
  pwm_channel priv !! Z.to_nat index = Some c ->
  1 <= fan_ctrl <= 255 -> falling c <> fan_ctrl ->
  exists priv',
    set_pwm priv index 0 fan_ctrl count = Some (count, priv') /\
    pwm_duty_falling_field
      (regmap_peek (regmap priv') (ASPEED_PWM_DUTY_CYCLE_CH index))
      = fan_ctrl /\
    (forall n, 0 <= n < 32 -> n < 8 \/ 15 < n ->
       Z.testbit
         (regmap_peek (regmap priv') (ASPEED_PWM_DUTY_CYCLE_CH index)) n
       = Z.testbit
           (regmap_peek (regmap priv) (ASPEED_PWM_DUTY_CYCLE_CH index)) n) /\
    (forall n, 0 <= n < 32 -> n <> 16 -> n <> 12 ->
       Z.testbit (regmap_peek (regmap priv') (ASPEED_PWM_CTRL_CH index)) n
       = Z.testbit (regmap_peek (regmap priv) (ASPEED_PWM_CTRL_CH index)) n) /\
    pwm_freq <$> pwm_channel priv' !! Z.to_nat index = Some (pwm_freq c).
Proof.
  intros Hc Hv Hne.
  eexists. split; [apply (set_pwm_changed _ _ _ _ c Hc); [lia|exact Hne]|].
  simpl. unfold set_pwm_regmap.
  destruct (Z.eqb_spec fan_ctrl 0) as [|_]; [lia|].
  set (m1 := regmap_update_bits (regmap priv) (ASPEED_PWM_DUTY_CYCLE_CH index)
               (GENMASK 15 8) (Z.shiftl fan_ctrl PWM_RISING_FALLING_BIT)).
  assert (Hduty : forall m,
            m = m1 \/ m = aspeed_set_pwm_channel_enable m1 index true ->
            regmap_peek m (ASPEED_PWM_DUTY_CYCLE_CH index)
            = regmap_peek m1 (ASPEED_PWM_DUTY_CYCLE_CH index)).
  { intros m [->| ->]; [reflexivity|].
    apply set_enable_peek_ne.
    unfold ASPEED_PWM_DUTY_CYCLE_CH, ASPEED_PWM_CTRL_CH. lia. }
  assert (Hbits : forall n, 0 <= n < 32 ->
            Z.testbit (regmap_peek m1 (ASPEED_PWM_DUTY_CYCLE_CH index)) n
            = if (8 <=? n) && (n <=? 15) then Z.testbit fan_ctrl (n - 8)
              else Z.testbit
                     (regmap_peek (regmap priv)
                        (ASPEED_PWM_DUTY_CYCLE_CH index)) n).
  { intros n Hn. unfold m1. rewrite regmap_update_bits_peek.
    rewrite testbit_u32 by lia.
    rewrite Z.lor_spec, !Z.land_spec, Z.lnot_spec by lia.
    rewrite GENMASK_testbit by lia. unfold PWM_RISING_FALLING_BIT.
    rewrite Z.shiftl_spec by lia.
    destruct ((8 <=? n) && (n <=? 15)).
    - rewrite andb_false_r, andb_true_r. reflexivity.
    - rewrite andb_true_r, andb_false_r, orb_false_r. reflexivity. }
  set (m2 := if falling c =? 0
             then aspeed_set_pwm_channel_enable m1 index true else m1).
  assert (Hm2 : m2 = m1 \/ m2 = aspeed_set_pwm_channel_enable m1 index true)
    by (unfold m2; destruct (falling c =? 0); auto).
  split; [|split; [|split]].
  - unfold pwm_duty_falling_field, PWM_RISING_FALLING_BIT.
    rewrite (Hduty m2 Hm2).
    apply Z.bits_inj'. intros n Hn.
    rewrite Z.shiftr_spec, Z.land_spec, GENMASK_testbit by lia.
    destruct (Z.ltb_spec n 8) as [Hlt|Hge].
    + rewrite Hbits by lia.
      destruct (Z.leb_spec 8 (n + 8)); [|lia].
      destruct (Z.leb_spec (n + 8) 15); [|lia].
      simpl. rewrite andb_true_r. f_equal. lia.
    + destruct (Z.leb_spec (n + 8) 15); [lia|].
      rewrite andb_false_r, andb_false_r.
      symmetry. apply (testbit_above 8); lia.
  - intros n Hn Hout. rewrite (Hduty m2 Hm2), Hbits by lia.
    destruct (Z.leb_spec 8 n), (Z.leb_spec n 15); simpl; lia || reflexivity.
  - intros n Hn H16 H12.
    assert (regmap_peek m1 (ASPEED_PWM_CTRL_CH index)
            = regmap_peek (regmap priv) (ASPEED_PWM_CTRL_CH index)) as E1.
    { apply regmap_update_bits_peek_ne.
      unfold ASPEED_PWM_DUTY_CYCLE_CH, ASPEED_PWM_CTRL_CH. lia. }
    destruct Hm2 as [-> | ->]; [rewrite E1; reflexivity|].
    rewrite set_enable_testbit by lia.
    destruct (Z.eqb_spec 16 n); [lia|]. destruct (Z.eqb_spec 12 n); [lia|].
    simpl. rewrite E1. reflexivity.
  - rewrite list_lookup_insert_eq
      by (apply lookup_lt_Some in Hc; exact Hc).
    reflexivity.
Qed.

Lemma set_pwm_updates_falling_field_witness :
  exists priv',
    set_pwm (probe_data 24000000) 1 0 100 4 = Some (4, priv') /\
    pwm_duty_falling_field
      (regmap_peek (regmap priv') (ASPEED_PWM_DUTY_CYCLE_CH 1)) = 100 /\
    (forall n, 0 <= n < 32 -> n < 8 \/ 15 < n ->
       Z.testbit (regmap_peek (regmap priv') (ASPEED_PWM_DUTY_CYCLE_CH 1)) n
       = Z.testbit
           (regmap_peek (regmap (probe_data 24000000))
              (ASPEED_PWM_DUTY_CYCLE_CH 1)) n) /\
    (forall n, 0 <= n < 32 -> n <> 16 -> n <> 12 ->
       Z.testbit (regmap_peek (regmap priv') (ASPEED_PWM_CTRL_CH 1)) n
       = Z.testbit
           (regmap_peek (regmap (probe_data 24000000))
              (ASPEED_PWM_CTRL_CH 1)) n) /\
    pwm_freq <$> pwm_channel priv' !! Z.to_nat 1
      = Some (pwm_freq (default_pwm_entry 0)).
Proof.
  apply (set_pwm_updates_falling_field (probe_data 24000000) 1 100 4
           (default_pwm_entry 0)).
  - reflexivity.
  - lia.
  - vm_compute. discriminate.
Defined.

(** X5: [set_pwm] keeps the gating bits of every channel in step with
    the stored falling points: if a channel's output is gated off
    exactly when its falling point is 0 before the call, the same holds
    after it, whatever is written. *)
Theorem set_pwm_keeps_consistent (priv : aspeed_pwm_tachometer_data)
    (index kstrtol_ret fan_ctrl count ch : Z) :
  0 <= index -> 0 <= ch ->
  pwm_consistent priv index -> pwm_consistent priv ch ->
  exists r priv',
    set_pwm priv index kstrtol_ret fan_ctrl count = Some (r, priv') /\
    pwm_consistent priv' ch.
Proof.
  intros Hi Hch (c & Hc & Hclk & Hpin) Hcons.
  destruct (Z.eq_dec kstrtol_ret 0) as [->|Hret];
    [|eexists _, _; split;
      [apply (set_pwm_refused _ _ _ _ _ c Hc); lia|exact Hcons]].
  destruct (Z.lt_ge_cases fan_ctrl 0) as [Hneg|Hpos];
    [eexists _, _; split;
      [apply (set_pwm_refused _ _ _ _ _ c Hc); lia|exact Hcons]|].
  destruct (Z.lt_ge_cases 255 fan_ctrl) as [Hbig|Hsmall];
    [eexists _, _; split;
      [apply (set_pwm_refused _ _ _ _ _ c Hc); lia|exact Hcons]|].
  destruct (Z.eq_dec (falling c) fan_ctrl) as [He|Hne];
    [eexists _, _; split;
      [apply (set_pwm_unchanged _ _ _ _ c Hc); [lia|exact He]|exact Hcons]|].
  eexists _, _.
  split; [apply (set_pwm_changed _ _ _ _ c Hc); [lia|exact Hne]|].
  assert (Hlen : (Z.to_nat index < length (pwm_channel priv))%nat)
    by (apply lookup_lt_Some in Hc; exact Hc).
  set (m1 := if fan_ctrl =? 0
             then aspeed_set_pwm_channel_enable (regmap priv) index false
             else regmap_update_bits (regmap priv)
                    (ASPEED_PWM_DUTY_CYCLE_CH index) (GENMASK 15 8)
                    (Z.shiftl fan_ctrl PWM_RISING_FALLING_BIT)).
  assert (Hduty_ne : forall x,
            ASPEED_PWM_CTRL_CH x <> ASPEED_PWM_DUTY_CYCLE_CH index)
    by (intros x; unfold ASPEED_PWM_DUTY_CYCLE_CH, ASPEED_PWM_CTRL_CH; lia).
  destruct (Z.eq_dec ch index) as [->|Hother].
  - exists (set_falling fan_ctrl c). simpl.
    split; [apply list_lookup_insert_eq; exact Hlen|].
    unfold set_pwm_regmap. fold m1.
    destruct (Z.eqb_spec (falling c) 0) as [H0|H0].
    + destruct (set_enable_gates m1 index true) as [-> ->].
      destruct (Z.eqb_spec fan_ctrl 0); [lia|]. split; reflexivity.
    + unfold m1. destruct (Z.eqb_spec fan_ctrl 0) as [Hz|Hz].
      * destruct (set_enable_gates (regmap priv) index false) as [-> ->].
        split; reflexivity.
      * unfold pwm_clk_enabled, pwm_pin_enabled in *.
        rewrite regmap_update_bits_peek_ne by apply Hduty_ne.
        rewrite Hclk, Hpin.
        destruct (Z.eqb_spec (falling c) 0); [contradiction|].
        split; reflexivity.
  - destruct Hcons as (c' & Hc' & Hclk' & Hpin').
    exists c'. simpl.
    split; [rewrite list_lookup_insert_ne by lia; exact Hc'|].
    assert (pwm_clk_enabled m1 ch = pwm_clk_enabled (regmap priv) ch /\
            pwm_pin_enabled m1 ch = pwm_pin_enabled (regmap priv) ch)
      as [E1 E2].
    { unfold m1. destruct (fan_ctrl =? 0).
      - apply set_enable_gates_ne. exact Hother.
      - unfold pwm_clk_enabled, pwm_pin_enabled.
        rewrite regmap_update_bits_peek_ne by apply Hduty_ne.
        split; reflexivity. }
    unfold set_pwm_regmap. fold m1.
    destruct (falling c =? 0).
    + destruct (set_enable_gates_ne m1 index true ch Hother) as [-> ->].
      rewrite E1, E2. split; assumption.
    + rewrite E1, E2. split; assumption.
Qed.

Lemma set_pwm_keeps_consistent_witness :
  exists r priv',
    set_pwm example_running_data 1 0 0 4 = Some (r, priv') /\
    pwm_consistent priv' 1.
Proof.
  apply (set_pwm_keeps_consistent example_running_data 1 0 0 4 1).
  - lia.
  - lia.
  - exists (default_pwm_entry 0). repeat split; reflexivity.
  - exists (default_pwm_entry 0). repeat split; reflexivity.
Defined.

(** ** Channel creation and the cooling device *)

Section ProgrammerFrame.

(** What a run of the programmer leaves behind: the gates of the channel
    follow the falling point programmed, the other channels' gates and
    parameters and the presence flags are untouched. *)
Lemma fan_ctrl_run_frame (dm : data_model)
    (priv : aspeed_pwm_tachometer_data) (index fan_ctrl : Z)
    (c : aspeed_pwm_channel_params) :
  pwm_channel priv !! Z.to_nat index = Some c ->
  is_u32 (clk_freq priv) -> 0 <= target_freq c < 2 ^ 31 ->
  exists priv',
    aspeed_set_pwm_channel_fan_ctrl dm priv index fan_ctrl = Some priv' /\
    pwm_clk_enabled (regmap priv') index = negb (fan_ctrl =? 0) /\
    pwm_pin_enabled (regmap priv') index = negb (fan_ctrl =? 0) /\
    (forall ch, ch <> index ->
       pwm_clk_enabled (regmap priv') ch = pwm_clk_enabled (regmap priv) ch /\
       pwm_pin_enabled (regmap priv') ch = pwm_pin_enabled (regmap priv) ch) /\
    falling <$> pwm_channel priv' !! Z.to_nat index = Some (falling c) /\
    (forall j, j <> Z.to_nat index ->
       pwm_channel priv' !! j = pwm_channel priv !! j) /\
    pwm_present priv' = pwm_present priv /\
    fan_tach_present priv' = fan_tach_present priv /\
    tacho_channel priv' = tacho_channel priv /\
    clk_freq priv' = clk_freq priv.
Proof.
  intros Hc Hclk Ht.
  unfold aspeed_set_pwm_channel_fan_ctrl.
  destruct (Z.eqb_spec fan_ctrl 0) as [->|Hnz].
  - eexists. split; [reflexivity|]. simpl.
    destruct (set_enable_gates (regmap priv) index false) as [-> ->].
    split; [reflexivity|]. split; [reflexivity|].
    split; [intros ch Hch; apply set_enable_gates_ne; exact Hch|].
    rewrite Hc. repeat split; reflexivity.
  - destruct (pwm_divider_search_total dm _ _ Hclk Ht)
      as (h & l & Es & Hh & Hl & Ef).
    rewrite Hc. simpl. rewrite Es. simpl. rewrite Ef. simpl.
    eexists. split; [reflexivity|]. simpl.
    match goal with
    | |- context [aspeed_set_pwm_channel_enable ?m index true] =>
        destruct (set_enable_gates m index true) as [-> ->]
    end.
    split; [reflexivity|]. split; [reflexivity|]. split; [|split; [|split]].
    + intros ch Hch.
      match goal with
      | |- context [aspeed_set_pwm_channel_enable ?m index true] =>
          destruct (set_enable_gates_ne m index true ch Hch) as [-> ->]
      end.
      unfold pwm_clk_enabled, pwm_pin_enabled.
      rewrite !regmap_write_peek_ne
        by (unfold ASPEED_PWM_DUTY_CYCLE_CH, ASPEED_PWM_CTRL_CH; lia).
      split; reflexivity.
    + rewrite list_lookup_insert_eq
        by (apply lookup_lt_Some in Hc; exact Hc).
      reflexivity.
    + intros j Hj. apply list_lookup_insert_ne. congruence.
    + repeat split; reflexivity.
Qed.

End ProgrammerFrame.

(** X6: creating a PWM channel (in range, 32-bit clock, target frequency
    in [0, 2^31)) succeeds, makes the channel's attribute visible and
    leaves its output gated off exactly when its stored falling point is
    0; the visibility and the consistency of every other channel are
    unaffected. *)
Theorem create_pwm_channel_establishes (dm : data_model)
    (priv : aspeed_pwm_tachometer_data) (index : Z)
    (c : aspeed_pwm_channel_params) :
  0 <= index ->
  pwm_channel priv !! Z.to_nat index = Some c ->
  (Z.to_nat index < length (pwm_present priv))%nat ->
  is_u32 (clk_freq priv) -> 0 <= target_freq c < 2 ^ 31 ->
  exists priv',
    aspeed_create_pwm_channel dm priv index = Some priv' /\
    pwm_consistent priv' index /\
    (forall mode, pwm_is_visible priv' mode index = Some mode) /\
    (forall ch, 0 <= ch -> ch <> index ->
       (pwm_consistent priv ch -> pwm_consistent priv' ch) /\
       (forall mode,
          pwm_is_visible priv' mode ch = pwm_is_visible priv mode ch)).
Proof.
  intros Hi Hc Hlen Hclk Ht.
  set (priv1 := set_pwm_present
                  (<[Z.to_nat index := true]> (pwm_present priv)) priv).
  destruct (fan_ctrl_run_frame dm priv1 index (falling c) c Hc Hclk Ht)
    as (priv' & E & Hg1 & Hg2 & Hother & Hf & Hch & Hpres & _).
  exists priv'. unfold aspeed_create_pwm_channel. fold priv1.
  change (pwm_channel priv1) with (pwm_channel priv). rewrite Hc. simpl.
  split; [exact E|]. split; [|split].
  - destruct (pwm_channel priv' !! Z.to_nat index) as [c'|] eqn:Ec';
      [|discriminate].
    exists c'. injection Hf as Hf. rewrite Hf.
    split; [exact Ec'|]. split; assumption.
  - intros mode. unfold pwm_is_visible. rewrite Hpres. simpl.
    rewrite list_lookup_insert_eq by exact Hlen. reflexivity.
  - intros ch Hch0 Hne. split.
    + intros (c' & Hc' & Hk & Hp). exists c'.
      destruct (Hother ch Hne) as [-> ->].
      split; [|split; assumption].
      rewrite Hch by lia. exact Hc'.
    + intros mode. unfold pwm_is_visible. rewrite Hpres. simpl.
      rewrite list_lookup_insert_ne by lia. reflexivity.
Qed.

Lemma create_pwm_channel_establishes_witness :
  exists priv',
    aspeed_create_pwm_channel ILP32 (probe_data 24000000) 3 = Some priv' /\
    pwm_consistent priv' 3 /\
    (forall mode, pwm_is_visible priv' mode 3 = Some mode) /\
    (forall ch, 0 <= ch -> ch <> 3 ->
       (pwm_consistent (probe_data 24000000) ch -> pwm_consistent priv' ch) /\
       (forall mode,
          pwm_is_visible priv' mode ch
          = pwm_is_visible (probe_data 24000000) mode ch)).
Proof.
  apply (create_pwm_channel_establishes ILP32 (probe_data 24000000) 3
           (default_pwm_entry 0)).
  - lia.
  - reflexivity.
  - simpl. lia.
  - in_range.
  - in_range.
Defined.

(** X7: a cooling device whose level table has [max_state + 1] entries
    answers every request: a state within range returns 0, is the state
    [get_cur_state] reports afterwards, and leaves the fan output gated
    off exactly when the selected level is 0; a state above [max_state]
    returns [-EINVAL] and changes nothing. In both cases [max_state] is
    unchanged and a current state that was within [0, max_state] stays
    within it. *)
Theorem cz_set_cur_state_invariant (dm : data_model)
    (cdev : aspeed_cooling_device) (priv : aspeed_pwm_tachometer_data)
    (state : Z) (c : aspeed_pwm_channel_params) :
  0 <= state -> is_u8 (max_state cdev) -> is_u8 (cdev_pwm_channel cdev) ->
  length (cooling_levels cdev) = Z.to_nat (max_state cdev + 1) ->
  pwm_channel priv !! Z.to_nat (cdev_pwm_channel cdev) = Some c ->
  is_u32 (clk_freq priv) -> 0 <= target_freq c < 2 ^ 31 ->
  exists r cdev' priv',
    aspeed_pwm_cz_set_cur_state dm cdev priv state = Some (r, cdev', priv') /\
    (state <= max_state cdev ->
       r = 0 /\ aspeed_pwm_cz_get_cur_state cdev' = (0, state) /\
       pwm_consistent priv' (cdev_pwm_channel cdev) /\
       falling <$> pwm_channel priv' !! Z.to_nat (cdev_pwm_channel cdev)
         = cooling_levels cdev !! Z.to_nat state) /\
    (state > max_state cdev ->
       r = - EINVAL /\ cdev' = cdev /\ priv' = priv) /\
    aspeed_pwm_cz_get_max_state cdev' = aspeed_pwm_cz_get_max_state cdev /\
    (0 <= cur_state cdev <= max_state cdev ->
       0 <= snd (aspeed_pwm_cz_get_cur_state cdev')
         <= snd (aspeed_pwm_cz_get_max_state cdev')).
Proof.
  intros Hs Hmax Hch Hlen Hc Hclk Ht. unfold is_u8 in *.
  unfold aspeed_pwm_cz_set_cur_state.
  destruct (Z.gtb_spec state (max_state cdev)) as [Hgt|Hle].
  - eexists _, _, _. split; [reflexivity|].
    split; [intros; lia|]. split; [intros; repeat split; reflexivity|].
    split; [reflexivity|]. intros Hin. exact Hin.
  - assert (u8 state = state) as Es by (apply wrap_small; lia).
    assert (u8 (cdev_pwm_channel cdev) = cdev_pwm_channel cdev) as Ec
      by (apply wrap_small; lia).
    destruct (lookup_lt_is_Some_2 (cooling_levels cdev) (Z.to_nat state))
      as [lvl Hlvl]; [lia|].
    rewrite Es. simpl. rewrite Hlvl. simpl. rewrite Hc. simpl. rewrite Ec.
    set (priv1 :=
           set_pwm_channel
             (<[Z.to_nat (cdev_pwm_channel cdev) := set_falling lvl c]>
                (pwm_channel priv)) priv).
    assert (pwm_channel priv1 !! Z.to_nat (cdev_pwm_channel cdev)
            = Some (set_falling lvl c)) as Hc1.
    { simpl. apply list_lookup_insert_eq.
      apply lookup_lt_Some in Hc. exact Hc. }
    destruct (fan_ctrl_run_frame dm priv1 (cdev_pwm_channel cdev) lvl
                (set_falling lvl c) Hc1 Hclk Ht)
      as (priv' & E & Hg1 & Hg2 & _ & Hf & _).
    rewrite E. simpl. eexists _, _, _. split; [reflexivity|].
    split; [|split; [intros; lia|split; [reflexivity|simpl; intros; lia]]].
    intros _. split; [reflexivity|]. split; [reflexivity|].
    split; [|exact Hf].
    destruct (pwm_channel priv' !! Z.to_nat (cdev_pwm_channel cdev))
      as [c'|] eqn:Ec'; [|discriminate].
    exists c'. injection Hf as Hf. simpl in Hf. rewrite Hf.
    split; [exact Ec'|]. split; assumption.
Qed.

Lemma cz_set_cur_state_invariant_witness :
  exists r cdev' priv',
    aspeed_pwm_cz_set_cur_state ILP32 example_cdev (probe_data 24000000) 0
      = Some (r, cdev', priv') /\
    r = 0 /\ aspeed_pwm_cz_get_cur_state cdev' = (0, 0) /\
    pwm_consistent priv' (cdev_pwm_channel example_cdev) /\
    falling <$> pwm_channel priv' !! Z.to_nat (cdev_pwm_channel example_cdev)
      = Some 0.
Proof.
  destruct (cz_set_cur_state_invariant ILP32 example_cdev
              (probe_data 24000000) 0 (default_pwm_entry 0))
    as (r & cdev' & priv' & E & Hok & _).
  - lia.
  - in_range.
  - in_range.
  - reflexivity.
  - reflexivity.
  - in_range.
  - in_range.
  - exists r, cdev', priv'. split; [exact E|]. apply Hok. simpl. lia.
Defined.

(** ** Tachometer channels *)

Section TachoChannels.

Lemma tacho_ctrl_value_enabled c i :
  is_u8 (tacho_edge c) -> is_u8 (tacho_debounce c) -> is_u16 (threshold c) ->
  0 <= i < 16 ->
  Z.testbit (u32 (tacho_ctrl_value c i)) 28 = true.
Proof.
  intros He Hd Ht Hi. rewrite testbit_u32 by lia.
  unfold tacho_ctrl_value, TACHO_ENABLE, TACHO_INVERS_LIMIT, TACHO_IER.
  assert (Hbase :
    Z.testbit
      (u32 (Z.lor (Z.lor (Z.lor (2 ^ 28)
                            (Z.shiftl (tacho_edge c) TACHIO_EDGE_BIT))
                     (Z.shiftl i TACHO_CLK_DIV_BIT))
              (Z.shiftl (tacho_debounce c) TACHO_DEBOUNCE_BIT))) 28 = true).
  { rewrite testbit_u32 by lia. rewrite !Z.lor_spec.
    rewrite Z.pow2_bits_eqb by lia. reflexivity. }
  destruct (limited_inverse c =? 0), (threshold c =? 0);
    rewrite ?Z.lor_spec, Hbase; reflexivity.
Qed.

(** One step of the enable path, spelled out. *)
Lemma tacho_enable_step dm priv ch c :
  tacho_channel priv !! Z.to_nat ch = Some c ->
  is_u32 (clk_freq priv) -> is_u32 (min_rpm c) -> min_rpm c <> 0 ->
  exists i,
    tach_divider dm (clk_freq priv) (min_rpm c) = Some (i, 4 ^ i) /\
    0 <= i <= 11 /\
    aspeed_set_fan_tach_ch_enable dm priv ch true
    = Some (set_regmap
              (regmap_write (regmap priv) (ASPEED_TACHO_CTRL_CH ch)
                 (tacho_ctrl_value (set_divide (4 ^ i) c) i))
              (set_tacho_channel
                 (<[Z.to_nat ch := set_divide (4 ^ i) c]> (tacho_channel priv))
                 priv)).
Proof.
  intros Hc Hclk Hrpm Hnz.
  destruct (tach_target_div_bound dm _ _ Hclk Hrpm Hnz) as (t & Et & Hrange).
  destruct (tach_div_select_first dm t) as (i & Es & Hi & _); [lia|].
  exists i. unfold aspeed_set_fan_tach_ch_enable, tach_divider.
  rewrite Hc. simpl. rewrite Et. simpl. rewrite Es. simpl.
  repeat split; try reflexivity; lia.
Qed.

End TachoChannels.

(** X8: disabling a tachometer channel clears bit 28 of its control
    register and nothing else: the divider field and every other bit
    stay as programmed, the other registers are untouched, and the
    stored channel parameters (the divisor used by the RPM conversion
    included) are unchanged. *)
Theorem tacho_disable_clears_only_enable (dm : data_model)
    (priv : aspeed_pwm_tachometer_data) (ch : Z) :
  exists priv',
    aspeed_set_fan_tach_ch_enable dm priv ch false = Some priv' /\
    Z.testbit (regmap_peek (regmap priv') (ASPEED_TACHO_CTRL_CH ch)) 28
      = false /\
    (forall n, 0 <= n < 32 -> n <> 28 ->
       Z.testbit (regmap_peek (regmap priv') (ASPEED_TACHO_CTRL_CH ch)) n
       = Z.testbit (regmap_peek (regmap priv) (ASPEED_TACHO_CTRL_CH ch)) n) /\
    tacho_clk_div_field (regmap_peek (regmap priv') (ASPEED_TACHO_CTRL_CH ch))
      = tacho_clk_div_field
          (regmap_peek (regmap priv) (ASPEED_TACHO_CTRL_CH ch)) /\
    (forall r, r <> ASPEED_TACHO_CTRL_CH ch ->
       regmap_peek (regmap priv') r = regmap_peek (regmap priv) r) /\
    tacho_channel priv' = tacho_channel priv /\
    pwm_channel priv' = pwm_channel priv.
Proof.
  eexists. split; [reflexivity|]. simpl.
  rewrite regmap_update_bits_peek.
  assert (Hbits : forall n, 0 <= n < 32 ->
            Z.testbit
              (u32 (Z.lor
                      (Z.land (regmap_peek (regmap priv)
                                 (ASPEED_TACHO_CTRL_CH ch))
                         (Z.lnot TACHO_ENABLE))
                      (Z.land 0 TACHO_ENABLE))) n
            = Z.testbit (regmap_peek (regmap priv) (ASPEED_TACHO_CTRL_CH ch)) n
              && negb (28 =? n)).
  { intros n Hn. rewrite testbit_u32 by lia.
    rewrite Z.lor_spec, !Z.land_spec, Z.lnot_spec, Z.testbit_0_l by lia.
    unfold TACHO_ENABLE. rewrite Z.pow2_bits_eqb by lia.
    rewrite andb_false_l, orb_false_r. reflexivity. }
  split; [rewrite Hbits by lia; apply andb_false_r|].
  split; [|split; [|split; [|split; reflexivity]]].
  - intros n Hn H28. rewrite Hbits by lia.
    destruct (Z.eqb_spec 28 n); [lia|]. apply andb_true_r.
  - unfold tacho_clk_div_field, TACHO_CLK_DIV_T_MASK, TACHO_CLK_DIV_BIT.
    apply Z.bits_inj'. intros n Hn.
    rewrite !Z.shiftr_spec, !Z.land_spec, !Z.shiftl_spec by lia.
    replace (n + 20 - 20) with n by lia.
    destruct (Z.ltb_spec n 4) as [Hlt|Hge].
    + rewrite Hbits by lia.
      destruct (Z.eqb_spec 28 (n + 20)); [lia|].
      rewrite andb_true_r. reflexivity.
    + rewrite (testbit_above 4 15) by lia.
      rewrite !andb_false_r. reflexivity.
  - intros r Hr. apply regmap_update_bits_peek_ne. exact Hr.
Qed.

(** X9: for a clock below [2^32 / 60] (no wrap of [clk * 60]), a nonzero
    32-bit minimum RPM and a target divider below 1024, the divisor the
    enable path selects makes the minimum RPM measurable: the conversion
    of the largest raw count that is not the sentinel, [0xFFFFE], is
    defined and does not exceed the minimum RPM. *)
Theorem tach_divider_covers_min_rpm (dm : data_model) (clk rpm : Z) :
  0 <= clk -> clk * 60 < 2 ^ 32 -> 0 < rpm < 2 ^ 32 ->
  clk * 60 / rpm * 2 < 2 ^ 30 ->
  exists i r,
    tach_divider dm clk rpm = Some (i, 4 ^ i) /\ 0 <= i <= 5 /\
    tach_rpm_of_status (4 ^ i) clk 0xFFFFE = Some r /\
    0 <= r <= rpm.
Proof.
  intros Hclk Hwrap Hrpm Hsmall.
  change (2 ^ 32) with 4294967296 in *. change (2 ^ 30) with 1073741824 in *.
  set (A := clk * 60 / rpm) in *.
  assert (0 <= A) as HA0 by (apply Z.div_pos; lia).
  assert (A * rpm <= clk * 60 < (A + 1) * rpm) as HA.
  { unfold A. pose proof (Z.mul_div_le (clk * 60) rpm ltac:(lia)).
    pose proof (Z.mul_succ_div_gt (clk * 60) rpm ltac:(lia)). lia. }
  set (t := A * 2 / 1048576).
  assert (0 <= t < 1024) as Ht by (unfold t; Z.div_mod_to_equations; lia).
  assert (A * 2 < (t + 1) * 1048576) as HtA
    by (unfold t; Z.div_mod_to_equations; lia).
  assert (tach_target_div dm clk rpm = Some t) as Et.
  { unfold tach_target_div. rewrite udiv_Some by lia. simpl.
    rewrite (ulong_small dm (clk * 60))
      by (unfold is_u32; change (2 ^ 32) with 4294967296; lia).
    fold A. rewrite (ulong_small dm (A * 2))
      by (unfold is_u32; change (2 ^ 32) with 4294967296; lia).
    change (1048575 + 1) with 1048576. fold t.
    rewrite u32_small
      by (unfold is_u32; change (2 ^ 32) with 4294967296; lia).
    reflexivity. }
  destruct (tach_div_select_first dm t) as (i & Es & Hi & Hgt & Hfirst).
  { change (4 ^ 11) with 4194304. lia. }
  assert (i <= 5) as Hi5.
  { destruct (Z.le_gt_cases i 5); [assumption|].
    specialize (Hfirst 5 ltac:(lia)). change (4 ^ 5) with 1024 in Hfirst.
    lia. }
  assert (1 <= 4 ^ i <= 1024) as Hd.
  { split; [apply (Z.pow_le_mono_r 4 0 i); lia|].
    change 1024 with (4 ^ 5). apply Z.pow_le_mono_r; lia. }
  set (d := 4 ^ i) in *.
  set (q := clk / (1048575 * d * 2)).
  assert (0 <= q) as Hq0 by (apply Z.div_pos; lia).
  assert (q * (1048575 * d * 2) <= clk) as Hq
    by (unfold q; rewrite Z.mul_comm; apply Z.mul_div_le; lia).
  assert (q * 60 * 2097150 < 524288 * rpm) as Hbound.
  { assert (A + 1 <= d * 524288) as HAd by lia.
    assert ((A + 1) * rpm <= d * 524288 * rpm) as H1
      by (apply Z.mul_le_mono_nonneg_r; lia).
    assert (d * (q * 60 * 2097150) < d * (524288 * rpm)) as H2 by nia.
    apply (Z.mul_lt_mono_pos_l d); lia. }
  exists i, (q * 60). unfold tach_divider. rewrite Et. simpl. rewrite Es.
  split; [reflexivity|]. split; [lia|]. split; [|lia].
  pose proof (tach_rpm_no_overflow d clk 0xFFFFE) as E. cbv zeta in E.
  change (Z.land 0xFFFFE TACHO_VALUE_MASK) with 0xFFFFE in E.
  change (0xFFFFE + 1) with 1048575 in E.
  fold q in E. apply E.
  - lia.
  - lia.
  - unfold is_u32. change (2 ^ 32) with 4294967296. lia.
  - change (2 ^ 32) with 4294967296. lia.
  - change (2 ^ 31) with 2147483648. lia.
Qed.

Lemma tach_divider_covers_min_rpm_witness :
  exists i r,
    tach_divider ILP32 24000000 2900 = Some (i, 4 ^ i) /\ 0 <= i <= 5 /\
    tach_rpm_of_status (4 ^ i) 24000000 0xFFFFE = Some r /\
    0 <= r <= 2900.
Proof.
  apply (tach_divider_covers_min_rpm ILP32 24000000 2900).
  - lia.
  - vm_compute. reflexivity.
  - vm_compute. split; reflexivity.
  - vm_compute. reflexivity.
Defined.

Section CreateFanTach.

Variable dm : data_model.
Variables rpm i : Z.

Local Abbreviation created := (tach_channel_created rpm i).
Local Abbreviation untouched := tach_channel_untouched.

(** One round of the loop, spelled out. *)
Lemma create_fan_tach_loop_step fuel priv chs count val index c :
  val < count ->
  chs !! Z.to_nat val = Some index ->
  (Z.to_nat index < length (fan_tach_present priv))%nat ->
  tacho_channel priv !! Z.to_nat index = Some c ->
  create_fan_tach_loop dm (S fuel) priv chs count val rpm
  = match aspeed_set_fan_tach_ch_enable dm
            (set_tacho_channel
               (<[Z.to_nat index := set_min_rpm rpm c]>
                  (tacho_channel priv))
               (set_fan_tach_present
                  (<[Z.to_nat index := true]> (fan_tach_present priv))
                  priv)) index true with
    | None => Trap
    | Some priv' =>
        create_fan_tach_loop dm fuel priv' chs count (u8 (val + 1)) rpm
    end.
Proof.
  intros Hlt Hix Hp Hc. cbn [create_fan_tach_loop].
  destruct (Z.ltb_spec val count); [|lia].
  destruct (lookup_lt_is_Some_2 _ _ Hp) as [b Hb].
  rewrite Hix, Hb, Hc. reflexivity.
Qed.

(** The loop from position [length pre] on: the entries of [rest] are
    still to be created. *)
Lemma create_fan_tach_loop_inv rest : forall pre priv fuel,
  Z.of_nat (length (pre ++ rest)) <= 255 -> (length rest < fuel)%nat ->
  is_u32 (clk_freq priv) -> is_u32 rpm -> rpm <> 0 ->
  tach_divider dm (clk_freq priv) rpm = Some (i, 4 ^ i) -> 0 <= i <= 11 ->
  length (tacho_channel priv) = length (fan_tach_present priv) ->
  (forall ch, ch ∈ rest ->
     0 <= ch /\ (Z.to_nat ch < length (tacho_channel priv))%nat) ->
  (forall j c, tacho_channel priv !! j = Some c -> tacho_fields_in_range c) ->
  exists priv',
    create_fan_tach_loop dm fuel priv (pre ++ rest)
      (Z.of_nat (length (pre ++ rest))) (Z.of_nat (length pre)) rpm
      = Done priv' /\
    (forall ch, ch ∈ rest -> created priv' ch) /\
    (forall ch, 0 <= ch -> ch ∉ rest -> untouched priv priv' ch) /\
    pwm_channel priv' = pwm_channel priv /\
    clk_freq priv' = clk_freq priv.
Proof.
  induction rest as [|index rest IH];
    intros pre priv fuel Hcount Hfuel Hclk Hrpm Hnz Hdiv Hi Hlen Hin Hfields.
  - exists priv. destruct fuel as [|fuel]; [simpl in Hfuel; lia|].
    rewrite app_nil_r. cbn [create_fan_tach_loop].
    rewrite Z.ltb_irrefl. split; [reflexivity|]. split.
    + intros ch Hch. apply elem_of_nil in Hch. contradiction.
    + repeat split; reflexivity.
  - destruct fuel as [|fuel]; [simpl in Hfuel; lia|].
    destruct (Hin index ltac:(left)) as [Hix0 Hixlen].
    destruct (lookup_lt_is_Some_2 (tacho_channel priv) (Z.to_nat index) Hixlen)
      as [c Hc].
    destruct (Hfields _ _ Hc) as (He & Hd & Ht).
    set (privA := set_fan_tach_present
                    (<[Z.to_nat index := true]> (fan_tach_present priv)) priv).
    set (privB := set_tacho_channel
                    (<[Z.to_nat index := set_min_rpm rpm c]>
                       (tacho_channel privA)) privA).
    assert (tacho_channel privB !! Z.to_nat index = Some (set_min_rpm rpm c))
      as HcB by (simpl; apply list_lookup_insert_eq; exact Hixlen).
    destruct (tacho_enable_step dm privB index (set_min_rpm rpm c) HcB
                Hclk Hrpm Hnz) as (i' & Ediv' & _ & Estep).
    simpl in Ediv'. rewrite Hdiv in Ediv'.
    assert (i' = i) as -> by congruence.
    set (cC := set_divide (4 ^ i) (set_min_rpm rpm c)) in *.
    set (privC :=
           set_regmap
             (regmap_write (regmap privB) (ASPEED_TACHO_CTRL_CH index)
                (tacho_ctrl_value cC i))
             (set_tacho_channel
                (<[Z.to_nat index := cC]> (tacho_channel privB)) privB))
      in *.
    assert (Happ : (pre ++ [index]) ++ rest = pre ++ index :: rest)
      by (rewrite <- app_assoc; reflexivity).
    assert (Hlen1 : Z.of_nat (length (pre ++ [index]))
                    = Z.of_nat (length pre) + 1)
      by (rewrite length_app; simpl; lia).
    assert (Hlens : Z.of_nat (length (pre ++ index :: rest))
                    = Z.of_nat (length pre) + 1 + Z.of_nat (length rest))
      by (rewrite length_app; simpl; lia).
    destruct (IH (pre ++ [index]) privC fuel)
      as (priv' & E & Hcreated & Huntouched & Hpwm & Hclk');
      try assumption.
    { rewrite Happ. exact Hcount. }
    { simpl in Hfuel. lia. }
    { simpl. rewrite !length_insert. exact Hlen. }
    { intros ch Hch. simpl. rewrite !length_insert.
      apply Hin. right. exact Hch. }
    { intros j c0. simpl. intros Hj.
      destruct (decide (j = Z.to_nat index)) as [->|Hne].
      - rewrite list_lookup_insert_eq in Hj
          by (rewrite length_insert; exact Hixlen).
        injection Hj as <-. unfold cC.
        split; [|split]; simpl; assumption.
      - rewrite !list_lookup_insert_ne in Hj by congruence.
        eapply Hfields. exact Hj. }
    assert (created privC index) as HcreatedC.
    { unfold tach_channel_created. simpl. split; [|split; [|split]].
      - apply list_lookup_insert_eq. rewrite <- Hlen. exact Hixlen.
      - exists cC. split; [|split; reflexivity].
        apply list_lookup_insert_eq. rewrite length_insert. exact Hixlen.
      - rewrite regmap_write_peek.
        apply tacho_ctrl_value_field; simpl; try assumption. lia.
      - rewrite regmap_write_peek.
        apply tacho_ctrl_value_enabled; simpl; try assumption. lia. }
    assert (forall ch, 0 <= ch -> ch <> index -> untouched priv privC ch)
      as HuntouchedC.
    { intros ch Hch Hne. unfold tach_channel_untouched. simpl.
      rewrite !list_lookup_insert_ne by lia.
      rewrite regmap_write_peek_ne by (unfold ASPEED_TACHO_CTRL_CH; lia).
      repeat split; reflexivity. }
    exists priv'.
    rewrite (create_fan_tach_loop_step _ _ _ _ _ index c);
      [|lia|rewrite Nat2Z.id; apply list_lookup_middle; reflexivity
       |rewrite <- Hlen; exact Hixlen|exact Hc].
    change (set_tacho_channel
              (<[Z.to_nat index := set_min_rpm rpm c]> (tacho_channel priv))
              (set_fan_tach_present
                 (<[Z.to_nat index := true]> (fan_tach_present priv)) priv))
      with privB.
    rewrite Estep. rewrite Happ, Hlen1 in E.
    assert (u8 (Z.of_nat (length pre) + 1) = Z.of_nat (length pre) + 1) as ->
      by (apply wrap_small; change (2 ^ 8) with 256; lia).
    split; [exact E|]. split; [|split; [|split]].
    + intros ch Hch. destruct (decide (ch ∈ rest)) as [Hr|Hnr].
      * apply Hcreated. exact Hr.
      * apply elem_of_cons in Hch. destruct Hch as [->|Hr]; [|contradiction].
        destruct (Huntouched index Hix0 Hnr) as (U1 & U2 & U3).
        unfold tach_channel_created. rewrite U1, U2, U3. exact HcreatedC.
    + intros ch Hch Hnot.
      assert (ch <> index) as Hne
        by (intros ->; apply Hnot; left).
      assert (ch ∉ rest) as Hnr by (intros Hr; apply Hnot; right; exact Hr).
      destruct (Huntouched ch Hch Hnr) as (U1 & U2 & U3).
      destruct (HuntouchedC ch Hch Hne) as (V1 & V2 & V3).
      unfold tach_channel_untouched. rewrite U1, U2, U3.
      repeat split; assumption.
    + rewrite Hpwm. reflexivity.
    + rewrite Hclk'. reflexivity.
Qed.

End CreateFanTach.

(** The counter is a [u8] compared with an [int]: for a count above
    255 the test [val < count] holds at every round, and the loop does
    not come to its end. *)
Lemma create_fan_tach_loop_count_above_u8 dm chs count rpm :
  255 < count ->
  forall fuel priv val priv', 0 <= val <= 255 ->
    create_fan_tach_loop dm fuel priv chs count val rpm <> Done priv'.
Proof.
  intros Hcount. induction fuel as [|fuel IH]; intros priv val priv' Hval.
  - discriminate.
  - cbn [create_fan_tach_loop].
    destruct (Z.ltb_spec val count); [|lia].
    destruct (chs !! Z.to_nat val) as [index|]; [|discriminate].
    destruct (fan_tach_present _ !! Z.to_nat index) as [b|]; [|discriminate].
    destruct (tacho_channel _ !! Z.to_nat index) as [c|]; [|discriminate].
    destruct (aspeed_set_fan_tach_ch_enable _ _ _ _) as [priv2|];
      [|discriminate].
    apply IH.
    pose proof (wrap_range 8 (val + 1) ltac:(lia)) as Hr.
    unfold u8. change (2 ^ 8) with 256 in Hr. lia.
Qed.

(** X10: creating the tachometer channels of a fan, called with the
    array of its channel numbers and their count (at most 255 entries,
    channel numbers in range, 32-bit clock, nonzero 32-bit minimum RPM,
    channel fields within their C types), ends once the loop has made
    its [count + 1] tests. Every listed channel ends up present,
    enabled (bit 28), with the minimum RPM stored, the divisor [4^i]
    stored and the same exponent [i <= 11] in its divider field; every
    channel that is not listed keeps its parameters, its presence flag
    and its control register, and the PWM parameters are untouched. *)
Theorem create_fan_tach_channel_programs (dm : data_model) (fuel : nat)
    (priv : aspeed_pwm_tachometer_data) (fan_tach_ch : list Z)
    (count rpm : Z) :
  count = Z.of_nat (length fan_tach_ch) -> count <= 255 ->
  (length fan_tach_ch < fuel)%nat ->
  is_u32 (clk_freq priv) -> is_u32 rpm -> rpm <> 0 ->
  length (tacho_channel priv) = length (fan_tach_present priv) ->
  (forall ch, ch ∈ fan_tach_ch ->
     0 <= ch /\ (Z.to_nat ch < length (tacho_channel priv))%nat) ->
  (forall j c, tacho_channel priv !! j = Some c -> tacho_fields_in_range c) ->
  exists priv' i,
    aspeed_create_fan_tach_channel dm fuel priv fan_tach_ch count rpm
      = Done priv' /\
    0 <= i <= 11 /\
    (forall ch, ch ∈ fan_tach_ch ->
       (forall mode, fan_dev_is_visible priv' mode ch = Some mode) /\
       (exists c', tacho_channel priv' !! Z.to_nat ch = Some c' /\
                   min_rpm c' = rpm /\ divide c' = 4 ^ i) /\
       tacho_clk_div_field
         (regmap_peek (regmap priv') (ASPEED_TACHO_CTRL_CH ch)) = i /\
       Z.testbit (regmap_peek (regmap priv') (ASPEED_TACHO_CTRL_CH ch)) 28
         = true) /\
    (forall ch, 0 <= ch -> ch ∉ fan_tach_ch ->
       tacho_channel priv' !! Z.to_nat ch = tacho_channel priv !! Z.to_nat ch /\
       fan_tach_present priv' !! Z.to_nat ch
         = fan_tach_present priv !! Z.to_nat ch /\
       regmap_peek (regmap priv') (ASPEED_TACHO_CTRL_CH ch)
         = regmap_peek (regmap priv) (ASPEED_TACHO_CTRL_CH ch)) /\
    pwm_channel priv' = pwm_channel priv.
Proof.
  intros -> Hcount Hfuel Hclk Hrpm Hnz Hlen Hin Hfields.
  destruct (tach_target_div_bound dm _ _ Hclk Hrpm Hnz) as (t & Et & Hrange).
  destruct (tach_div_select_first dm t) as (i & Es & Hi & _); [lia|].
  assert (tach_divider dm (clk_freq priv) rpm = Some (i, 4 ^ i)) as Hdiv
    by (unfold tach_divider; rewrite Et; simpl; rewrite Es; reflexivity).
  destruct (create_fan_tach_loop_inv dm rpm i fan_tach_ch [] priv fuel
              Hcount Hfuel Hclk Hrpm Hnz Hdiv Hi Hlen Hin Hfields)
    as (priv' & E & Hcreated & Huntouched & Hpwm & _).
  exists priv', i. split; [exact E|]. split; [exact Hi|].
  split; [|split; [|exact Hpwm]].
  - intros ch Hch. destruct (Hcreated ch Hch) as (P & C & F & B).
    split; [|split; [exact C|split; [exact F|exact B]]].
    intros mode. unfold fan_dev_is_visible. rewrite P. reflexivity.
  - intros ch Hch Hnot. exact (Huntouched ch Hch Hnot).
Qed.

Lemma create_fan_tach_channel_programs_witness :
  exists priv' i,
    aspeed_create_fan_tach_channel ILP32 3 (probe_data 24000000) [0; 5] 2 2900
      = Done priv' /\
    0 <= i <= 11 /\
    (forall ch, ch ∈ [0; 5] ->
       (forall mode, fan_dev_is_visible priv' mode ch = Some mode) /\
       (exists c', tacho_channel priv' !! Z.to_nat ch = Some c' /\
                   min_rpm c' = 2900 /\ divide c' = 4 ^ i) /\
       tacho_clk_div_field
         (regmap_peek (regmap priv') (ASPEED_TACHO_CTRL_CH ch)) = i /\
       Z.testbit (regmap_peek (regmap priv') (ASPEED_TACHO_CTRL_CH ch)) 28
         = true) /\
    (forall ch, 0 <= ch -> ch ∉ [0; 5] ->
       tacho_channel priv' !! Z.to_nat ch
         = tacho_channel (probe_data 24000000) !! Z.to_nat ch /\
       fan_tach_present priv' !! Z.to_nat ch
         = fan_tach_present (probe_data 24000000) !! Z.to_nat ch /\
       regmap_peek (regmap priv') (ASPEED_TACHO_CTRL_CH ch)
         = regmap_peek (regmap (probe_data 24000000))
             (ASPEED_TACHO_CTRL_CH ch)) /\
    pwm_channel priv' = pwm_channel (probe_data 24000000).
Proof.
  apply (create_fan_tach_channel_programs ILP32 3 (probe_data 24000000)
           [0; 5] 2 2900).
  - reflexivity.
  - lia.
  - simpl. lia.
  - in_range.
  - in_range.
  - lia.
  - reflexivity.
  - intros ch Hch. rewrite !elem_of_cons, elem_of_nil in Hch.
    destruct Hch as [->|[->|[]]]; simpl; lia.
  - intros j c Hj. apply list_elem_of_lookup_2 in Hj.
    change (tacho_channel (probe_data 24000000))
      with (replicate 16 default_tacho_entry) in Hj.
    apply elem_of_replicate in Hj. destruct Hj as [-> _].
    split; [|split]; in_range.
Defined.

(** ** [aspeed_pwm_config] *)

Section PwmConfig.

Variable dm : data_model.
Variables tick period : Z.
Hypothesis Htick : 1 <= tick <= 1000000.
Hypothesis Hperiod : 0 <= period <= 1000000000.

(** The tick length of a divider pair, without wrap-around. *)
Local Abbreviation T := (fun h l => tick * 2 ^ h * (l + 1)).

Lemma pwm_config_tick_exact h l :
  0 <= h <= 15 -> 0 <= l <= 255 -> T h l * 255 < 2 ^ 32 ->
  pwm_config_tick dm tick h l = T h l.
Proof.
  intros Hh Hl Hfit. unfold pwm_config_tick.
  assert (1 <= 2 ^ h) by (apply (Z.pow_le_mono_r 2 0 h); lia).
  rewrite BIT_pow2 by lia.
  assert (tick * 2 ^ h <= tick * 2 ^ h * (l + 1)) by nia.
  rewrite (ulong_small dm (tick * 2 ^ h)) by (unfold is_u32; nia).
  rewrite ulong_small by (unfold is_u32; nia).
  apply u32_small. unfold is_u32. nia.
Qed.

Lemma pwm_config_fits_exact t :
  0 <= t -> t * 255 < 2 ^ 32 ->
  pwm_config_fits t period = (period <=? t * 255).
Proof.
  intros Ht Hfit. unfold pwm_config_fits, PWM_PERIOD_MAX.
  rewrite (u32_small (t * 255)) by (unfold is_u32; lia).
  rewrite (u32_small period)
    by (unfold is_u32; change (2 ^ 32) with 4294967296; lia).
  rewrite Z.geb_leb. reflexivity.
Qed.

Lemma T_double h l : 0 <= h -> T (h + 1) l = 2 * T h l.
Proof.
  intros Hh. cbv beta.
  rewrite Z.pow_add_r by lia. change (2 ^ 1) with 2. ring.
Qed.

(** Inner scan of one row. *)
Lemma pwm_config_inner_inv l n : 0 <= l <= 255 -> forall h tk,
  0 <= h -> h + Z.of_nat n <= 16 ->
  (n <> O -> T h l * 255 < 2 ^ 32) ->
  (forall j, 0 <= j < h -> T j l * 255 < period) ->
  exists h' tk',
    pwm_config_inner dm n tick h l tk period = (h', tk') /\
    h <= h' <= h + Z.of_nat n /\
    (forall j, 0 <= j < h' -> T j l * 255 < period) /\
    (h' < h + Z.of_nat n ->
       tk' = T h' l /\ period <= tk' * 255 /\ tk' * 255 < 2 ^ 32) /\
    (h' = h + Z.of_nat n -> n <> O ->
       tk' = T (h' - 1) l /\ tk' * 255 < period).
Proof.
  intros Hl. induction n as [|n IH]; intros h tk Hh Hn Hfit Hlow.
  - exists h, tk. simpl. repeat split; try lia. exact Hlow.
  - specialize (Hfit ltac:(discriminate)).
    assert (0 < T h l) as Hpos.
    { assert (0 < 2 ^ h) by (apply Z.pow_pos_nonneg; lia). cbv beta. nia. }
    cbn [pwm_config_inner].
    rewrite pwm_config_tick_exact by (try exact Hfit; lia).
    rewrite pwm_config_fits_exact by (try exact Hfit; lia).
    destruct (Z.leb_spec period (T h l * 255)) as [Hhit|Hmiss].
    + exists h, (T h l). repeat split; try lia; try exact Hlow; exact Hfit.
    + assert (u8 (h + 1) = h + 1) as -> by (apply wrap_small; lia).
      destruct (IH (h + 1) (T h l)) as (h' & tk' & E & Hr & Hl' & Hhit & Hex);
        try lia.
      { intros _. rewrite T_double by lia.
        change (2 ^ 32) with 4294967296. lia. }
      { intros j Hj. destruct (Z.eq_dec j h) as [->|]; [exact Hmiss|].
        apply Hlow. lia. }
      exists h', tk'. split; [exact E|]. split; [lia|]. split; [exact Hl'|].
      split.
      * intros Hlt. apply Hhit. lia.
      * intros Heq _. destruct n as [|n'].
        -- simpl in E. injection E as <- <-.
           replace (h + 1 - 1) with h by lia. split; [reflexivity|exact Hmiss].
        -- apply Hex; [lia|discriminate].
Qed.

(** A row that fails at every exponent is one of the first 119. *)
Lemma pwm_config_row_fails l :
  0 <= l -> T 15 l * 255 < period -> l <= 118.
Proof.
  intros Hl Hfail. cbv beta in Hfail. change (2 ^ 15) with 32768 in Hfail.
  nia.
Qed.

(** Outer scan. *)
Lemma pwm_config_outer_inv fuel : forall l tk,
  0 <= l -> 120 <= l + Z.of_nat fuel ->
  (forall l' h, 0 <= l' < l -> 0 <= h <= 15 -> T h l' * 255 < period) ->
  exists h l',
    pwm_config_outer dm fuel tick l tk period = Some (h, l', T h l') /\
    0 <= h <= 15 /\ l <= l' <= 119 /\
    period <= T h l' * 255 /\ T h l' * 255 < 2 ^ 32 /\
    (forall l'' j, 0 <= l'' < l' -> 0 <= j <= 15 -> T j l'' * 255 < period) /\
    (forall j, 0 <= j < h -> T j l' * 255 < period).
Proof.
  induction fuel as [|fuel IH]; intros l tk Hl Hfuel Hprev.
  - exfalso. simpl in Hfuel.
    specialize (Hprev (l - 1) 15 ltac:(lia) ltac:(lia)).
    apply pwm_config_row_fails in Hprev; lia.
  - assert (l <= 119) as Hl119.
    { destruct (Z.eq_dec l 0) as [->|Hne]; [lia|].
      specialize (Hprev (l - 1) 15 ltac:(lia) ltac:(lia)).
      apply pwm_config_row_fails in Hprev; lia. }
    assert (T 0 l * 255 < 2 ^ 32) as Hfit0.
    { cbv beta. change (2 ^ 0) with 1. change (2 ^ 32) with 4294967296.
      destruct (Z.eq_dec l 0) as [->|Hne]; [lia|].
      specialize (Hprev (l - 1) 0 ltac:(lia) ltac:(lia)).
      cbv beta in Hprev. change (2 ^ 0) with 1 in Hprev. lia. }
    destruct (pwm_config_inner_inv l 16 ltac:(lia) 0 tk ltac:(lia) ltac:(lia))
      as (h & tk' & E & Hr & Hlow & Hhit & Hex);
      [intros _; exact Hfit0|intros; lia|].
    cbn [pwm_config_outer]. rewrite E.
    destruct (Z.eq_dec h 16) as [->|Hne].
    + destruct (Hex ltac:(lia) ltac:(discriminate)) as [-> Hmiss].
      replace (16 - 1) with 15 in * by lia.
      rewrite pwm_config_fits_exact
        by (try (change (2 ^ 32) with 4294967296); cbv beta in *; nia).
      destruct (Z.leb_spec period (T 15 l * 255)); [lia|].
      pose proof (pwm_config_row_fails l Hl Hmiss) as Hl118.
      assert (u8 (l + 1) = l + 1) as -> by (apply wrap_small; lia).
      destruct (IH (l + 1) (T 15 l)) as (h' & l' & E' & Hh' & Hl' & Hrest);
        try lia.
      { intros l0 h0 Hl0 Hh0.
        destruct (Z.eq_dec l0 l) as [->|]; [|apply Hprev; lia].
        apply Hlow. lia. }
      exists h', l'. split; [exact E'|]. split; [exact Hh'|].
      split; [lia|exact Hrest].
    + destruct (Hhit ltac:(lia)) as (-> & Hge & Hfit).
      rewrite pwm_config_fits_exact by (try exact Hfit; cbv beta; nia).
      destruct (Z.leb_spec period (T h l * 255)); [|lia].
      exists h, l. split; [reflexivity|]. split; [lia|]. split; [lia|].
      split; [exact Hge|]. split; [exact Hfit|]. split; [exact Hprev|].
      exact Hlow.
Qed.

End PwmConfig.

Section PwmConfigRun.

Lemma clk_tick_ns_range dm priv :
  1000 <= clk_freq priv <= 1000000000 ->
  1 <= clk_tick_ns dm priv <= 1000000.
Proof.
  intros Hclk. unfold clk_tick_ns, NSEC_PER_SEC.
  rewrite (ulong_small dm 1000000000) by in_range.
  assert (1 <= 1000000000 / clk_freq priv <= 1000000) as Hq.
  { split.
    - apply Z.div_le_lower_bound; lia.
    - apply Z.div_le_upper_bound; lia. }
  rewrite u32_small; [exact Hq|].
  unfold is_u32. change (2 ^ 32) with 4294967296. lia.
Qed.

(** The divider mask of [aspeed_pwm_config] leaves the gating bits
    alone. *)
Lemma config_ctrl_update_keeps_gates m ch v :
  pwm_clk_enabled
    (regmap_update_bits m (ASPEED_PWM_CTRL_CH ch)
       (Z.lor PWM_CLK_DIV_H_MASK PWM_CLK_DIV_L_MASK) v) ch
    = pwm_clk_enabled m ch /\
  pwm_pin_enabled
    (regmap_update_bits m (ASPEED_PWM_CTRL_CH ch)
       (Z.lor PWM_CLK_DIV_H_MASK PWM_CLK_DIV_L_MASK) v) ch
    = pwm_pin_enabled m ch.
Proof.
  unfold pwm_clk_enabled, pwm_pin_enabled.
  rewrite !regmap_update_bits_peek, !testbit_u32 by lia.
  rewrite !Z.lor_spec, !Z.land_spec, !Z.lnot_spec by lia.
  change (Z.testbit (Z.lor PWM_CLK_DIV_H_MASK PWM_CLK_DIV_L_MASK) 16)
    with false.
  change (Z.testbit (Z.lor PWM_CLK_DIV_H_MASK PWM_CLK_DIV_L_MASK) 12)
    with false.
  simpl. rewrite !andb_true_r, !andb_false_r, !orb_false_r.
  split; reflexivity.
Qed.

(** A run of [aspeed_pwm_config] on a new configuration. *)
Lemma pwm_config_run (dm : data_model) (fuel : nat)
    (priv : aspeed_pwm_tachometer_data) (chan : aspeed_pwm_output_chan)
    (hwpwm duty period : Z) :
  (120 <= fuel)%nat ->
  1000 <= clk_freq priv <= 1000000000 ->
  0 <= period <= 1000000000 -> 0 <= duty <= period ->
  period_ns chan <> period \/ duty_ns chan <> duty ->
  exists div_h div_l priv',
    let tick_ns := clk_tick_ns dm priv * 2 ^ div_h * (div_l + 1) in
    aspeed_pwm_config dm fuel priv chan hwpwm duty period
      = Done (0, priv', {| period_ns := period; duty_ns := duty |}) /\
    0 <= div_h <= 15 /\ 0 <= div_l <= 119 /\
    0 < tick_ns /\ period <= tick_ns * 255 /\
    (forall l j,
       0 <= l < div_l /\ 0 <= j <= 15 \/ l = div_l /\ 0 <= j < div_h ->
       clk_tick_ns dm priv * 2 ^ j * (l + 1) * 255 < period) /\
    reg_ops (regmap priv')
      = reg_ops (regmap priv)
        ++ [RegUpdateBits (ASPEED_PWM_DUTY_CYCLE_CH hwpwm)
              (Z.lor PWM_PERIOD_BIT_MASK PWM_RISING_FALLING_MASK)
              (u32 (Z.lor (Z.shiftl (period / tick_ns) 24)
                      (Z.shiftl (duty / tick_ns) 8)));
            RegUpdateBits (ASPEED_PWM_CTRL_CH hwpwm)
              (Z.lor PWM_CLK_DIV_H_MASK PWM_CLK_DIV_L_MASK)
              (u32 (Z.lor (Z.shiftl div_h 8) div_l))] /\
    duty / tick_ns <= period / tick_ns <= 255 /\
    pwm_clk_enabled (regmap priv') hwpwm = pwm_clk_enabled (regmap priv) hwpwm /\
    pwm_pin_enabled (regmap priv') hwpwm = pwm_pin_enabled (regmap priv) hwpwm /\
    pwm_channel priv' = pwm_channel priv.
Proof.
  intros Hfuel Hclk Hp Hd Hnew.
  pose proof (clk_tick_ns_range dm priv Hclk) as Htick.
  destruct (pwm_config_outer_inv dm (clk_tick_ns dm priv) period Htick Hp
              fuel 0 0 ltac:(lia) ltac:(lia))
    as (h & l & E & Hh & Hl & Hge & Hfit & Hrows & Hrow); [intros; lia|].
  set (tk := clk_tick_ns dm priv * 2 ^ h * (l + 1)) in *.
  assert (0 < tk) as Htk.
  { assert (0 < 2 ^ h) by (apply Z.pow_pos_nonneg; lia). unfold tk. nia. }
  assert (u32 period = period) as Ep
    by (apply u32_small; unfold is_u32; change (2 ^ 32) with 4294967296; lia).
  assert (u32 duty = duty) as Ed
    by (apply u32_small; unfold is_u32; change (2 ^ 32) with 4294967296; lia).
  assert (period / tk <= 255) as Hq
    by (apply Z.div_le_upper_bound; lia).
  assert (0 <= duty / tk <= period / tk) as Hr.
  { split; [apply Z.div_pos; lia|apply Z.div_le_mono; lia]. }
  exists h, l. eexists. cbv zeta. fold tk.
  unfold aspeed_pwm_config, NSEC_PER_SEC.
  destruct (Z.gtb_spec period 1000000000); [lia|].
  rewrite Ep, Ed.
  assert ((period_ns chan =? period) && (duty_ns chan =? duty) = false) as ->.
  { apply andb_false_iff.
    destruct Hnew; [left|right]; apply Z.eqb_neq; assumption. }
  rewrite E. rewrite udiv_Some by lia. unfold PWM_PERIOD_MAX.
  destruct (Z.gtb_spec (period / tk) 255); [lia|].
  assert (u8 (period / tk) = period / tk) as ->.
  { apply wrap_small. split; [apply Z.div_pos; lia|].
    change (2 ^ 8) with 256. lia. }
  assert (u8 (duty / tk) = duty / tk) as ->
    by (apply wrap_small; change (2 ^ 8) with 256; lia).
  split; [reflexivity|].
  split; [exact Hh|]. split; [lia|]. split; [exact Htk|].
  split; [exact Hge|]. split; [|split; [|split; [lia|]]].
  - intros l0 j [[Hl0 Hj]|[-> Hj]]; [apply Hrows|apply Hrow]; lia.
  - simpl. unfold PWM_PERIOD_BIT, PWM_RISING_RISING_BIT,
      PWM_RISING_FALLING_BIT.
    rewrite Z.shiftl_0_l, Z.lor_0_r, <- app_assoc. reflexivity.
  - simpl.
    match goal with
    | |- context [regmap_update_bits ?m (ASPEED_PWM_CTRL_CH hwpwm) _ ?v] =>
        destruct (config_ctrl_update_keeps_gates m hwpwm v) as [-> ->]
    end.
    unfold pwm_clk_enabled, pwm_pin_enabled.
    rewrite regmap_update_bits_peek_ne
      by (unfold ASPEED_PWM_DUTY_CYCLE_CH, ASPEED_PWM_CTRL_CH; lia).
    repeat split; reflexivity.
Qed.

End PwmConfigRun.

(** X11: for a source clock between 1 kHz and 1 GHz, a period of at most
    one second and a duty within the period, [aspeed_pwm_config] on a
    new configuration terminates (120 rounds of the outer loop are
    enough) and returns 0. The divider pair it programs lies on the
    ladder ([div_h <= 15], [div_l <= 119]), is the first pair in scan
    order whose 255 ticks cover the period, and the period and duty
    fields it writes are [period / tick] and [duty / tick], both at most
    255. It performs exactly two masked updates, duty register first,
    and leaves the gating bits and the channel parameters as they
    were. *)
Theorem pwm_config_programs_first_fit (dm : data_model) (fuel : nat)
    (priv : aspeed_pwm_tachometer_data) (chan : aspeed_pwm_output_chan)
    (hwpwm duty period : Z) :
  (120 <= fuel)%nat ->
  1000 <= clk_freq priv <= 1000000000 ->
  0 <= period <= 1000000000 -> 0 <= duty <= period ->
  period_ns chan <> period \/ duty_ns chan <> duty ->
  exists div_h div_l priv',
    let tick_ns := clk_tick_ns dm priv * 2 ^ div_h * (div_l + 1) in
    aspeed_pwm_config dm fuel priv chan hwpwm duty period
      = Done (0, priv', {| period_ns := period; duty_ns := duty |}) /\
    0 <= div_h <= 15 /\ 0 <= div_l <= 119 /\
    0 < tick_ns /\ period <= tick_ns * 255 /\
    (forall l j,
       0 <= l < div_l /\ 0 <= j <= 15 \/ l = div_l /\ 0 <= j < div_h ->
       clk_tick_ns dm priv * 2 ^ j * (l + 1) * 255 < period) /\
    reg_ops (regmap priv')
      = reg_ops (regmap priv)
        ++ [RegUpdateBits (ASPEED_PWM_DUTY_CYCLE_CH hwpwm)
              (Z.lor PWM_PERIOD_BIT_MASK PWM_RISING_FALLING_MASK)
              (u32 (Z.lor (Z.shiftl (period / tick_ns) 24)
                      (Z.shiftl (duty / tick_ns) 8)));
            RegUpdateBits (ASPEED_PWM_CTRL_CH hwpwm)
              (Z.lor PWM_CLK_DIV_H_MASK PWM_CLK_DIV_L_MASK)
              (u32 (Z.lor (Z.shiftl div_h 8) div_l))] /\
    duty / tick_ns <= period / tick_ns <= 255 /\
    pwm_clk_enabled (regmap priv') hwpwm = pwm_clk_enabled (regmap priv) hwpwm /\
    pwm_pin_enabled (regmap priv') hwpwm = pwm_pin_enabled (regmap priv) hwpwm /\
    pwm_channel priv' = pwm_channel priv.
Proof. apply pwm_config_run. Qed.

Lemma pwm_config_programs_first_fit_witness :
  exists div_h div_l priv',
    let tick_ns :=
      clk_tick_ns ILP32 (probe_data 24000000) * 2 ^ div_h * (div_l + 1) in
    aspeed_pwm_config ILP32 300 (probe_data 24000000)
      {| period_ns := 0; duty_ns := 0 |} 2 20000 40000
      = Done (0, priv', {| period_ns := 40000; duty_ns := 20000 |}) /\
    0 <= div_h <= 15 /\ 0 <= div_l <= 119 /\
    0 < tick_ns /\ 40000 <= tick_ns * 255 /\
    (forall l j,
       0 <= l < div_l /\ 0 <= j <= 15 \/ l = div_l /\ 0 <= j < div_h ->
       clk_tick_ns ILP32 (probe_data 24000000) * 2 ^ j * (l + 1) * 255
       < 40000) /\
    reg_ops (regmap priv')
      = reg_ops (regmap (probe_data 24000000))
        ++ [RegUpdateBits (ASPEED_PWM_DUTY_CYCLE_CH 2)
              (Z.lor PWM_PERIOD_BIT_MASK PWM_RISING_FALLING_MASK)
              (u32 (Z.lor (Z.shiftl (40000 / tick_ns) 24)
                      (Z.shiftl (20000 / tick_ns) 8)));
            RegUpdateBits (ASPEED_PWM_CTRL_CH 2)
              (Z.lor PWM_CLK_DIV_H_MASK PWM_CLK_DIV_L_MASK)
              (u32 (Z.lor (Z.shiftl div_h 8) div_l))] /\
    20000 / tick_ns <= 40000 / tick_ns <= 255 /\
    pwm_clk_enabled (regmap priv') 2
      = pwm_clk_enabled (regmap (probe_data 24000000)) 2 /\
    pwm_pin_enabled (regmap priv') 2
      = pwm_pin_enabled (regmap (probe_data 24000000)) 2 /\
    pwm_channel priv' = pwm_channel (probe_data 24000000).
Proof.
  apply (pwm_config_programs_first_fit ILP32 300 (probe_data 24000000)
           {| period_ns := 0; duty_ns := 0 |} 2 20000 40000).
  - lia.
  - simpl. lia.
  - lia.
  - lia.
  - left. simpl. lia.
Defined.

(** X12: calls of [aspeed_pwm_config] that do nothing. A period above
    one second is refused with [-ERANGE] before anything is computed,
    and once a configuration has been programmed, asking for the same
    period and duty again returns 0 at once; in both cases there is no
    register operation and no change of the driver or channel data, and
    no fuel is needed. *)
Theorem pwm_config_noop_calls (dm : data_model) (fuel : nat)
    (priv : aspeed_pwm_tachometer_data) (chan : aspeed_pwm_output_chan)
    (hwpwm duty period : Z) :
  (120 <= fuel)%nat ->
  1000 <= clk_freq priv <= 1000000000 ->
  0 <= period <= 1000000000 -> 0 <= duty <= period ->
  (forall bad fuel', 1000000000 < bad ->
     aspeed_pwm_config dm fuel' priv chan hwpwm duty bad
     = Done (- ERANGE, priv, chan)) /\
  exists priv' chan',
    aspeed_pwm_config dm fuel priv chan hwpwm duty period
      = Done (0, priv', chan') /\
    forall fuel',
      aspeed_pwm_config dm fuel' priv' chan' hwpwm duty period
      = Done (0, priv', chan').
Proof.
  intros Hfuel Hclk Hp Hd.
  assert (u32 period = period) as Ep
    by (apply u32_small; unfold is_u32; change (2 ^ 32) with 4294967296; lia).
  assert (u32 duty = duty) as Ed
    by (apply u32_small; unfold is_u32; change (2 ^ 32) with 4294967296; lia).
  assert (Hsame : forall fuel' p c,
            period_ns c = period -> duty_ns c = duty ->
            aspeed_pwm_config dm fuel' p c hwpwm duty period = Done (0, p, c)).
  { intros fuel' p c E1 E2. unfold aspeed_pwm_config, NSEC_PER_SEC.
    destruct (Z.gtb_spec period 1000000000); [lia|].
    rewrite Ep, Ed, E1, E2, !Z.eqb_refl. reflexivity. }
  split.
  - intros bad fuel' Hbad. unfold aspeed_pwm_config, NSEC_PER_SEC.
    destruct (Z.gtb_spec bad 1000000000); [reflexivity|lia].
  - destruct (Z.eq_dec (period_ns chan) period) as [E1|N1];
      [destruct (Z.eq_dec (duty_ns chan) duty) as [E2|N2]|].
    + exists priv, chan. split; [|intros fuel']; apply Hsame; assumption.
    + destruct (pwm_config_run dm fuel priv chan hwpwm duty period
                  Hfuel Hclk Hp Hd ltac:(right; exact N2))
        as (h & l & priv' & E & _).
      eexists _, _. split; [exact E|]. intros fuel'.
      apply Hsame; reflexivity.
    + destruct (pwm_config_run dm fuel priv chan hwpwm duty period
                  Hfuel Hclk Hp Hd ltac:(left; exact N1))
        as (h & l & priv' & E & _).
      eexists _, _. split; [exact E|]. intros fuel'.
      apply Hsame; reflexivity.
Qed.

Lemma pwm_config_noop_calls_witness :
  (forall bad fuel', 1000000000 < bad ->
     aspeed_pwm_config ILP32 fuel' (probe_data 24000000)
       {| period_ns := 0; duty_ns := 0 |} 2 20000 bad
     = Done (- ERANGE, probe_data 24000000,
             {| period_ns := 0; duty_ns := 0 |})) /\
  exists priv' chan',
    aspeed_pwm_config ILP32 300 (probe_data 24000000)
      {| period_ns := 0; duty_ns := 0 |} 2 20000 40000
      = Done (0, priv', chan') /\
    forall fuel',
      aspeed_pwm_config ILP32 fuel' priv' chan' 2 20000 40000
      = Done (0, priv', chan').
Proof.
  apply (pwm_config_noop_calls ILP32 300 (probe_data 24000000)
           {| period_ns := 0; duty_ns := 0 |} 2 20000 40000).
  - lia.
  - simpl. lia.
  - lia.
  - lia.
Defined.

(** X13: with a source clock above 1 GHz the stored tick length is 0,
    and for every positive period of at most one second that differs
    from the stored configuration the divider search of
    [aspeed_pwm_config] never leaves its outer loop: the [u8] counter
    [div_l] wraps and no pair ever fits, whatever the number of rounds
    followed. *)
Theorem pwm_config_spins_on_fast_clock (dm : data_model) (fuel : nat)
    (priv : aspeed_pwm_tachometer_data) (chan : aspeed_pwm_output_chan)
    (hwpwm duty period : Z) :
  1000000000 < clk_freq priv ->
  0 < period <= 1000000000 ->
  period_ns chan <> period ->
  aspeed_pwm_config dm fuel priv chan hwpwm duty period = OutOfFuel.
Proof.
  intros Hclk Hp Hnew.
  assert (clk_tick_ns dm priv = 0) as Etick.
  { unfold clk_tick_ns, NSEC_PER_SEC.
    rewrite (ulong_small dm 1000000000) by in_range.
    rewrite Z.div_small by lia. reflexivity. }
  assert (u32 period = period) as Ep
    by (apply u32_small; unfold is_u32; change (2 ^ 32) with 4294967296; lia).
  assert (Htick0 : forall h l, pwm_config_tick dm 0 h l = 0).
  { intros h l. unfold pwm_config_tick.
    change (0 * BIT dm h) with 0. destruct dm; reflexivity. }
  assert (Hfits0 : pwm_config_fits 0 period = false).
  { unfold pwm_config_fits. rewrite Ep.
    change (u32 (0 * PWM_PERIOD_MAX)) with 0.
    rewrite Z.geb_leb. apply Z.leb_gt. lia. }
  assert (Hinner : forall n h l tk,
            pwm_config_fits tk period = false ->
            pwm_config_fits
              (snd (pwm_config_inner dm n 0 h l tk period)) period = false).
  { induction n as [|n IH]; intros h l tk Htk; [exact Htk|].
    cbn [pwm_config_inner]. rewrite Htick0, Hfits0. apply IH. exact Hfits0. }
  assert (Houter : forall f l tk,
            pwm_config_fits tk period = false ->
            pwm_config_outer dm f 0 l tk period = None).
  { induction f as [|f IH]; intros l tk Htk; [reflexivity|].
    cbn [pwm_config_outer].
    pose proof (Hinner 16%nat 0 l tk Htk) as Hi.
    destruct (pwm_config_inner dm 16 0 0 l tk period) as [h' tk'].
    simpl in Hi. rewrite Hi. apply IH. exact Hi. }
  unfold aspeed_pwm_config, NSEC_PER_SEC.
  destruct (Z.gtb_spec period 1000000000); [lia|].
  rewrite Ep.
  destruct (Z.eqb_spec (period_ns chan) period); [contradiction|].
  simpl. rewrite Etick, Houter by exact Hfits0. reflexivity.
Qed.

Lemma pwm_config_spins_on_fast_clock_witness :
  aspeed_pwm_config ILP32 1000 (probe_data 1200000000)
    {| period_ns := 0; duty_ns := 0 |} 0 500 1000 = OutOfFuel.
Proof.
  apply (pwm_config_spins_on_fast_clock ILP32 1000 (probe_data 1200000000)
           {| period_ns := 0; duty_ns := 0 |} 0 500 1000).
  - simpl. lia.
  - lia.
  - simpl. lia.
Defined.

(** ** ADC: accepted writes, read-back and set-up arithmetic *)

(** An in-range sampling-frequency write on a model of the match table. *)
Lemma adc_write_raw_in_range {clk_state : Type}
    (clk_set_rate :
       Adc.aspeed_adc_data clk_state -> Z -> Adc.aspeed_adc_data clk_state)
    (dm : data_model) (model : Adc.aspeed_adc_model_data)
    (data : Adc.aspeed_adc_data clk_state) (val val2 : Z) :
  model ∈ Adc.aspeed_adc_matches ->
  Adc.min_sampling_rate model <= val <= Adc.max_sampling_rate model ->
  Adc.aspeed_adc_write_raw clk_set_rate dm model data val val2
    Adc.IIO_CHAN_INFO_SAMP_FREQ
  = (0, clk_set_rate data (val * 12)).
Proof.
  intros Hm Hr.
  destruct (aspeed_adc_matches_bounds model Hm) as [Hmin Hmax].
  assert (Hmax' : Adc.max_sampling_rate model <= 1000000).
  { unfold Adc.aspeed_adc_matches in Hm.
    rewrite !elem_of_cons, elem_of_nil in Hm.
    destruct Hm as [->|[->|[->|[]]]]; simpl; lia. }
  unfold Adc.aspeed_adc_write_raw, Adc.ASPEED_CLOCKS_PER_SAMPLE.
  rewrite (u32_small val)
    by (unfold is_u32; change (2 ^ 32) with 4294967296; lia).
  destruct (Z.ltb_spec val (Adc.min_sampling_rate model)); [lia|].
  destruct (Z.gtb_spec val (Adc.max_sampling_rate model)); [lia|].
  simpl. unfold ulong_of_int.
  rewrite s32_small by (change (2 ^ 31) with 2147483648; lia).
  rewrite ulong_small
    by (unfold is_u32; change (2 ^ 32) with 4294967296; lia).
  reflexivity.
Qed.

(** X14: on the models of the match table a write succeeds exactly for
    the sampling-frequency attribute with a value within the model's
    bounds, and then the only effect is one [clk_set_rate] call asking
    for 12 clocks per sample, [val * 12]. *)
Theorem adc_write_raw_accepts {clk_state : Type}
    (clk_set_rate :
       Adc.aspeed_adc_data clk_state -> Z -> Adc.aspeed_adc_data clk_state)
    (dm : data_model) (model : Adc.aspeed_adc_model_data)
    (data : Adc.aspeed_adc_data clk_state) (val val2 : Z)
    (mask : Adc.iio_chan_info) :
  model ∈ Adc.aspeed_adc_matches -> is_s32 val ->
  (fst (Adc.aspeed_adc_write_raw clk_set_rate dm model data val val2 mask) = 0
   <-> mask = Adc.IIO_CHAN_INFO_SAMP_FREQ /\
       Adc.min_sampling_rate model <= val <= Adc.max_sampling_rate model) /\
  (Adc.min_sampling_rate model <= val <= Adc.max_sampling_rate model ->
   Adc.aspeed_adc_write_raw clk_set_rate dm model data val val2
     Adc.IIO_CHAN_INFO_SAMP_FREQ
   = (0, clk_set_rate data (val * 12))).
Proof.
  intros Hm Hval.
  destruct (aspeed_adc_matches_bounds model Hm) as [Hmin Hmax].
  assert (Hin : Adc.min_sampling_rate model <= val
                  <= Adc.max_sampling_rate model ->
          Adc.aspeed_adc_write_raw clk_set_rate dm model data val val2
            Adc.IIO_CHAN_INFO_SAMP_FREQ
          = (0, clk_set_rate data (val * 12)))
    by (apply adc_write_raw_in_range; exact Hm).
  split; [|exact Hin]. split.
  - intros Hret. destruct mask; try (simpl in Hret; discriminate).
    split; [reflexivity|].
    destruct (Z.lt_ge_cases val (Adc.min_sampling_rate model)) as [Hlo|Hlo];
      [|destruct (Z.lt_ge_cases (Adc.max_sampling_rate model) val)
          as [Hhi|Hhi]; [|lia]];
      unfold Adc.aspeed_adc_write_raw in Hret;
      rewrite samp_freq_out_of_range in Hret by (try assumption; lia);
      simpl in Hret; discriminate.
  - intros [-> Hr]. rewrite Hin by exact Hr. reflexivity.
Qed.

Lemma adc_write_raw_accepts_witness :
  (fst (Adc.aspeed_adc_write_raw example_clk_set_rate ILP32
          Adc.ast2600_model_data example_adc_data 5000 0
          Adc.IIO_CHAN_INFO_SAMP_FREQ) = 0
   <-> Adc.IIO_CHAN_INFO_SAMP_FREQ = Adc.IIO_CHAN_INFO_SAMP_FREQ /\
       Adc.min_sampling_rate Adc.ast2600_model_data <= 5000
         <= Adc.max_sampling_rate Adc.ast2600_model_data) /\
  Adc.aspeed_adc_write_raw example_clk_set_rate ILP32
    Adc.ast2600_model_data example_adc_data 5000 0
    Adc.IIO_CHAN_INFO_SAMP_FREQ
  = (0, example_clk_set_rate example_adc_data (5000 * 12)).
Proof.
  assert (Adc.ast2600_model_data ∈ Adc.aspeed_adc_matches) as Hm
    by (unfold Adc.aspeed_adc_matches; rewrite !elem_of_cons; tauto).
  assert (is_s32 5000) as Hv by in_range.
  destruct (adc_write_raw_accepts example_clk_set_rate ILP32
              Adc.ast2600_model_data example_adc_data 5000 0
              Adc.IIO_CHAN_INFO_SAMP_FREQ Hm Hv) as [Hiff Hin].
  split; [exact Hiff|]. apply Hin. simpl. lia.
Defined.

(** X15: when the clock framework grants the requested rate exactly, an
    accepted sampling-frequency write reads back unchanged: the read
    callback returns the value written, as a plain integer. *)
Theorem adc_samp_freq_round_trip {clk_state : Type}
    (clk_set_rate :
       Adc.aspeed_adc_data clk_state -> Z -> Adc.aspeed_adc_data clk_state)
    (clk_get_rate : Adc.aspeed_adc_data clk_state -> Z)
    (dm : data_model) (model : Adc.aspeed_adc_model_data)
    (data : Adc.aspeed_adc_data clk_state) (chan : AdcIo.iio_chan_spec)
    (val val2 : Z) :
  (forall d rate, clk_get_rate (clk_set_rate d rate) = rate) ->
  model ∈ Adc.aspeed_adc_matches ->
  Adc.min_sampling_rate model <= val <= Adc.max_sampling_rate model ->
  exists data',
    Adc.aspeed_adc_write_raw clk_set_rate dm model data val val2
      Adc.IIO_CHAN_INFO_SAMP_FREQ = (0, data') /\
    AdcIo.aspeed_adc_read_raw clk_get_rate model data' chan
      Adc.IIO_CHAN_INFO_SAMP_FREQ = AdcIo.IIO_VAL_INT val.
Proof.
  intros Hexact Hm Hr.
  destruct (aspeed_adc_matches_bounds model Hm) as [Hmin Hmax].
  eexists.
  split; [apply (adc_write_raw_in_range _ _ _ _ _ _ Hm Hr)|].
  unfold AdcIo.aspeed_adc_read_raw, Adc.ASPEED_CLOCKS_PER_SAMPLE.
  rewrite Hexact, Z.div_mul by lia.
  rewrite s32_small by (change (2 ^ 31) with 2147483648 in *; lia).
  reflexivity.
Qed.

Lemma adc_samp_freq_round_trip_witness :
  exists data',
    Adc.aspeed_adc_write_raw example_clk_set_rate ILP32
      Adc.ast2600_model_data example_adc_data 5000 0
      Adc.IIO_CHAN_INFO_SAMP_FREQ = (0, data') /\
    AdcIo.aspeed_adc_read_raw example_clk_get_rate Adc.ast2600_model_data
      data' (AdcIo.ASPEED_CHAN 0 0x10) Adc.IIO_CHAN_INFO_SAMP_FREQ
    = AdcIo.IIO_VAL_INT 5000.
Proof.
  apply (adc_samp_freq_round_trip example_clk_set_rate example_clk_get_rate
           ILP32 Adc.ast2600_model_data example_adc_data
           (AdcIo.ASPEED_CHAN 0 0x10) 5000 0).
  - intros d rate. reflexivity.
  - unfold Adc.aspeed_adc_matches. rewrite !elem_of_cons. tauto.
  - simpl. lia.
Defined.

(** X16: the reference-voltage selection of [probe]. 1200 mV selects
    the 1.2 V setting; 1550..2700 mV other than 2500 selects the
    external 1.55 V setting (so the overlap 1550..1650 goes there);
    900..1549 mV other than 1200 selects the 0.9 V setting; everything
    else, 2500 mV, an absent property and an unsupported voltage alike,
    gives 0. Whatever is selected, the word that starts the engine has
    normal operation mode, the engine-enable bit and all sixteen
    channel-enable bits set, and the compensation bit clear. *)
Theorem adc_probe_ref_voltage_selection (ref_voltage : option Z) :
  let eng_ctrl := AdcIo.probe_ref_voltage_ctrl ref_voltage in
  (eng_ctrl = 0x40 <-> ref_voltage = Some 1200) /\
  (eng_ctrl = 0x80 <->
     exists v, ref_voltage = Some v /\ 1550 <= v <= 2700 /\ v <> 2500) /\
  (eng_ctrl = 0xC0 <->
     exists v, ref_voltage = Some v /\ 900 <= v <= 1549 /\ v <> 1200) /\
  (eng_ctrl = 0 \/ eng_ctrl = 0x40 \/ eng_ctrl = 0x80 \/ eng_ctrl = 0xC0) /\
  Z.land (AdcIo.probe_engine_control eng_ctrl) 0xFFFF003F = 0xFFFF000F /\
  Z.land (AdcIo.probe_engine_control eng_ctrl) 0xC0 = eng_ctrl.
Proof.
  intros eng_ctrl. subst eng_ctrl.
  assert (Hcases :
    AdcIo.probe_ref_voltage_ctrl ref_voltage = 0 /\
      (ref_voltage = None \/
       exists v, ref_voltage = Some v /\
         (v = 2500 \/ v < 900 \/ 2700 < v)) \/
    AdcIo.probe_ref_voltage_ctrl ref_voltage = 0x40 /\
      ref_voltage = Some 1200 \/
    AdcIo.probe_ref_voltage_ctrl ref_voltage = 0x80 /\
      (exists v, ref_voltage = Some v /\ 1550 <= v <= 2700 /\ v <> 2500) \/
    AdcIo.probe_ref_voltage_ctrl ref_voltage = 0xC0 /\
      (exists v, ref_voltage = Some v /\ 900 <= v <= 1549 /\ v <> 1200)).
  { destruct ref_voltage as [v|]; [|left; split; [reflexivity|left; reflexivity]].
    unfold AdcIo.probe_ref_voltage_ctrl.
    destruct (Z.eqb_spec v 2500) as [->|H1];
      [left; split; [reflexivity|right; exists 2500; split; [reflexivity|lia]]|].
    destruct (Z.eqb_spec v 1200) as [->|H2];
      [right; left; split; reflexivity|].
    destruct (Z.geb_spec v 1550), (Z.leb_spec v 2700); simpl.
    - right; right; left. split; [reflexivity|]. exists v. repeat split; lia.
    - left. split.
      + destruct (Z.geb_spec v 900), (Z.leb_spec v 1650); simpl;
          reflexivity || lia.
      + right. exists v. split; [reflexivity|lia].
    - destruct (Z.geb_spec v 900), (Z.leb_spec v 1650); simpl; try lia.
      + right; right; right. split; [reflexivity|].
        exists v. repeat split; lia.
      + left. split; [reflexivity|]. right. exists v.
        split; [reflexivity|lia].
    - lia. }
  destruct Hcases as [[E H]|[[E H]|[[E H]|[E H]]]]; rewrite E.
  - split; [split; [discriminate|]|split; [split; [discriminate|]|
      split; [split; [discriminate|]|split; [tauto|split; reflexivity]]]].
    + intros ->. destruct H as [H|(v & H & Hv)]; [discriminate|].
      injection H as <-. lia.
    + intros (v & -> & Hv & Hne).
      destruct H as [H|(v' & H & Hv')]; [discriminate|].
      injection H as <-. lia.
    + intros (v & -> & Hv & Hne).
      destruct H as [H|(v' & H & Hv')]; [discriminate|].
      injection H as <-. lia.
  - split; [split; [intros _; exact H|reflexivity]|].
    split; [split; [discriminate|]|split; [split; [discriminate|]|
      split; [tauto|split; reflexivity]]].
    + intros (v & Hv & Hr & Hne). rewrite H in Hv. injection Hv as <-. lia.
    + intros (v & Hv & Hr & Hne). rewrite H in Hv. injection Hv as <-. lia.
  - destruct H as (v & -> & Hv & Hne).
    split; [split; [discriminate|intros Hv'; injection Hv' as ->; lia]|].
    split; [split; [intros _; exists v; repeat split; lia|reflexivity]|].
    split; [split; [discriminate|]|split; [tauto|split; reflexivity]].
    intros (v' & Hv' & Hr & Hne'). injection Hv' as <-. lia.
  - destruct H as (v & -> & Hv & Hne).
    split; [split; [discriminate|intros Hv'; injection Hv' as ->; lia]|].
    split; [split; [discriminate|]|].
    { intros (v' & Hv' & Hr & Hne'). injection Hv' as <-. lia. }
    split; [split; [intros _; exists v; repeat split; lia|reflexivity]|].
    split; [tauto|split; reflexivity].
Qed.

(** X17: the compensating value computed by [probe] is 512 minus the low
    ten bits of channel 0's data register, the register the raw read of
    channel 0 returns, and therefore lies between -511 and 512. *)
Theorem adc_probe_compensating_value_range {clk_state : Type}
    (dm : data_model) (data : Adc.aspeed_adc_data clk_state) :
  AdcIo.probe_compensating_value dm data
    = 0x200 - Z.land (AdcIo.readw data 0x10) 0x3FF /\
  - 511 <= AdcIo.probe_compensating_value dm data <= 512.
Proof.
  unfold AdcIo.probe_compensating_value, AdcIo.readw.
  change (0x10 - 0x10 mod 4) with 0x10. change (8 * (0x10 mod 4)) with 0.
  rewrite Z.shiftr_0_r.
  change (GENMASK 9 0) with (Z.ones 10). change 0x3FF with (Z.ones 10).
  change 0xffff with (Z.ones 16).
  set (w := AdcIo.readl data 16).
  assert (Z.land (Z.land w (Z.ones 16)) (Z.ones 10) = Z.land w (Z.ones 10))
    as ->.
  { rewrite <- Z.land_assoc. reflexivity. }
  rewrite Z.land_ones by lia.
  pose proof (Z.mod_pos_bound w (2 ^ 10) ltac:(lia)) as Hlow.
  change (2 ^ 10) with 1024 in *.
  set (x := w mod 1024) in *.
  assert (s32 (ulong dm (512 - x)) = 512 - x) as ->; [|split; [reflexivity|lia]].
  unfold s32.
  assert (u32 (ulong dm (512 - x)) = (512 - x) mod 2 ^ 32) as ->.
  { unfold u32, ulong, wrap. destruct dm; simpl ulong_bits.
    - apply Z.mod_mod. lia.
    - change (2 ^ 64) with (2 ^ 32 * 2 ^ 32).
      rewrite Z.rem_mul_r by lia.
      rewrite Z.mul_comm, Z.mod_add by lia. apply Z.mod_mod. lia. }
  change (2 ^ 32) with 4294967296. change (2 ^ 31) with 2147483648.
  destruct (Z.le_gt_cases x 512).
  - rewrite Z.mod_small by lia.
    destruct (Z.ltb_spec (512 - x) 2147483648); lia.
  - assert ((512 - x) mod 4294967296 = 512 - x + 4294967296) as ->.
    { symmetry. apply (Z.mod_unique _ _ (-1)); [left|]; lia. }
    destruct (Z.ltb_spec (512 - x + 4294967296) 2147483648); lia.
Qed.

(** ** Status poll and duty-cycle fields *)

(** X18: a tachometer reading looks at no more than three status
    words: two hardware traces that agree on the first three reads give
    the same result, and the reading is taken from the first of these
    words that carries the full-measurement flag. *)
Theorem tach_reading_uses_three_reads (priv : aspeed_pwm_tachometer_data)
    (fan_tach_ch : Z) (sts sts' : nat -> Z) :
  (forall k, (k < 3)%nat -> sts k = sts' k) ->
  aspeed_get_fan_tach_ch_rpm priv fan_tach_ch sts
    = aspeed_get_fan_tach_ch_rpm priv fan_tach_ch sts' /\
  forall k, (k < 3)%nat ->
    (forall j, (j < k)%nat ->
       Z.land TACHO_FULL_MEASUREMENT (u32 (sts j)) = 0) ->
    Z.land TACHO_FULL_MEASUREMENT (u32 (sts k)) <> 0 ->
    aspeed_get_fan_tach_ch_rpm priv fan_tach_ch sts
    = aspeed_get_fan_tach_ch_rpm priv fan_tach_ch (fun _ => sts k).
Proof.
  intros Hagree. unfold aspeed_get_fan_tach_ch_rpm.
  split.
  - rewrite !tach_poll_three.
    rewrite <- (Hagree 0%nat), <- (Hagree 1%nat), <- (Hagree 2%nat) by lia.
    reflexivity.
  - intros k Hk Hclear Hset. rewrite !tach_poll_three.
    apply Z.eqb_neq in Hset. rewrite Hset. simpl.
    destruct k as [|[|[|k]]]; [| | |lia].
    + rewrite Hset. reflexivity.
    + rewrite (Hclear 0%nat) by lia. simpl. rewrite Hset. reflexivity.
    + rewrite (Hclear 0%nat), (Hclear 1%nat) by lia. simpl. reflexivity.
Qed.

Lemma tach_reading_uses_three_reads_witness :
  aspeed_get_fan_tach_ch_rpm (probe_data 24000000) 0
    (fun k => match k with 1%nat => 0x100000 + 1000 | _ => 0 end)
  = aspeed_get_fan_tach_ch_rpm (probe_data 24000000) 0
      (fun _ => 0x100000 + 1000).
Proof.
  apply (proj2 (tach_reading_uses_three_reads (probe_data 24000000) 0
                  (fun k => match k with 1%nat => 0x100000 + 1000 | _ => 0 end)
                  (fun k => match k with 1%nat => 0x100000 + 1000 | _ => 0 end)
                  (fun k _ => eq_refl)) 1%nat).
  - lia.
  - intros j Hj. destruct j as [|j]; [reflexivity|lia].
  - vm_compute. discriminate.
Defined.

(** X19: programming a nonzero 8-bit falling point writes a duty-cycle
    word whose period field is 255, whose falling-point field is the
    value programmed and whose rising-point field is 0, whether or not
    the watchdog reload fields are in use; this is the field that
    [set_pwm] later updates in place. *)
Theorem fan_ctrl_duty_fields (dm : data_model)
    (priv : aspeed_pwm_tachometer_data) (index fan_ctrl : Z)
    (c : aspeed_pwm_channel_params) :
  1 <= fan_ctrl <= 255 ->
  pwm_channel priv !! Z.to_nat index = Some c ->
  is_u32 (clk_freq priv) -> 0 <= target_freq c < 2 ^ 31 ->
  exists priv',
    aspeed_set_pwm_channel_fan_ctrl dm priv index fan_ctrl = Some priv' /\
    let duty := regmap_peek (regmap priv') (ASPEED_PWM_DUTY_CYCLE_CH index) in
    pwm_duty_period_field duty = 255 /\
    pwm_duty_falling_field duty = fan_ctrl /\
    pwm_duty_rising_field duty = 0.
Proof.
  intros Hv Hc Hclk Ht.
  destruct (pwm_divider_search_total dm _ _ Hclk Ht)
    as (h & l & Es & Hh & Hl & Ef).
  unfold aspeed_set_pwm_channel_fan_ctrl.
  destruct (Z.eqb_spec fan_ctrl 0) as [|_]; [lia|].
  rewrite Hc. simpl. rewrite Es. simpl. rewrite Ef. simpl.
  eexists. split; [reflexivity|]. simpl.
  rewrite set_enable_peek_ne
    by (unfold ASPEED_PWM_DUTY_CYCLE_CH, ASPEED_PWM_CTRL_CH; lia).
  rewrite regmap_write_peek_ne
    by (unfold ASPEED_PWM_DUTY_CYCLE_CH, ASPEED_PWM_CTRL_CH; lia).
  rewrite regmap_write_peek.
  set (d := set_pwm_freq _ c).
  assert (Hbits : forall n, 0 <= n < 32 ->
            Z.testbit (u32 (pwm_duty_value d fan_ctrl)) n
            = if n <? 8 then false
              else if n <? 16 then Z.testbit fan_ctrl (n - 8)
              else if n <? 24
              then negb (load_wdt_enable c =? 0)
                   && Z.testbit (load_wdt_rising_falling_pt c) (n - 16)
              else true).
  { intros n Hn. rewrite testbit_u32 by lia.
    assert (Hbase :
      Z.testbit
        (u32 (Z.lor (Z.lor (Z.shiftl PWM_PERIOD_MAX PWM_PERIOD_BIT)
                       (Z.shiftl 0 PWM_RISING_RISING_BIT))
                (Z.shiftl fan_ctrl PWM_RISING_FALLING_BIT))) n
      = if n <? 8 then false
        else if n <? 16 then Z.testbit fan_ctrl (n - 8)
        else if n <? 24 then false else true).
    { rewrite testbit_u32 by lia.
      unfold PWM_PERIOD_MAX, PWM_PERIOD_BIT, PWM_RISING_RISING_BIT,
        PWM_RISING_FALLING_BIT.
      rewrite !Z.lor_spec, !Z.shiftl_spec, Z.testbit_0_l by lia.
      change 255 with (Z.ones 8). rewrite Z.testbit_ones by lia.
      destruct (Z.ltb_spec n 8).
      - rewrite (Z.testbit_neg_r fan_ctrl) by lia.
        destruct (Z.leb_spec 0 (n - 24)); [lia|]. reflexivity.
      - destruct (Z.ltb_spec n 16).
        + destruct (Z.leb_spec 0 (n - 24)); [lia|]. reflexivity.
        + rewrite (testbit_above 8 fan_ctrl) by lia.
          destruct (Z.ltb_spec n 24).
          * destruct (Z.leb_spec 0 (n - 24)); [lia|]. reflexivity.
          * destruct (Z.leb_spec 0 (n - 24)), (Z.ltb_spec (n - 24) 8);
              simpl; lia || reflexivity. }
    unfold pwm_duty_value. change (load_wdt_enable d) with (load_wdt_enable c).
    change (load_wdt_rising_falling_pt d) with (load_wdt_rising_falling_pt c).
    destruct (load_wdt_enable c =? 0).
    - rewrite Hbase.
      destruct (n <? 8), (n <? 16), (n <? 24); reflexivity.
    - rewrite Z.lor_spec, Hbase, testbit_u32 by lia.
      unfold PWM_RISING_FALLING_AS_WDT_BIT.
      destruct (Z.ltb_spec n 8).
      + rewrite Z.shiftl_spec by lia.
        rewrite Z.testbit_neg_r by lia. reflexivity.
      + destruct (Z.ltb_spec n 16).
        * rewrite Z.shiftl_spec by lia.
          rewrite (Z.testbit_neg_r _ (n - 16)) by lia. apply orb_false_r.
        * rewrite Z.shiftl_spec by lia.
          destruct (Z.ltb_spec n 24); simpl; reflexivity. }
  cbv zeta. split; [|split].
  - unfold pwm_duty_period_field, PWM_PERIOD_BIT_MASK, PWM_PERIOD_BIT.
    apply Z.bits_inj'. intros n Hn.
    rewrite Z.shiftr_spec, Z.land_spec, Z.shiftl_spec by lia.
    replace (n + 24 - 24) with n by lia.
    change 255 with (Z.ones 8). rewrite Z.testbit_ones by lia.
    destruct (Z.leb_spec 0 n); [|lia].
    destruct (Z.ltb_spec n 8); simpl.
    + rewrite Hbits by lia.
      destruct (Z.ltb_spec (n + 24) 8); [lia|].
      destruct (Z.ltb_spec (n + 24) 16); [lia|].
      destruct (Z.ltb_spec (n + 24) 24); [lia|]. reflexivity.
    + apply andb_false_r.
  - unfold pwm_duty_falling_field, PWM_RISING_FALLING_BIT.
    apply Z.bits_inj'. intros n Hn.
    rewrite Z.shiftr_spec, Z.land_spec, GENMASK_testbit by lia.
    destruct (Z.ltb_spec n 8).
    + rewrite Hbits by lia.
      destruct (Z.ltb_spec (n + 8) 8); [lia|].
      destruct (Z.ltb_spec (n + 8) 16); [|lia].
      destruct (Z.leb_spec 8 (n + 8)); [|lia].
      destruct (Z.leb_spec (n + 8) 15); [|lia].
      simpl. rewrite andb_true_r. f_equal. lia.
    + destruct (Z.leb_spec (n + 8) 15); [lia|].
      rewrite andb_false_r, andb_false_r.
      symmetry. apply (testbit_above 8); lia.
  - unfold pwm_duty_rising_field.
    apply Z.bits_inj'. intros n Hn.
    rewrite Z.land_spec, Z.testbit_0_l.
    change 255 with (Z.ones 8). rewrite Z.testbit_ones by lia.
    destruct (Z.leb_spec 0 n); [|lia].
    destruct (Z.ltb_spec n 8); simpl.
    + rewrite Hbits by lia.
      destruct (Z.ltb_spec n 8); [|lia]. reflexivity.
    + apply andb_false_r.
Qed.

Lemma fan_ctrl_duty_fields_witness :
  exists priv',
    aspeed_set_pwm_channel_fan_ctrl ILP32 (probe_data 24000000) 0 128
      = Some priv' /\
    let duty := regmap_peek (regmap priv') (ASPEED_PWM_DUTY_CYCLE_CH 0) in
    pwm_duty_period_field duty = 255 /\
    pwm_duty_falling_field duty = 128 /\
    pwm_duty_rising_field duty = 0.
Proof.
  apply (fan_ctrl_duty_fields ILP32 (probe_data 24000000) 0 128
           (default_pwm_entry 1)).
  - lia.
  - reflexivity.
  - in_range.
  - in_range.
Defined.
